(** * Payroll run processing engine: shallow embedding and verified properties

    Embedded sources:
    - [backend/services/tax_service.py]      (TaxService.calculate_taxes)
    - [backend/services/payroll_service.py]  (PayrollService)
    - [backend/services/payment_service.py]  (PaymentService.send_payment_via_plaid)
    - [backend/services/plaid_service.py], [backend/services/pdf_service.py],
      [backend/services/email_service.py]   (error handling of the methods called)
    - [backend/routers/payroll.py]           (create_payroll_run)
    - [backend/routers/timesheets.py]        (create_timesheet, hour totals)
    - [backend/orm_models.py]                (rows and enumerations)

    Python exceptions are values of [Exn]; a computation that may raise
    returns [result].  Database effects are explicit state passing over the
    record [DB].  Money and hours are Python [decimal.Decimal] values under
    the default context (28 significant digits, round-half-even, with
    InvalidOperation, DivisionByZero and Overflow trapped). *)

From Stdlib Require Import ZArith List String Bool Lia.
Import ListNotations.

Open Scope string_scope.
Open Scope list_scope.
Open Scope Z_scope.

(** ** Exceptions and the error monad *)

Inductive Exn : Type :=
| ValueError (msg : string)
| TypeError (msg : string)
| NameError (name : string)
| InvalidOperation
| DivisionByZero
| Overflow
| MultipleResultsFound
| HTTPException (status_code : Z) (detail : string)
| AttributeError (name : string).

Inductive result (A : Type) : Type :=
| Ok (a : A)
| Raise (e : Exn).

Arguments Ok {A} a.
Arguments Raise {A} e.

Definition bind {A B : Type} (m : result A) (k : A -> result B) : result B :=
  match m with
  | Ok a => k a
  | Raise e => Raise e
  end.

Notation "x <- m ;; k" := (bind m (fun x => k))
  (at level 61, m at next level, right associativity).

Definition is_ok {A : Type} (m : result A) : bool :=
  match m with Ok _ => true | Raise _ => false end.

(** ** Python's decimal.Decimal under the default context *)

Module Dec.

(** A finite decimal [coef * 10 ^ exp].  The sign of a zero coefficient
    (Python's [-0]) is not represented; it never influences a comparison or
    an arithmetic value. *)
Record t : Type := mk { coef : Z; exp : Z }.

Definition prec : Z := 28.
Definition Emax : Z := 999999.
Definition Emin : Z := -999999.
Definition Etiny : Z := Emin - prec + 1.
Definition Etop : Z := Emax - prec + 1.

Definition of_int (n : Z) : t := mk n 0.
Definition zero : t := of_int 0.

Fixpoint ndigits_fuel (fuel : nat) (n : Z) : Z :=
  match fuel with
  | O => 1
  | S f => if n <? 10 then 1 else 1 + ndigits_fuel f (n / 10)
  end.

(** [len(self._int)]: number of decimal digits of the coefficient, 1 for 0. *)
Definition ndigits (c : Z) : Z :=
  ndigits_fuel (S (Z.to_nat (Z.log2 (Z.abs c)))) (Z.abs c).

(** [self.adjusted()]: exponent of the most significant digit. *)
Definition adjusted (d : t) : Z := ndigits (coef d) + exp d - 1.

(** Drop the last [k] digits of [c] (k > 0), rounding half to even. *)
Definition round_half_even (c k : Z) : Z :=
  let p := 10 ^ k in
  let q := Z.abs c / p in
  let r := Z.abs c mod p in
  Z.sgn c * (if (2 * r >? p) || ((2 * r =? p) && Z.odd q) then q + 1 else q).

(** [Decimal._fix]: round to the context precision, trap Overflow, clamp a
    zero's exponent, round subnormals at [Etiny]. *)
Definition _fix (d : t) : result t :=
  let c := coef d in
  let e := exp d in
  if c =? 0 then Ok (mk 0 (Z.min (Z.max e Etiny) Emax))
  else
    let exp_min := ndigits c + e - prec in
    if exp_min >? Etop then Raise Overflow
    else
      let exp_min := Z.max exp_min Etiny in
      if e <? exp_min then
        let q := round_half_even c (exp_min - e) in
        let '(q, exp_min) :=
          if Z.abs q >=? 10 ^ prec then (q / 10, exp_min + 1) else (q, exp_min) in
        if exp_min >? Etop then Raise Overflow else Ok (mk q exp_min)
      else Ok d.

Definition neg (a : t) : t := mk (- coef a) (exp a).

(** Exact sum at the smaller exponent, then [_fix]. *)
Definition add (a b : t) : result t :=
  let e := Z.min (exp a) (exp b) in
  _fix (mk (coef a * 10 ^ (exp a - e) + coef b * 10 ^ (exp b - e)) e).

Definition sub (a b : t) : result t := add a (neg b).

Definition mul (a b : t) : result t :=
  _fix (mk (coef a * coef b) (exp a + exp b)).

(** Remove trailing zeros while the exponent is below the ideal one
    (exact quotients only). *)
Fixpoint strip_to_ideal (fuel : nat) (c e ideal : Z) : Z * Z :=
  match fuel with
  | O => (c, e)
  | S f =>
      if (e <? ideal) && (c mod 10 =? 0)
      then strip_to_ideal f (c / 10) (e + 1) ideal
      else (c, e)
  end.

(** [Decimal.__truediv__]. *)
Definition div (a b : t) : result t :=
  if coef b =? 0 then
    (if coef a =? 0 then Raise InvalidOperation else Raise DivisionByZero)
  else if coef a =? 0 then _fix (mk 0 (exp a - exp b))
  else
    let sign := Z.sgn (coef a) * Z.sgn (coef b) in
    let n1 := Z.abs (coef a) in
    let n2 := Z.abs (coef b) in
    let shift := ndigits n2 - ndigits n1 + prec + 1 in
    let e := exp a - exp b - shift in
    let num := if shift >=? 0 then n1 * 10 ^ shift else n1 in
    let den := if shift >=? 0 then n2 else n2 * 10 ^ (- shift) in
    let q := num / den in
    let r := num mod den in
    if r =? 0 then
      let '(q', e') := strip_to_ideal (Z.to_nat shift) q e (exp a - exp b) in
      _fix (mk (sign * q') e')
    else
      _fix (mk (sign * (if q mod 5 =? 0 then q + 1 else q)) e).

(** Comparison by numerical value. *)
Definition cmp (a b : t) : comparison :=
  let e := Z.min (exp a) (exp b) in
  Z.compare (coef a * 10 ^ (exp a - e)) (coef b * 10 ^ (exp b - e)).

Definition ltb (a b : t) : bool :=
  match cmp a b with Lt => true | _ => false end.

Definition gtb (a b : t) : bool := ltb b a.

(** Python's builtin [min(a, b)]: the first argument unless the second is
    strictly smaller. *)
Definition min (a b : t) : t := if ltb b a then b else a.

(** [Decimal._rescale]. *)
Definition rescale (d : t) (e' : Z) : t :=
  if coef d =? 0 then mk 0 e'
  else if exp d >=? e' then mk (coef d * 10 ^ (exp d - e')) e'
  else mk (round_half_even (coef d) (e' - exp d)) e'.

(** [Decimal.quantize(Decimal(10) ** e')] with the context rounding. *)
Definition quantize (d : t) (e' : Z) : result t :=
  if (e' <? Etiny) || (e' >? Emax) then Raise InvalidOperation
  else if coef d =? 0 then _fix (mk 0 e')
  else if adjusted d >? Emax then Raise InvalidOperation
  else if adjusted d - e' + 1 >? prec then Raise InvalidOperation
  else
    let ans := rescale d e' in
    if adjusted ans >? Emax then Raise InvalidOperation
    else if ndigits (coef ans) >? prec then Raise InvalidOperation
    else _fix ans.

End Dec.

Definition Decimal : Type := Dec.t.
Definition D (c e : Z) : Decimal := Dec.mk c e.

(** ** Rows of [orm_models.py]

    A [datetime] is a number of microseconds since the epoch.  Only the
    columns read or written by the embedded code are kept.  Nullable columns
    that carry a column default (rates, overtime hours, statuses, flags) are
    held as plain values; [hourly_rate] and [bank_account_id], which have no
    default, are optional.  A row of a state holds the Decimals the engine
    has stored; what the engine makes of a Decimal written to a
    DECIMAL(p, s) column is [to_column] below. *)

Definition datetime : Type := Z.

Inductive SalaryType : Type := HOURLY | FIXED.
Inductive TimesheetStatus : Type := TS_PENDING | TS_APPROVED | TS_REJECTED.
Inductive PayrollStatus : Type := PENDING | PROCESSING | COMPLETED | FAILED.

Definition TimesheetStatus_eqb (a b : TimesheetStatus) : bool :=
  match a, b with
  | TS_PENDING, TS_PENDING | TS_APPROVED, TS_APPROVED | TS_REJECTED, TS_REJECTED => true
  | _, _ => false
  end.

Module Employee.
Record t : Type := mk {
  id : Z;
  cognito_sub : string;
  org_id : Z;
  first_name : string;
  last_name : string;
  email : string;
  salary_type : SalaryType;
  base_salary : Decimal;
  hourly_rate : option Decimal;
  bank_account_id : option string;
  is_active : bool
}.
End Employee.

Module Timesheet.
Record t : Type := mk {
  id : Z;
  employee_id : Z;
  week_start_date : datetime;
  week_end_date : datetime;
  monday_hours : Decimal;
  tuesday_hours : Decimal;
  wednesday_hours : Decimal;
  thursday_hours : Decimal;
  friday_hours : Decimal;
  saturday_hours : Decimal;
  sunday_hours : Decimal;
  total_hours : Decimal;
  overtime_hours : Decimal;
  status : TimesheetStatus;
  notes : option string
}.
End Timesheet.

Module TaxConfiguration.
Record t : Type := mk {
  id : Z;
  org_id : Z;
  federal_tax_rate : Decimal;
  state_tax_rate : Decimal;
  social_security_rate : Decimal;
  medicare_rate : Decimal;
  unemployment_rate : Decimal;
  is_active : bool
}.
End TaxConfiguration.

Module PayrollRun.
Record t : Type := mk {
  id : Z;
  org_id : Z;
  pay_period_start : datetime;
  pay_period_end : datetime;
  pay_date : datetime;
  status : PayrollStatus;
  total_gross_pay : Decimal;
  total_net_pay : Decimal;
  total_taxes : Decimal;
  processed_by : option Z;
  processed_at : option datetime
}.

Definition set_status (s : PayrollStatus) (r : t) : t :=
  mk (id r) (org_id r) (pay_period_start r) (pay_period_end r) (pay_date r)
     s (total_gross_pay r) (total_net_pay r) (total_taxes r)
     (processed_by r) (processed_at r).

Definition set_completed (g n x : Decimal) (now : datetime) (r : t) : t :=
  mk (id r) (org_id r) (pay_period_start r) (pay_period_end r) (pay_date r)
     COMPLETED g n x (processed_by r) (Some now).
End PayrollRun.

Module Payslip.
Record t : Type := mk {
  id : Z;
  employee_id : Z;
  payroll_run_id : Z;
  pay_period_start : datetime;
  pay_period_end : datetime;
  pay_date : datetime;
  regular_hours : Decimal;
  overtime_hours : Decimal;
  regular_pay : Decimal;
  overtime_pay : Decimal;
  gross_pay : Decimal;
  federal_tax : Decimal;
  state_tax : Decimal;
  social_security : Decimal;
  medicare : Decimal;
  total_deductions : Decimal;
  net_pay : Decimal;
  payment_status : string;
  payment_method : option string;
  payment_reference : option string;
  pdf_url : option string;
  pdf_generated_at : option datetime
}.

Definition set_pdf (url : string) (now : datetime) (p : t) : t :=
  mk (id p) (employee_id p) (payroll_run_id p) (pay_period_start p)
     (pay_period_end p) (pay_date p) (regular_hours p) (overtime_hours p)
     (regular_pay p) (overtime_pay p) (gross_pay p) (federal_tax p)
     (state_tax p) (social_security p) (medicare p) (total_deductions p)
     (net_pay p) (payment_status p) (payment_method p) (payment_reference p)
     (Some url) (Some now).

Definition set_payment (method : option string) (reference : option string)
    (st : string) (p : t) : t :=
  mk (id p) (employee_id p) (payroll_run_id p) (pay_period_start p)
     (pay_period_end p) (pay_date p) (regular_hours p) (overtime_hours p)
     (regular_pay p) (overtime_pay p) (gross_pay p) (federal_tax p)
     (state_tax p) (social_security p) (medicare p) (total_deductions p)
     (net_pay p) st method reference (pdf_url p) (pdf_generated_at p).
End Payslip.

Module BankAccount.
Record t : Type := mk {
  id : Z;
  employee_id : Z;
  plaid_account_id : string;
  is_verified : bool
}.
End BankAccount.

(** ** [TaxService.calculate_taxes] (tax_service.py) *)

Record TaxCalculation : Type := mkTaxCalculation {
  federal_tax : Decimal;
  state_tax : Decimal;
  social_security : Decimal;
  medicare : Decimal;
  total_deductions : Decimal;
  net_pay : Decimal
}.

Definition social_security_wage_base : Decimal := Dec.of_int 160200.
Definition medicare_threshold : Decimal := Dec.of_int 200000.

(** The four deductions, their sum and the net pay as computed before the
    result dictionary is built (lines 15-37). *)
Definition unrounded_taxes (gross_pay : Decimal) (tax_config : TaxConfiguration.t)
  : result TaxCalculation :=
  federal_tax <- Dec.mul gross_pay (TaxConfiguration.federal_tax_rate tax_config) ;;
  state_tax <- Dec.mul gross_pay (TaxConfiguration.state_tax_rate tax_config) ;;
  social_security <-
    Dec.mul (Dec.min gross_pay social_security_wage_base)
            (TaxConfiguration.social_security_rate tax_config) ;;
  medicare <- Dec.mul gross_pay (TaxConfiguration.medicare_rate tax_config) ;;
  medicare <-
    (if Dec.gtb gross_pay medicare_threshold then
       excess <- Dec.sub gross_pay medicare_threshold ;;
       additional_medicare <- Dec.mul excess (D 9 (-3)) ;;
       Dec.add medicare additional_medicare
     else Ok medicare) ;;
  fs <- Dec.add federal_tax state_tax ;;
  fss <- Dec.add fs social_security ;;
  total_deductions <- Dec.add fss medicare ;;
  net_pay <- Dec.sub gross_pay total_deductions ;;
  Ok (mkTaxCalculation federal_tax state_tax social_security medicare
        total_deductions net_pay).

(** [x.quantize(Decimal('0.01'))]. *)
Definition quantize_cents (x : Decimal) : result Decimal := Dec.quantize x (-2).

Definition calculate_taxes (gross_pay : Decimal) (tax_config : TaxConfiguration.t)
    (employee : Employee.t) : result TaxCalculation :=
  u <- unrounded_taxes gross_pay tax_config ;;
  federal_tax' <- quantize_cents (federal_tax u) ;;
  state_tax' <- quantize_cents (state_tax u) ;;
  social_security' <- quantize_cents (social_security u) ;;
  medicare' <- quantize_cents (medicare u) ;;
  total_deductions' <- quantize_cents (total_deductions u) ;;
  net_pay' <- quantize_cents (net_pay u) ;;
  Ok (mkTaxCalculation federal_tax' state_tax' social_security' medicare'
        total_deductions' net_pay').

(** ** The database session and the application log

    Tables are lists of rows in insertion order.  [db.add] followed by
    [db.commit] and [db.refresh] appends a row carrying a fresh primary key
    and the column defaults, and reloads the object from the stored row;
    mutating a loaded ORM object and committing replaces the row that has
    its primary key.  Commits themselves succeed: failures of the database
    engine are outside the model.  What the code hands to [logger.error],
    and what it prints when it handles an exception, is appended to [log].

    The engine stores a Decimal written to a DECIMAL(p, s) column at the
    scale [s]: a value with at most [s] decimals is kept exactly, any other
    value is rounded to [s] decimals as the engine rounds.  The rounding rule
    differs between engines and is a component of the state:
    [column_round db c k] is the coefficient the engine keeps when it drops
    the last [k > 0] digits of the coefficient [c].  Values that exceed the
    precision [p] are outside the model, and date-times are kept as they
    are written: the resolution of the engine's DATETIME columns is outside
    the model too. *)

Inductive LogRecord : Type :=
| LogError (logger_name : string) (message : string) (e : Exn)
| Printed (message : string) (e : Exn).

Record DB : Type := mkDB {
  payroll_runs : list PayrollRun.t;
  employees : list Employee.t;
  tax_configurations : list TaxConfiguration.t;
  timesheets : list Timesheet.t;
  payslips : list Payslip.t;
  bank_accounts : list BankAccount.t;
  log : list LogRecord;
  column_round : Z -> Z -> Z
}.

Definition with_payroll_runs (rs : list PayrollRun.t) (db : DB) : DB :=
  mkDB rs (employees db) (tax_configurations db) (timesheets db) (payslips db)
       (bank_accounts db) (log db) (column_round db).

Definition with_payslips (ps : list Payslip.t) (db : DB) : DB :=
  mkDB (payroll_runs db) (employees db) (tax_configurations db) (timesheets db)
       ps (bank_accounts db) (log db) (column_round db).

Definition with_timesheets (ts : list Timesheet.t) (db : DB) : DB :=
  mkDB (payroll_runs db) (employees db) (tax_configurations db) ts
       (payslips db) (bank_accounts db) (log db) (column_round db).

Definition add_log (l : LogRecord) (db : DB) : DB :=
  mkDB (payroll_runs db) (employees db) (tax_configurations db) (timesheets db)
       (payslips db) (bank_accounts db) (log db ++ [l]) (column_round db).

(** The Decimal read back from a DECIMAL(p, [scale]) column after [d] has
    been written to it. *)
Definition to_column (db : DB) (scale : Z) (d : Decimal) : Decimal :=
  if Dec.exp d >=? - scale
  then D (Dec.coef d * 10 ^ (Dec.exp d + scale)) (- scale)
  else D (column_round db (Dec.coef d) (- scale - Dec.exp d)) (- scale).

(** [db.refresh(payslip)] after the insertion: the eleven DECIMAL(_, 2)
    columns of the new row. *)
Definition refresh_payslip (db : DB) (p : Payslip.t) : Payslip.t :=
  Payslip.mk (Payslip.id p) (Payslip.employee_id p) (Payslip.payroll_run_id p)
    (Payslip.pay_period_start p) (Payslip.pay_period_end p) (Payslip.pay_date p)
    (to_column db 2 (Payslip.regular_hours p))
    (to_column db 2 (Payslip.overtime_hours p))
    (to_column db 2 (Payslip.regular_pay p))
    (to_column db 2 (Payslip.overtime_pay p))
    (to_column db 2 (Payslip.gross_pay p))
    (to_column db 2 (Payslip.federal_tax p))
    (to_column db 2 (Payslip.state_tax p))
    (to_column db 2 (Payslip.social_security p))
    (to_column db 2 (Payslip.medicare p))
    (to_column db 2 (Payslip.total_deductions p))
    (to_column db 2 (Payslip.net_pay p))
    (Payslip.payment_status p) (Payslip.payment_method p)
    (Payslip.payment_reference p) (Payslip.pdf_url p) (Payslip.pdf_generated_at p).

(** [Result.scalar_one_or_none()]. *)
Definition scalar_one_or_none {A : Type} (rows : list A) : result (option A) :=
  match rows with
  | [] => Ok None
  | [x] => Ok (Some x)
  | _ :: _ :: _ => Raise MultipleResultsFound
  end.

Definition next_id (ids : list Z) : Z := 1 + fold_right Z.max 0 ids.

Definition update_run (f : PayrollRun.t -> PayrollRun.t) (run_id : Z) (db : DB) : DB :=
  with_payroll_runs
    (map (fun r => if PayrollRun.id r =? run_id then f r else r) (payroll_runs db))
    db.

Definition commit_payslip (p : Payslip.t) (db : DB) : DB :=
  with_payslips
    (map (fun q => if Payslip.id q =? Payslip.id p then p else q) (payslips db))
    db.

Definition run_status (db : DB) (run_id : Z) : option PayrollStatus :=
  option_map PayrollRun.status
    (find (fun r => PayrollRun.id r =? run_id) (payroll_runs db)).

Definition payslips_of_run (db : DB) (run_id : Z) : list Payslip.t :=
  filter (fun p => Payslip.payroll_run_id p =? run_id) (payslips db).

(** ** External collaborators

    What the PDF library, the S3 client, the mail server, the Plaid client
    and the clock answer is outside the repository's control; each is a
    function of its arguments that either returns or raises.
    [build_payslip_pdf] stands for the document that
    [PDFService.generate_payslip_pdf] builds in memory (pdf_service.py,
    lines 27-138) and [upload_payslip_pdf] for the [try] block that uploads
    it and asks for its URL (lines 140-153); [send_payslip_notification]
    stands for the [try] block of the method of [email_service] of that name
    (email_service.py, lines 23-53), and the three payment fields for the
    [try] blocks of the methods of [plaid_service] of the same names: the
    request to the Plaid client and what is read from its response. *)

Record Env : Type := mkEnv {
  utcnow : datetime;
  strftime : datetime -> string;
  build_payslip_pdf : Payslip.t -> Employee.t -> result unit;
  upload_payslip_pdf : Payslip.t -> Employee.t -> result string;
  send_payslip_notification : string -> string -> string -> datetime -> result unit;
  create_payment_recipient : string -> result string;
  create_payment : string -> string -> Decimal -> result string;
  get_payment_status : string -> result (string * option string)
}.

(** ** [PDFService] (pdf_service.py)

    An exception of the upload is printed and raised again; an exception
    while the document is built is raised as it is. *)

Module pdf_service.

Definition generate_payslip_pdf (env : Env) (db : DB) (payslip : Payslip.t)
    (employee : Employee.t) : DB * result string :=
  match build_payslip_pdf env payslip employee with
  | Raise e => (db, Raise e)
  | Ok _ =>
      match upload_payslip_pdf env payslip employee with
      | Ok pdf_url => (db, Ok pdf_url)
      | Raise e => (add_log (Printed "Error uploading PDF to S3" e) db, Raise e)
      end
  end.

End pdf_service.

(** ** [EmailService] (email_service.py)

    The method prints the exception of its [try] block and returns. *)

Module email_service.

Definition send_payslip_notification (env : Env) (db : DB)
    (to_email employee_name payslip_url : string) (pay_date : datetime) : DB :=
  match send_payslip_notification env to_email employee_name payslip_url pay_date with
  | Ok _ => db
  | Raise e => add_log (Printed "Error sending email" e) db
  end.

End email_service.

(** ** [PlaidService] (plaid_service.py)

    Each method logs the exception of its [try] block and re-raises it. *)

Module plaid_service.

Definition logged {A : Type} (db : DB) (message : string) (r : result A)
  : DB * result A :=
  match r with
  | Ok a => (db, Ok a)
  | Raise e =>
      (add_log (LogError "backend.services.plaid_service" message e) db, Raise e)
  end.

Definition create_payment_recipient (env : Env) (db : DB) (name : string)
  : DB * result string :=
  logged db "Error creating payment recipient" (create_payment_recipient env name).

Definition create_payment (env : Env) (db : DB) (recipient_id reference : string)
    (amount : Decimal) : DB * result string :=
  logged db "Error creating payment" (create_payment env recipient_id reference amount).

Definition get_payment_status (env : Env) (db : DB) (payment_id : string)
  : DB * result (string * option string) :=
  logged db "Error getting payment status" (get_payment_status env payment_id).

End plaid_service.

(** ** [PaymentService.send_payment_via_plaid] (payment_service.py) *)

Record PaymentResult : Type := mkPaymentResult {
  pr_method : string;
  pr_payment_id : option string;
  pr_recipient_id : option string;
  pr_status : string;
  pr_reference : option string;
  pr_error : option Exn
}.

(** The body of the [try] block, lines 24-66. *)
Definition send_payment_via_plaid_try (env : Env) (db : DB) (amount : Decimal)
    (employee_id : Z) (description : string) : DB * result PaymentResult :=
  match scalar_one_or_none
          (filter (fun e => Employee.id e =? employee_id) (employees db)) with
  | Raise e => (db, Raise e)
  | Ok None => (db, Raise (ValueError "Employee not found"))
  | Ok (Some employee) =>
      match scalar_one_or_none
              (filter (fun b => (BankAccount.employee_id b =? employee_id)
                                && BankAccount.is_verified b)
                      (bank_accounts db)) with
      | Raise e => (db, Raise e)
      | Ok None => (db, Raise (ValueError "No verified bank account found for employee"))
      | Ok (Some _) =>
          let recipient_name :=
            (Employee.first_name employee ++ " " ++ Employee.last_name employee)%string in
          match plaid_service.create_payment_recipient env db recipient_name with
          | (db, Raise e) => (db, Raise e)
          | (db, Ok recipient_id) =>
              match plaid_service.create_payment env db recipient_id description
                      amount with
              | (db, Raise e) => (db, Raise e)
              | (db, Ok payment_id) =>
                  match plaid_service.get_payment_status env db payment_id with
                  | (db, Raise e) => (db, Raise e)
                  | (db, Ok payment_status) =>
                      (db, Ok (mkPaymentResult "plaid" (Some payment_id)
                                 (Some recipient_id) (fst payment_status)
                                 (snd payment_status) None))
                  end
              end
          end
      end
  end.

(** Every exception of the [try] block is logged and turned into the
    failure dictionary of lines 68-75. *)
Definition send_payment_via_plaid (env : Env) (db : DB) (amount : Decimal)
    (employee_id : Z) (description : string) : DB * result PaymentResult :=
  match send_payment_via_plaid_try env db amount employee_id description with
  | (db, Ok r) => (db, Ok r)
  | (db, Raise e) =>
      (add_log (LogError "backend.services.payment_service" "Plaid payment error" e) db,
       Ok (mkPaymentResult "plaid" None None "failed" None (Some e)))
  end.

(** ** [PayrollService] (payroll_service.py) *)

Record Summary : Type := mkSummary {
  sum_payroll_run_id : Z;
  sum_status : string;
  sum_total_employees : nat;
  sum_total_gross_pay : Decimal;
  sum_total_net_pay : Decimal;
  sum_total_taxes : Decimal
}.

Definition microseconds_per_day : Z := 86400 * 1000000.

(** [(end - start).days]: a timedelta is normalised with a non-negative
    seconds part, so the day count is the floor. *)
Definition timedelta_days (end_ start : datetime) : Z :=
  (end_ - start) / microseconds_per_day.

(** The query of lines 129-139. *)
Definition eligible (employee : Employee.t) (payroll_run : PayrollRun.t)
    (t : Timesheet.t) : bool :=
  (Timesheet.employee_id t =? Employee.id employee)
  && TimesheetStatus_eqb (Timesheet.status t) TS_APPROVED
  && (Timesheet.week_start_date t >=? PayrollRun.pay_period_start payroll_run)
  && (Timesheet.week_end_date t <=? PayrollRun.pay_period_end payroll_run).

(** The loop of lines 142-147; the accumulator is
    [(total_regular_hours, total_overtime_hours)]. *)
Fixpoint aggregate_hours (ts : list Timesheet.t) (acc : Decimal * Decimal)
  : result (Decimal * Decimal) :=
  match ts with
  | [] => Ok acc
  | timesheet :: rest =>
      regular <- Dec.sub (Timesheet.total_hours timesheet)
                         (Timesheet.overtime_hours timesheet) ;;
      total_regular_hours <- Dec.add (fst acc) regular ;;
      total_overtime_hours <- Dec.add (snd acc) (Timesheet.overtime_hours timesheet) ;;
      aggregate_hours rest (total_regular_hours, total_overtime_hours)
  end.

(** Lines 150-159: [(regular_pay, overtime_pay, gross_pay)]. *)
Definition gross_pay_of (employee : Employee.t) (payroll_run : PayrollRun.t)
    (total_regular_hours total_overtime_hours : Decimal)
  : result (Decimal * Decimal * Decimal) :=
  pay <-
    match Employee.salary_type employee with
    | HOURLY =>
        match Employee.hourly_rate employee with
        | None =>
            Raise (TypeError "unsupported operand type(s) for *: 'decimal.Decimal' and 'NoneType'")
        | Some hourly_rate =>
            regular_pay <- Dec.mul total_regular_hours hourly_rate ;;
            ot <- Dec.mul total_overtime_hours hourly_rate ;;
            overtime_pay <- Dec.mul ot (D 15 (-1)) ;;
            Ok (regular_pay, overtime_pay)
        end
    | FIXED =>
        let days_in_period :=
          timedelta_days (PayrollRun.pay_period_end payroll_run)
                         (PayrollRun.pay_period_start payroll_run) + 1 in
        daily <- Dec.div (Employee.base_salary employee) (Dec.of_int 365) ;;
        regular_pay <- Dec.mul daily (Dec.of_int days_in_period) ;;
        Ok (regular_pay, Dec.zero)
    end ;;
  gross_pay <- Dec.add (fst pay) (snd pay) ;;
  Ok (fst pay, snd pay, gross_pay).

(** Lines 128-186: the payslip object as constructed, before
    [db.add(payslip)]. *)
Definition build_payslip (db : DB) (employee : Employee.t)
    (payroll_run : PayrollRun.t) (tax_config : TaxConfiguration.t)
  : result Payslip.t :=
  hours <- aggregate_hours (filter (eligible employee payroll_run) (timesheets db))
                           (Dec.zero, Dec.zero) ;;
  pay <- gross_pay_of employee payroll_run (fst hours) (snd hours) ;;
  let '(regular_pay, overtime_pay, gross_pay) := pay in
  tax_calculations <- calculate_taxes gross_pay tax_config employee ;;
  Ok (Payslip.mk
        (next_id (map Payslip.id (payslips db)))
        (Employee.id employee)
        (PayrollRun.id payroll_run)
        (PayrollRun.pay_period_start payroll_run)
        (PayrollRun.pay_period_end payroll_run)
        (PayrollRun.pay_date payroll_run)
        (fst hours) (snd hours)
        regular_pay overtime_pay gross_pay
        (federal_tax tax_calculations)
        (state_tax tax_calculations)
        (social_security tax_calculations)
        (medicare tax_calculations)
        (total_deductions tax_calculations)
        (net_pay tax_calculations)
        "pending" None None None None).

(** [_generate_payslip_pdf]: every exception of the PDF service is caught
    and printed; the mailer does not raise. *)
Definition _generate_payslip_pdf (env : Env) (db : DB) (payslip : Payslip.t)
    (employee : Employee.t) : DB * Payslip.t :=
  match pdf_service.generate_payslip_pdf env db payslip employee with
  | (db, Raise e) => (add_log (Printed "Error generating payslip PDF" e) db, payslip)
  | (db, Ok pdf_url) =>
      let payslip' := Payslip.set_pdf pdf_url (utcnow env) payslip in
      let db' := commit_payslip payslip' db in
      (email_service.send_payslip_notification env db' (Employee.email employee)
         (Employee.first_name employee) pdf_url (Payslip.pay_date payslip'),
       payslip')
  end.

(** Python's [a or b] on optional strings. *)
Definition or_else (a b : option string) : option string :=
  match a with
  | Some s => if String.eqb s "" then b else a
  | None => b
  end.

(** The description string built on line 228. *)
Definition payment_description (env : Env) (payslip : Payslip.t) : string :=
  ("Payroll payment for " ++ strftime env (Payslip.pay_period_start payslip)
     ++ " to " ++ strftime env (Payslip.pay_period_end payslip))%string.

(** [_process_payment].  The module never binds the name [logger], so the
    first statement of the handler raises NameError and the two assignments
    and the commit after it are not reached. *)
Definition _process_payment (env : Env) (db : DB) (payslip : Payslip.t)
    (employee : Employee.t) : DB * result Payslip.t :=
  match send_payment_via_plaid env db (Payslip.net_pay payslip)
          (Employee.id employee) (payment_description env payslip) with
  | (db, Ok payment_result) =>
      let payslip' :=
        Payslip.set_payment (Some (pr_method payment_result))
          (or_else (pr_payment_id payment_result) (pr_reference payment_result))
          (pr_status payment_result) payslip in
      (commit_payslip payslip' db, Ok payslip')
  | (db, Raise _) => (db, Raise (NameError "logger"))
  end.

Definition truthy (s : option string) : bool :=
  match s with
  | Some s => negb (String.eqb s "")
  | None => false
  end.

(** [_process_employee_payroll]: the payslip is added, committed and
    reloaded from its row (lines 188-190) before the PDF and the payment
    follow; the payslip returned is that object. *)
Definition _process_employee_payroll (env : Env) (db : DB) (employee : Employee.t)
    (payroll_run : PayrollRun.t) (tax_config : TaxConfiguration.t)
  : DB * result Payslip.t :=
  match build_payslip db employee payroll_run tax_config with
  | Raise e => (db, Raise e)
  | Ok payslip =>
      let payslip := refresh_payslip db payslip in
      let db := with_payslips (payslips db ++ [payslip]) db in
      let '(db, payslip) := _generate_payslip_pdf env db payslip employee in
      if truthy (Employee.bank_account_id employee)
      then _process_payment env db payslip employee
      else (db, Ok payslip)
  end.

Definition Totals : Type := (Decimal * Decimal * Decimal)%type.

(** The loop of lines 87-94 over the remaining employees. *)
Fixpoint process_employees (env : Env) (db : DB) (emps : list Employee.t)
    (payroll_run : PayrollRun.t) (tax_config : TaxConfiguration.t)
    (totals : Totals) : DB * result Totals :=
  match emps with
  | [] => (db, Ok totals)
  | employee :: rest =>
      match _process_employee_payroll env db employee payroll_run tax_config with
      | (db', Raise e) => (db', Raise e)
      | (db', Ok payslip) =>
          let '(total_gross_pay, total_net_pay, total_taxes) := totals in
          match (g <- Dec.add total_gross_pay (Payslip.gross_pay payslip) ;;
                 n <- Dec.add total_net_pay (Payslip.net_pay payslip) ;;
                 x <- Dec.add total_taxes (Payslip.total_deductions payslip) ;;
                 Ok (g, n, x)) with
          | Raise e => (db', Raise e)
          | Ok totals' => process_employees env db' rest payroll_run tax_config totals'
          end
      end
  end.

Definition active_employees (db : DB) (org : Z) : list Employee.t :=
  filter (fun e => (Employee.org_id e =? org) && Employee.is_active e) (employees db).

Definition active_tax_configs (db : DB) (org : Z) : list TaxConfiguration.t :=
  filter (fun c => (TaxConfiguration.org_id c =? org) && TaxConfiguration.is_active c)
         (tax_configurations db).

(** The [try] block of [process_payroll], lines 57-112.  The summary keeps
    the Decimal totals that the source passes through [float()]. *)
Definition process_payroll_try (env : Env) (db : DB) (payroll_run : PayrollRun.t)
  : DB * result Summary :=
  let emps := active_employees db (PayrollRun.org_id payroll_run) in
  match scalar_one_or_none (active_tax_configs db (PayrollRun.org_id payroll_run)) with
  | Raise e => (db, Raise e)
  | Ok None => (db, Raise (ValueError "Tax configuration not found for organization"))
  | Ok (Some tax_config) =>
      match process_employees env db emps payroll_run tax_config
              (Dec.zero, Dec.zero, Dec.zero) with
      | (db', Raise e) => (db', Raise e)
      | (db', Ok (total_gross_pay, total_net_pay, total_taxes)) =>
          let db'' :=
            update_run (PayrollRun.set_completed (to_column db' 2 total_gross_pay)
                          (to_column db' 2 total_net_pay)
                          (to_column db' 2 total_taxes) (utcnow env))
                       (PayrollRun.id payroll_run) db' in
          (db'', Ok (mkSummary (PayrollRun.id payroll_run) "completed" (List.length emps)
                       total_gross_pay total_net_pay total_taxes))
      end
  end.

Definition process_payroll (env : Env) (db : DB) (payroll_run_id : Z)
  : DB * result Summary :=
  match scalar_one_or_none
          (filter (fun r => PayrollRun.id r =? payroll_run_id) (payroll_runs db)) with
  | Raise e => (db, Raise e)
  | Ok None => (db, Raise (ValueError "Payroll run not found"))
  | Ok (Some payroll_run) =>
      let db1 := update_run (PayrollRun.set_status PROCESSING) payroll_run_id db in
      match process_payroll_try env db1 payroll_run with
      | (db2, Ok summary) => (db2, Ok summary)
      | (db2, Raise e) =>
          (update_run (PayrollRun.set_status FAILED) payroll_run_id db2, Raise e)
      end
  end.

(** ** [create_payroll_run] (routers/payroll.py) *)

Record UserInfo : Type := mkUserInfo {
  sub : string;
  groups : list string;
  user_org_id : option string
}.

Record PayrollRunCreate : Type := mkPayrollRunCreate {
  prc_org_id : Z;
  prc_pay_period_start : datetime;
  prc_pay_period_end : datetime;
  prc_pay_date : datetime
}.

Definition in_groups (role : string) (u : UserInfo) : bool :=
  existsb (String.eqb role) (groups u).

(** The query of lines 44-52. *)
Definition same_period (payroll_run : PayrollRunCreate) (r : PayrollRun.t) : bool :=
  (PayrollRun.org_id r =? prc_org_id payroll_run)
  && (PayrollRun.pay_period_start r =? prc_pay_period_start payroll_run)
  && (PayrollRun.pay_period_end r =? prc_pay_period_end payroll_run).

Definition create_payroll_run (db : DB) (payroll_run : PayrollRunCreate)
    (current_user : UserInfo) : DB * result PayrollRun.t :=
  if negb (in_groups "admin" current_user) then
    (db, Raise (HTTPException 403 "Only admins can create payroll runs"))
  else
    match scalar_one_or_none (filter (same_period payroll_run) (payroll_runs db)) with
    | Raise e => (db, Raise e)
    | Ok (Some existing_run) =>
        (db, Raise (HTTPException 400 "Payroll run already exists for this period"))
    | Ok None =>
        let db_payroll_run :=
          PayrollRun.mk (next_id (map PayrollRun.id (payroll_runs db)))
            (prc_org_id payroll_run) (prc_pay_period_start payroll_run)
            (prc_pay_period_end payroll_run) (prc_pay_date payroll_run)
            PENDING (to_column db 2 Dec.zero) (to_column db 2 Dec.zero)
            (to_column db 2 Dec.zero) None None in
        (with_payroll_runs (payroll_runs db ++ [db_payroll_run]) db, Ok db_payroll_run)
    end.

(** ** [create_timesheet] (routers/timesheets.py) *)

Record TimesheetCreate : Type := mkTimesheetCreate {
  tc_employee_id : Z;
  tc_week_start_date : datetime;
  tc_week_end_date : datetime;
  tc_monday_hours : Decimal;
  tc_tuesday_hours : Decimal;
  tc_wednesday_hours : Decimal;
  tc_thursday_hours : Decimal;
  tc_friday_hours : Decimal;
  tc_saturday_hours : Decimal;
  tc_sunday_hours : Decimal;
  tc_notes : option string
}.

(** Lines 78-86. *)
Definition sum_daily_hours (timesheet : TimesheetCreate) : result Decimal :=
  h <- Dec.add (tc_monday_hours timesheet) (tc_tuesday_hours timesheet) ;;
  h <- Dec.add h (tc_wednesday_hours timesheet) ;;
  h <- Dec.add h (tc_thursday_hours timesheet) ;;
  h <- Dec.add h (tc_friday_hours timesheet) ;;
  h <- Dec.add h (tc_saturday_hours timesheet) ;;
  Dec.add h (tc_sunday_hours timesheet).

(** Line 87, [max(0, total_hours - 40)]: Python's [max] keeps its first
    argument unless the second is strictly greater. *)
Definition overtime_of (total_hours : Decimal) : result Decimal :=
  over <- Dec.sub total_hours (Dec.of_int 40) ;;
  Ok (if Dec.gtb over Dec.zero then over else Dec.zero).

(** Lines 31-94.  The row is added, committed and returned as reloaded
    (lines 90-94): its hours are the stored ones. *)
Definition create_timesheet (db : DB) (timesheet : TimesheetCreate)
    (current_user : UserInfo) : DB * result Timesheet.t :=
  let who : result Z :=
    if in_groups "admin" current_user || in_groups "manager" current_user then
      employee <- scalar_one_or_none
                    (filter (fun e => Employee.id e =? tc_employee_id timesheet)
                            (employees db)) ;;
      match employee with
      | None => Raise (HTTPException 404 "Employee record not found")
      | Some _ => Ok (tc_employee_id timesheet)
      end
    else
      employee <- scalar_one_or_none
                    (filter (fun e => String.eqb (Employee.cognito_sub e) (sub current_user))
                            (employees db)) ;;
      match employee with
      | None => Raise (HTTPException 404 "Employee record not found")
      | Some employee =>
          if negb (tc_employee_id timesheet =? Employee.id employee)
          then Raise (HTTPException 403 "You can only submit timesheets for yourself")
          else Ok (Employee.id employee)
      end in
  let row : result Timesheet.t :=
    employee_id <- who ;;
    existing_timesheet <-
      scalar_one_or_none
        (filter (fun t => (Timesheet.employee_id t =? employee_id)
                          && (Timesheet.week_start_date t =? tc_week_start_date timesheet))
                (timesheets db)) ;;
    match existing_timesheet with
    | Some _ => Raise (HTTPException 400 "Timesheet already exists for this week")
    | None =>
        total_hours <- sum_daily_hours timesheet ;;
        overtime_hours <- overtime_of total_hours ;;
        Ok (Timesheet.mk (next_id (map Timesheet.id (timesheets db)))
              employee_id (tc_week_start_date timesheet) (tc_week_end_date timesheet)
              (to_column db 2 (tc_monday_hours timesheet))
              (to_column db 2 (tc_tuesday_hours timesheet))
              (to_column db 2 (tc_wednesday_hours timesheet))
              (to_column db 2 (tc_thursday_hours timesheet))
              (to_column db 2 (tc_friday_hours timesheet))
              (to_column db 2 (tc_saturday_hours timesheet))
              (to_column db 2 (tc_sunday_hours timesheet))
              (to_column db 2 total_hours) (to_column db 2 overtime_hours)
              TS_PENDING (tc_notes timesheet))
    end in
  match row with
  | Raise e => (db, Raise e)
  | Ok db_timesheet =>
      (with_timesheets (timesheets db ++ [db_timesheet]) db, Ok db_timesheet)
  end.


(** * Statements of the specification and reference data *)

(** Left-to-right Decimal sum of four terms, as [a + b + c + d]. *)
Definition sum4 (a b c d : Decimal) : result Decimal :=
  ab <- Dec.add a b ;;
  abc <- Dec.add ab c ;;
  Dec.add abc d.

(** Numerical equality of two decimals, whatever their exponents. *)
Definition eqv (a b : Decimal) : Prop := Dec.cmp a b = Eq.

(** Rounding order as the specification words it: the total is the sum of
    the four rounded items and the net pay is the gross pay minus it. *)
Definition totals_from_rounded_items (gross_pay : Decimal) (r : TaxCalculation)
  : Prop :=
  exists s n,
    sum4 (federal_tax r) (state_tax r) (social_security r) (medicare r) = Ok s
    /\ eqv (total_deductions r) s
    /\ Dec.sub gross_pay s = Ok n
    /\ eqv (net_pay r) n.

(** Exact integer arithmetic for the tax formulas, in millionths of a
    currency unit, for a gross pay of [g] cents and rates given in
    ten-thousandths. *)
Definition ss_micro (g rss : Z) : Z :=
  if 16020000 <? g then 16020000 * rss else g * rss.

Definition medicare_micro (g rm : Z) : Z :=
  g * rm + (if 20000000 <? g then (g - 20000000) * 90 else 0).

Definition total_micro (g rf rs rss rm : Z) : Z :=
  g * rf + g * rs + ss_micro g rss + medicare_micro g rm.

(** Rates 0.22, 0.05, 0.062 and 0.0145. *)
Definition reference_tax_config : TaxConfiguration.t :=
  TaxConfiguration.mk 1 1 (D 22 (-2)) (D 5 (-2)) (D 62 (-3)) (D 145 (-4))
    (D 6 (-3)) true.

(** The same rates at the scale of their DECIMAL(5, 4) columns. *)
Definition column_tax_config : TaxConfiguration.t :=
  TaxConfiguration.mk 1 1 (D 2200 (-4)) (D 500 (-4)) (D 620 (-4)) (D 145 (-4))
    (D 60 (-4)) true.

Definition hourly_employee (id : Z) (rate : option Decimal) : Employee.t :=
  Employee.mk id "sub" 1 "Ada" "Doe" "ada@example.org" HOURLY (D 0 (-2)) rate
    None true.


(** The payslip as [build_payslip] emits it: every column except the
    payment and PDF follow-up fields. *)
Definition pay_record (p : Payslip.t) : Payslip.t :=
  Payslip.mk (Payslip.id p) (Payslip.employee_id p) (Payslip.payroll_run_id p)
    (Payslip.pay_period_start p) (Payslip.pay_period_end p) (Payslip.pay_date p)
    (Payslip.regular_hours p) (Payslip.overtime_hours p)
    (Payslip.regular_pay p) (Payslip.overtime_pay p) (Payslip.gross_pay p)
    (Payslip.federal_tax p) (Payslip.state_tax p) (Payslip.social_security p)
    (Payslip.medicare p) (Payslip.total_deductions p) (Payslip.net_pay p)
    "pending" None None None None.

(** Every table other than [payslips], and the engine's rounding, are the
    same in both states. *)
Definition same_other_tables (db db' : DB) : Prop :=
  payroll_runs db' = payroll_runs db
  /\ employees db' = employees db
  /\ tax_configurations db' = tax_configurations db
  /\ timesheets db' = timesheets db
  /\ bank_accounts db' = bank_accounts db
  /\ column_round db' = column_round db.

(** Two states that differ at most in the log. *)
Definition same_but_log (db db' : DB) : Prop :=
  same_other_tables db db' /\ payslips db' = payslips db.

(** The row of the run [run_id] is the only one of its key. *)
Definition run_is (db : DB) (run_id : Z) (r : PayrollRun.t) : Prop :=
  filter (fun x => PayrollRun.id x =? run_id) (payroll_runs db) = [r].

(** ** Reference scenario: one organisation, a fortnightly run

    The states of the scenario belong to an engine that rounds half to
    even. *)

Definition day : Z := microseconds_per_day.

Definition example_env : Env :=
  mkEnv 1000 (fun _ => "2024-01-01")
    (fun _ _ => Ok tt)
    (fun _ _ => Ok "https://bucket/payslip.pdf")
    (fun _ _ _ _ => Ok tt)
    (fun _ => Ok "recipient-1")
    (fun _ _ _ => Ok "payment-1")
    (fun _ => Ok ("PAYMENT_STATUS_INITIATED", Some "ref-1")).

(** The same collaborators with a Plaid client that refuses payments. *)
Definition failing_payment_env : Env :=
  mkEnv 1000 (fun _ => "2024-01-01")
    (fun _ _ => Ok tt)
    (fun _ _ => Ok "https://bucket/payslip.pdf")
    (fun _ _ _ _ => Ok tt)
    (fun _ => Ok "recipient-1")
    (fun _ _ _ => Raise (ValueError "payment initiation refused"))
    (fun _ => Ok ("PAYMENT_STATUS_INITIATED", Some "ref-1")).

Definition example_run (st : PayrollStatus) : PayrollRun.t :=
  PayrollRun.mk 10 1 0 (13 * day) (16 * day) st (D 0 (-2)) (D 0 (-2)) (D 0 (-2))
    None None.

(** A weekly timesheet of five equal working days. *)
Definition week_timesheet (id emp : Z) (week : Z) (st : TimesheetStatus)
    (daily : Z) : Timesheet.t :=
  Timesheet.mk id emp (week * 7 * day) (week * 7 * day + 6 * day)
    (D (daily * 100) (-2)) (D (daily * 100) (-2)) (D (daily * 100) (-2))
    (D (daily * 100) (-2)) (D (daily * 100) (-2)) (D 0 (-2)) (D 0 (-2))
    (D (5 * daily * 100) (-2)) (D (Z.max 0 (5 * daily - 40) * 100) (-2)) st None.

Definition paid_hourly (id : Z) : Employee.t :=
  Employee.mk id "sub" 1 "Ada" "Doe" "ada@example.org" HOURLY (D 0 (-2))
    (Some (D 2000 (-2))) None true.

(** Five active employees; the third is hourly and has no hourly rate. *)
Definition five_employees : list Employee.t :=
  [paid_hourly 1; paid_hourly 2; hourly_employee 3 None; paid_hourly 4; paid_hourly 5].

Definition five_employee_db (st : PayrollStatus) : DB :=
  mkDB [example_run st] five_employees [column_tax_config]
    [week_timesheet 1 1 0 TS_APPROVED 8; week_timesheet 2 2 0 TS_APPROVED 8;
     week_timesheet 3 3 0 TS_APPROVED 8; week_timesheet 4 4 0 TS_APPROVED 8;
     week_timesheet 5 5 0 TS_APPROVED 8]
    [] [] [] Dec.round_half_even.

(** One salaried employee with a verified bank account. *)
Definition banked_employee : Employee.t :=
  Employee.mk 1 "sub" 1 "Bob" "Roe" "bob@example.org" FIXED (D 5200000 (-2))
    None (Some "acct-1") true.

Definition one_employee_db (st : PayrollStatus) : DB :=
  mkDB [example_run st] [banked_employee] [column_tax_config] [] []
    [BankAccount.mk 1 1 "acct-1" true] [] Dec.round_half_even.

(** No row at all. *)
Definition empty_db : DB := mkDB [] [] [] [] [] [] [] Dec.round_half_even.

(** The five employees in an organisation without tax configuration. *)
Definition no_tax_configuration_db : DB :=
  mkDB [example_run PENDING] five_employees [] [] [] [] [] Dec.round_half_even.

(** The salaried employee without a stored bank account. *)
Definition unbanked_db : DB :=
  mkDB [example_run PENDING] [banked_employee] [column_tax_config] [] [] [] []
    Dec.round_half_even.

(** One hourly employee whose only week is still pending. *)
Definition pending_week_db : DB :=
  mkDB [example_run PENDING] [paid_hourly 1] [column_tax_config]
    [week_timesheet 1 1 0 TS_PENDING 8] [] [] [] Dec.round_half_even.

(** ** Claims of the specification that the code does not meet *)

(** Failure isolation as specified for the five-employee scenario: the run
    completes, four pay records exist, the summary is returned. *)
Definition isolates_employee_failure (env : Env) (db : DB) (run_id : Z)
    (expected : nat) : Prop :=
  exists db' summary,
    process_payroll env db run_id = (db', Ok summary)
    /\ run_status db' run_id = Some COMPLETED
    /\ List.length (payslips_of_run db' run_id) = expected.

(** Pending-only processing as specified: a run that is not pending is
    rejected and nothing changes. *)
Definition rejects_unless_pending (env : Env) (db : DB) (run_id : Z) : Prop :=
  forall st, run_status db run_id = Some st -> st <> PENDING ->
    exists e, process_payroll env db run_id = (db, Raise e).

(** Time records as specified: as numbers, the total of a record is the sum
    of its seven daily values and its overtime is the part of the total
    above 40 hours. *)
Definition sum_of_days (t : Timesheet.t) : result Decimal :=
  h <- Dec.add (Timesheet.monday_hours t) (Timesheet.tuesday_hours t) ;;
  h <- Dec.add h (Timesheet.wednesday_hours t) ;;
  h <- Dec.add h (Timesheet.thursday_hours t) ;;
  h <- Dec.add h (Timesheet.friday_hours t) ;;
  h <- Dec.add h (Timesheet.saturday_hours t) ;;
  Dec.add h (Timesheet.sunday_hours t).

Definition hours_add_up (t : Timesheet.t) : Prop :=
  exists total over,
    sum_of_days t = Ok total
    /\ Dec.cmp (Timesheet.total_hours t) total = Eq
    /\ overtime_of (Timesheet.total_hours t) = Ok over
    /\ Dec.cmp (Timesheet.overtime_hours t) over = Eq.

(** The record that [create_timesheet] writes for a submitted week has
    hours that add up. *)
Definition created_hours_add_up (db : DB) (timesheet : TimesheetCreate)
    (u : UserInfo) : Prop :=
  exists db' row,
    create_timesheet db timesheet u = (db', Ok row) /\ hours_add_up row.

(** A week entered as 7.5, 8.25, 8, 9, 7.25, 0 and 4 hours. *)
Definition quarter_hour_week : TimesheetCreate :=
  mkTimesheetCreate 1 0 (6 * day)
    (D 75 (-1)) (D 825 (-2)) (D 8 0) (D 9 0) (D 725 (-2)) (D 0 0) (D 4 0) None.

(** Five days of eight hours and twenty minutes, entered as 8.3333. *)
Definition twenty_minute_week : TimesheetCreate :=
  mkTimesheetCreate 1 0 (6 * day)
    (D 83333 (-4)) (D 83333 (-4)) (D 83333 (-4)) (D 83333 (-4)) (D 83333 (-4))
    (D 0 (-4)) (D 0 (-4)) None.

(** The database once the run has been marked as processing (line 53). *)
Definition processing (db : DB) (run_id : Z) : DB :=
  update_run (PayrollRun.set_status PROCESSING) run_id db.

Definition no_totals : Totals := (Dec.zero, Dec.zero, Dec.zero).

(** State reached while one employee's freshly inserted payslip is being
    followed up: [old] are the rows that existed before, [p] the current
    version of the new row. *)
Definition follow_up (db0 db : DB) (old : list Payslip.t) (p : Payslip.t) : Prop :=
  payslips db = old ++ [p]
  /\ Payslip.id p = next_id (map Payslip.id old)
  /\ same_other_tables db0 db.

(** Exact sums of hours over time records, in hundredths of an hour. *)
Definition sum_regular_hundredths (ts : list Timesheet.t) : Z :=
  fold_right
    (fun t acc =>
       (Dec.coef (Timesheet.total_hours t) - Dec.coef (Timesheet.overtime_hours t))
       + acc) 0 ts.

Definition sum_overtime_hundredths (ts : list Timesheet.t) : Z :=
  fold_right (fun t acc => Dec.coef (Timesheet.overtime_hours t) + acc) 0 ts.

(** Hours as a DECIMAL(5, 2) column holds them. *)
Definition hours_column (d : Decimal) : Prop :=
  Dec.exp d = -2 /\ Z.abs (Dec.coef d) < 100000.

Definition column_timesheet (t : Timesheet.t) : Prop :=
  hours_column (Timesheet.total_hours t)
  /\ hours_column (Timesheet.overtime_hours t).

(** The seven daily values of a request and of a stored record, Monday
    first. *)
Definition submitted_days (timesheet : TimesheetCreate) : list Decimal :=
  [tc_monday_hours timesheet; tc_tuesday_hours timesheet;
   tc_wednesday_hours timesheet; tc_thursday_hours timesheet;
   tc_friday_hours timesheet; tc_saturday_hours timesheet;
   tc_sunday_hours timesheet].

Definition stored_days (t : Timesheet.t) : list Decimal :=
  [Timesheet.monday_hours t; Timesheet.tuesday_hours t;
   Timesheet.wednesday_hours t; Timesheet.thursday_hours t;
   Timesheet.friday_hours t; Timesheet.saturday_hours t;
   Timesheet.sunday_hours t].

(** A Decimal of at most two decimals in hundredths, and a daily value that
    its DECIMAL(4, 2) column holds without dropping a digit: at most two
    decimals, between 0 and 24. *)
Definition hundredths (d : Decimal) : Z := Dec.coef d * 10 ^ (Dec.exp d + 2).

Definition two_decimal_hours (d : Decimal) : Prop :=
  -2 <= Dec.exp d <= 28 /\ 0 <= hundredths d <= 2400.

(** The stored records of the employee and week of a request (lines
    59-67). *)
Definition records_of_week (db : DB) (timesheet : TimesheetCreate)
  : list Timesheet.t :=
  filter (fun t => (Timesheet.employee_id t =? tc_employee_id timesheet)
                   && (Timesheet.week_start_date t =? tc_week_start_date timesheet))
         (timesheets db).

(** A submitted week given by its seven daily hour values. *)
Definition week_of (emp : Z) (mon tue wed thu fri sat sun : Z) : TimesheetCreate :=
  mkTimesheetCreate emp 0 (6 * day)
    (Dec.of_int mon) (Dec.of_int tue) (Dec.of_int wed) (Dec.of_int thu)
    (Dec.of_int fri) (Dec.of_int sat) (Dec.of_int sun) None.

(** The environment with another Plaid client. *)
Definition with_plaid (env : Env)
    (recipient : string -> result string)
    (payment : string -> string -> Decimal -> result string)
    (status : string -> result (string * option string)) : Env :=
  mkEnv (utcnow env) (strftime env) (build_payslip_pdf env) (upload_payslip_pdf env)
        (send_payslip_notification env) recipient payment status.

(** A payslip with its payment follow-up fields reset. *)
Definition clear_payment (p : Payslip.t) : Payslip.t :=
  Payslip.set_payment None None "pending" p.

(** Two states that differ at most in the payment fields of payslips and
    in the log. *)
Definition same_but_payments (db db' : DB) : Prop :=
  same_other_tables db db'
  /\ map clear_payment (payslips db') = map clear_payment (payslips db).

(** Outcome of one employee under two Plaid clients. *)
Definition same_outcome (a b : result Payslip.t) : Prop :=
  match a, b with
  | Ok p, Ok p' => clear_payment p' = clear_payment p
  | Raise x, Raise x' => x' = x
  | _, _ => False
  end.

(** * Further embedded functions

    - [backend/services/tax_service.py]      (TaxService.calculate_annual_taxes)
    - [backend/services/payroll_service.py]  (PayrollService.create_payroll_run)
    - [backend/services/payment_service.py]  (PaymentService.verify_bank_account)
    - [backend/routers/payroll.py]           (process_payroll_run)
    - [backend/routers/timesheets.py]        (get_timesheet, approve_timesheet,
                                              delete_timesheet,
                                              calculate_taxes_for_timesheet,
                                              pay_timesheet) *)

From Stdlib Require DecimalString.

(** [a <= b] on two Decimals. *)
Definition Dec_leb (a b : Decimal) : bool := negb (Dec.ltb b a).

(** Truth value of a Decimal: any non-zero number. *)
Definition Dec_truthy (d : Decimal) : bool := negb (Dec.coef d =? 0).

(** [str(n)] of an int. *)
Definition str_int (n : Z) : string :=
  DecimalString.NilZero.string_of_int (Z.to_int n).

(** ** [TaxService.calculate_annual_taxes] (tax_service.py) *)

Record AnnualTaxes : Type := mkAnnualTaxes {
  annual_federal_tax : Decimal;
  annual_social_security : Decimal;
  annual_medicare : Decimal;
  total_annual_taxes : Decimal
}.

(** The six brackets of lines 57-62, whose limit is a Decimal.  The seventh
    and last entry of the source list, [(float('inf'), Decimal('0.37'))], is
    the end of this list. *)
Definition federal_brackets : list (Decimal * Decimal) :=
  [(Dec.of_int 11000, D 10 (-2));
   (Dec.of_int 44725, D 12 (-2));
   (Dec.of_int 95375, D 22 (-2));
   (Dec.of_int 182050, D 24 (-2));
   (Dec.of_int 231250, D 32 (-2));
   (Dec.of_int 578125, D 35 (-2))].

(** The loop of lines 70-77.  On the last entry the subtraction
    [bracket_limit - previous_bracket] has a float on the left and a Decimal
    on the right, which Python refuses. *)
Fixpoint federal_tax_loop (brackets : list (Decimal * Decimal))
    (federal_tax remaining_income previous_bracket : Decimal) : result Decimal :=
  match brackets with
  | [] =>
      if Dec_leb remaining_income Dec.zero then Ok federal_tax
      else Raise (TypeError "unsupported operand type(s) for -: 'float' and 'decimal.Decimal'")
  | (bracket_limit, rate) :: rest =>
      if Dec_leb remaining_income Dec.zero then Ok federal_tax
      else
        width <- Dec.sub bracket_limit previous_bracket ;;
        let taxable_in_bracket := Dec.min remaining_income width in
        tax <- Dec.mul taxable_in_bracket rate ;;
        federal_tax <- Dec.add federal_tax tax ;;
        remaining_income <- Dec.sub remaining_income taxable_in_bracket ;;
        federal_tax_loop rest federal_tax remaining_income bracket_limit
  end.

Definition calculate_annual_taxes (annual_salary : Decimal) (tax_status : string)
  : result AnnualTaxes :=
  federal_tax <- federal_tax_loop federal_brackets Dec.zero annual_salary Dec.zero ;;
  social_security <-
    Dec.mul (Dec.min annual_salary social_security_wage_base) (D 62 (-3)) ;;
  medicare <- Dec.mul annual_salary (D 145 (-4)) ;;
  federal_tax' <- quantize_cents federal_tax ;;
  social_security' <- quantize_cents social_security ;;
  medicare' <- quantize_cents medicare ;;
  fs <- Dec.add federal_tax social_security ;;
  total <- Dec.add fs medicare ;;
  total' <- quantize_cents total ;;
  Ok (mkAnnualTaxes federal_tax' social_security' medicare' total').

(** ** [PayrollService.create_payroll_run] (payroll_service.py) *)

Module PayrollService.

(** Lines 19-41: the row is inserted as given, with the column defaults,
    and reloaded. *)
Definition create_payroll_run (db : DB) (org_id : Z)
    (pay_period_start pay_period_end pay_date : datetime) (processed_by : Z)
  : DB * PayrollRun.t :=
  let payroll_run :=
    PayrollRun.mk (next_id (map PayrollRun.id (payroll_runs db)))
      org_id pay_period_start pay_period_end pay_date
      PENDING (to_column db 2 Dec.zero) (to_column db 2 Dec.zero)
      (to_column db 2 Dec.zero) (Some processed_by) None in
  (with_payroll_runs (payroll_runs db ++ [payroll_run]) db, payroll_run).

End PayrollService.

(** ** [process_payroll_run] (routers/payroll.py)

    [str(e)] of a [ValueError] raised with one message is that message.
    The text Python gives for the other exceptions is not modelled:
    [exn_text] stands for it. *)
Definition process_payroll_run (exn_text : Exn -> string) (env : Env) (db : DB)
    (payroll_run_id : Z) (current_user : UserInfo) : DB * result Summary :=
  if negb (in_groups "admin" current_user) then
    (db, Raise (HTTPException 403 "Only admins can process payroll"))
  else
    match process_payroll env db payroll_run_id with
    | (db', Ok result) => (db', Ok result)
    | (db', Raise (ValueError msg)) => (db', Raise (HTTPException 404 msg))
    | (db', Raise e) =>
        (db', Raise (HTTPException 500 ("Error processing payroll: " ++ exn_text e)))
    end.

(** ** [PaymentService.verify_bank_account] (payment_service.py) *)

(** The keys of an account dictionary of [plaid_service.get_accounts] that
    the caller reads. *)
Record PlaidAccount : Type := mkPlaidAccount {
  pa_account_id : string;
  pa_name : string;
  pa_type : string;
  pa_subtype : string;
  pa_mask : option string
}.

(** The dictionary returned: the account, one of the two fixed messages, or
    the text of the exception caught (kept as the exception). *)
Inductive BankVerification : Type :=
| Verified (account_id account_name account_type account_subtype : string)
           (mask : option string)
| NotVerified (error : string)
| NotVerifiedError (e : Exn).

(** [PlaidService.get_accounts] (plaid_service.py, lines 72-99);
    [accounts_get] stands for its [try] block: the request to the Plaid
    client and the dictionaries built from its response. *)
Definition plaid_service_get_accounts
    (accounts_get : string -> result (list PlaidAccount)) (db : DB)
    (access_token : string) : DB * result (list PlaidAccount) :=
  plaid_service.logged db "Error getting accounts" (accounts_get access_token).

Definition verify_bank_account
    (accounts_get : string -> result (list PlaidAccount)) (db : DB)
    (plaid_access_token : string) : DB * BankVerification :=
  match plaid_service_get_accounts accounts_get db plaid_access_token with
  | (db, Raise e) =>
      (add_log (LogError "backend.services.payment_service"
                  "Error verifying bank account" e) db,
       NotVerifiedError e)
  | (db, Ok []) => (db, NotVerified "No accounts found")
  | (db, Ok accounts) =>
      match filter (fun acc => String.eqb (pa_type acc) "depository") accounts with
      | [] => (db, NotVerified "No depository accounts found")
      | account :: _ =>
          (db, Verified (pa_account_id account) (pa_name account) (pa_type account)
                 (pa_subtype account) (pa_mask account))
      end
  end.

(** ** Timesheet endpoints (routers/timesheets.py) *)

Definition timesheet_with_status (s : TimesheetStatus) (t : Timesheet.t)
  : Timesheet.t :=
  Timesheet.mk (Timesheet.id t) (Timesheet.employee_id t)
    (Timesheet.week_start_date t) (Timesheet.week_end_date t)
    (Timesheet.monday_hours t) (Timesheet.tuesday_hours t)
    (Timesheet.wednesday_hours t) (Timesheet.thursday_hours t)
    (Timesheet.friday_hours t) (Timesheet.saturday_hours t)
    (Timesheet.sunday_hours t) (Timesheet.total_hours t)
    (Timesheet.overtime_hours t) s (Timesheet.notes t).

(** Committing a loaded, modified timesheet replaces the row of its key. *)
Definition commit_timesheet (t : Timesheet.t) (db : DB) : DB :=
  with_timesheets
    (map (fun q => if Timesheet.id q =? Timesheet.id t then t else q) (timesheets db))
    db.

(** The test of lines 173, 204 and 290: a member of the employee
    group who is not an administrator. *)
Definition employee_only (u : UserInfo) : bool :=
  in_groups "employee" u && negb (in_groups "admin" u).

(** Lines 156-184. *)
Definition get_timesheet (db : DB) (timesheet_id : Z) (current_user : UserInfo)
  : result Timesheet.t :=
  timesheet <- scalar_one_or_none
                 (filter (fun t => Timesheet.id t =? timesheet_id) (timesheets db)) ;;
  match timesheet with
  | None => Raise (HTTPException 404 "Timesheet not found")
  | Some timesheet =>
      if employee_only current_user then
        employee <- scalar_one_or_none
                      (filter (fun e => String.eqb (Employee.cognito_sub e)
                                                   (sub current_user))
                              (employees db)) ;;
        match employee with
        | None => Raise (HTTPException 403 "You can only view your own timesheets")
        | Some employee =>
            if negb (Timesheet.employee_id timesheet =? Employee.id employee)
            then Raise (HTTPException 403 "You can only view your own timesheets")
            else Ok timesheet
        end
      else Ok timesheet
  end.

(** ** [update_timesheet] (lines 186-230)

    A field of [TimesheetUpdate] is [None] when the request does not set it:
    [dict(exclude_unset=True)] leaves it out.  A request that sets a daily
    value to null would store NULL, which the rows here do not represent;
    such requests are outside the model.  For [notes], [Some None] is an
    explicit null. *)
Record TimesheetUpdate : Type := mkTimesheetUpdate {
  tu_monday_hours : option Decimal;
  tu_tuesday_hours : option Decimal;
  tu_wednesday_hours : option Decimal;
  tu_thursday_hours : option Decimal;
  tu_friday_hours : option Decimal;
  tu_saturday_hours : option Decimal;
  tu_sunday_hours : option Decimal;
  tu_notes : option (option string)
}.

(** One [setattr] on a DECIMAL(4, 2) column, followed by the commit and
    the reload. *)
Definition set_hours (db : DB) (value : option Decimal) (stored : Decimal) : Decimal :=
  match value with
  | Some v => to_column db 2 v
  | None => stored
  end.

(** Lines 223-228: the fields that are set are assigned; [total_hours] and
    [overtime_hours] are not fields of the request. *)
Definition timesheet_with_update (db : DB) (timesheet_update : TimesheetUpdate)
    (t : Timesheet.t) : Timesheet.t :=
  Timesheet.mk (Timesheet.id t) (Timesheet.employee_id t)
    (Timesheet.week_start_date t) (Timesheet.week_end_date t)
    (set_hours db (tu_monday_hours timesheet_update) (Timesheet.monday_hours t))
    (set_hours db (tu_tuesday_hours timesheet_update) (Timesheet.tuesday_hours t))
    (set_hours db (tu_wednesday_hours timesheet_update) (Timesheet.wednesday_hours t))
    (set_hours db (tu_thursday_hours timesheet_update) (Timesheet.thursday_hours t))
    (set_hours db (tu_friday_hours timesheet_update) (Timesheet.friday_hours t))
    (set_hours db (tu_saturday_hours timesheet_update) (Timesheet.saturday_hours t))
    (set_hours db (tu_sunday_hours timesheet_update) (Timesheet.sunday_hours t))
    (Timesheet.total_hours t) (Timesheet.overtime_hours t) (Timesheet.status t)
    (match tu_notes timesheet_update with
     | Some notes => notes
     | None => Timesheet.notes t
     end).

(** The enumeration [TimesheetStatus] has no member [DRAFT]: the comparison
    of line 216 raises AttributeError whenever it is reached. *)
Definition update_timesheet (db : DB) (timesheet_id : Z)
    (timesheet_update : TimesheetUpdate) (current_user : UserInfo)
  : DB * result Timesheet.t :=
  match scalar_one_or_none
          (filter (fun t => Timesheet.id t =? timesheet_id) (timesheets db)) with
  | Raise e => (db, Raise e)
  | Ok None => (db, Raise (HTTPException 404 "Timesheet not found"))
  | Ok (Some timesheet) =>
      let permitted : result unit :=
        if employee_only current_user then
          employee <- scalar_one_or_none
                        (filter (fun e => String.eqb (Employee.cognito_sub e)
                                                     (sub current_user))
                                (employees db)) ;;
          match employee with
          | None => Raise (HTTPException 403 "You can only update your own timesheets")
          | Some employee =>
              if negb (Timesheet.employee_id timesheet =? Employee.id employee)
              then Raise (HTTPException 403 "You can only update your own timesheets")
              else Raise (AttributeError "DRAFT")
          end
        else Ok tt in
      match permitted with
      | Raise e => (db, Raise e)
      | Ok _ =>
          let timesheet := timesheet_with_update db timesheet_update timesheet in
          (commit_timesheet timesheet db, Ok timesheet)
      end
  end.

(** Lines 232-264. *)
Definition approve_timesheet (db : DB) (timesheet_id : Z) (current_user : UserInfo)
  : DB * result Timesheet.t :=
  if negb (in_groups "admin" current_user) then
    (db, Raise (HTTPException 403 "Only admins can approve timesheets"))
  else
    match scalar_one_or_none
            (filter (fun t => Timesheet.id t =? timesheet_id) (timesheets db)) with
    | Raise e => (db, Raise e)
    | Ok None => (db, Raise (HTTPException 404 "Timesheet not found"))
    | Ok (Some timesheet) =>
        if negb (TimesheetStatus_eqb (Timesheet.status timesheet) TS_PENDING) then
          (db, Raise (HTTPException 400 "Can only approve pending timesheets"))
        else
          let timesheet := timesheet_with_status TS_APPROVED timesheet in
          (commit_timesheet timesheet db, Ok timesheet)
    end.

(** Lines 266-305.  [db.delete] removes the row of the loaded key. *)
Definition delete_timesheet (db : DB) (timesheet_id : Z) (current_user : UserInfo)
  : DB * result string :=
  match scalar_one_or_none
          (filter (fun t => Timesheet.id t =? timesheet_id) (timesheets db)) with
  | Raise e => (db, Raise e)
  | Ok None => (db, Raise (HTTPException 404 "Timesheet not found"))
  | Ok (Some timesheet) =>
      if TimesheetStatus_eqb (Timesheet.status timesheet) TS_APPROVED then
        (db, Raise (HTTPException 400 "Cannot delete approved timesheet"))
      else
        let permitted : result unit :=
          if employee_only current_user then
            employee <- scalar_one_or_none
                          (filter (fun e => Employee.id e
                                            =? Timesheet.employee_id timesheet)
                                  (employees db)) ;;
            match employee with
            | None => Raise (HTTPException 403 "You can only delete your own timesheets")
            | Some employee =>
                if negb (String.eqb (Employee.cognito_sub employee) (sub current_user))
                then Raise (HTTPException 403 "You can only delete your own timesheets")
                else Ok tt
            end
          else Ok tt in
        match permitted with
        | Raise e => (db, Raise e)
        | Ok _ =>
            (with_timesheets
               (filter (fun t => negb (Timesheet.id t =? Timesheet.id timesheet))
                       (timesheets db))
               db,
             Ok "Timesheet deleted successfully")
        end
  end.

(** The gross pay of one timesheet, lines 325-332 (and again 358-364): the
    hourly rate is used whenever it is set and non-zero, whatever the
    salary type. *)
Definition timesheet_gross_pay (employee : Employee.t) (timesheet : Timesheet.t)
  : result Decimal :=
  match Employee.hourly_rate employee with
  | Some hourly_rate =>
      if Dec_truthy hourly_rate then
        Dec.mul (Timesheet.total_hours timesheet) hourly_rate
      else if Dec_truthy (Employee.base_salary employee) then
        Dec.div (Employee.base_salary employee) (Dec.of_int 52)
      else Raise (HTTPException 400 "Employee pay rate not set")
  | None =>
      if Dec_truthy (Employee.base_salary employee) then
        Dec.div (Employee.base_salary employee) (Dec.of_int 52)
      else Raise (HTTPException 400 "Employee pay rate not set")
  end.

(** The statements that [calculate_taxes_for_timesheet] (lines 313-334) and
    [pay_timesheet] (lines 346-366) have in common: the three look-ups, the
    gross pay and the tax calculation. *)
Definition timesheet_taxes (db : DB) (timesheet_id : Z)
  : result (Employee.t * TaxCalculation) :=
  timesheet <- scalar_one_or_none
                 (filter (fun t => Timesheet.id t =? timesheet_id) (timesheets db)) ;;
  match timesheet with
  | None => Raise (HTTPException 404 "Timesheet not found")
  | Some timesheet =>
      employee <- scalar_one_or_none
                    (filter (fun e => Employee.id e =? Timesheet.employee_id timesheet)
                            (employees db)) ;;
      match employee with
      | None => Raise (HTTPException 404 "Employee not found")
      | Some employee =>
          tax_config <- scalar_one_or_none
                          (active_tax_configs db (Employee.org_id employee)) ;;
          match tax_config with
          | None => Raise (HTTPException 404 "Tax configuration not found")
          | Some tax_config =>
              gross_pay <- timesheet_gross_pay employee timesheet ;;
              taxes <- calculate_taxes gross_pay tax_config employee ;;
              Ok (employee, taxes)
          end
      end
  end.

Definition calculate_taxes_for_timesheet (db : DB) (timesheet_id : Z)
    (current_user : UserInfo) : result TaxCalculation :=
  r <- timesheet_taxes db timesheet_id ;;
  Ok (snd r).

Definition pay_timesheet (env : Env) (db : DB) (timesheet_id : Z)
    (current_user : UserInfo) : DB * result PaymentResult :=
  if negb (in_groups "admin" current_user) && negb (in_groups "manager" current_user)
  then (db, Raise (HTTPException 403 "Only admin/manager can pay timesheets"))
  else
    match timesheet_taxes db timesheet_id with
    | Raise e => (db, Raise e)
    | Ok (employee, taxes) =>
        send_payment_via_plaid env db (net_pay taxes) (Employee.id employee)
          ("Timesheet " ++ str_int timesheet_id ++ " payment")
    end.

(** * Reference formulas and data for the further properties *)

(** The part of a salary of [s] cents that lies between [lo] and [hi]. *)
Definition bracket_part (s lo hi : Z) : Z := Z.min (Z.max (s - lo) 0) (hi - lo).

(** Progressive federal tax on [s] cents of annual salary, in
    ten-thousandths of a currency unit: each bracket's rate, in percent, on
    the part of the salary inside the bracket. *)
Definition progressive_tax (s : Z) : Z :=
  10 * bracket_part s 0 1100000 + 12 * bracket_part s 1100000 4472500
  + 22 * bracket_part s 4472500 9537500 + 24 * bracket_part s 9537500 18205000
  + 32 * bracket_part s 18205000 23125000 + 35 * bracket_part s 23125000 57812500.

(** Left-to-right Decimal sum of a list, starting from [acc]. *)
Fixpoint sum_decimals (acc : Decimal) (l : list Decimal) : result Decimal :=
  match l with
  | [] => Ok acc
  | x :: rest => a <- Dec.add acc x ;; sum_decimals a rest
  end.

(** The columns of a run that the pay computation reads. *)
Definition run_key (r : PayrollRun.t) : Z * Z * datetime * datetime * datetime :=
  (PayrollRun.id r, PayrollRun.org_id r, PayrollRun.pay_period_start r,
   PayrollRun.pay_period_end r, PayrollRun.pay_date r).

(** The pay figures of a payslip: every column except its key and the
    payment and PDF follow-up fields. *)
Definition pay_figures (p : Payslip.t) : Payslip.t :=
  Payslip.mk 0 (Payslip.employee_id p) (Payslip.payroll_run_id p)
    (Payslip.pay_period_start p) (Payslip.pay_period_end p) (Payslip.pay_date p)
    (Payslip.regular_hours p) (Payslip.overtime_hours p)
    (Payslip.regular_pay p) (Payslip.overtime_pay p) (Payslip.gross_pay p)
    (Payslip.federal_tax p) (Payslip.state_tax p) (Payslip.social_security p)
    (Payslip.medicare p) (Payslip.total_deductions p) (Payslip.net_pay p)
    "pending" None None None None.

(** Two states of the same engine with the same runs, employees, tax
    configurations and timesheets; payslips, bank accounts and the log may
    differ. *)
Definition same_pay_inputs (db db' : DB) : Prop :=
  payroll_runs db' = payroll_runs db
  /\ employees db' = employees db
  /\ tax_configurations db' = tax_configurations db
  /\ timesheets db' = timesheets db
  /\ column_round db' = column_round db.

(** Two hourly employees with one approved week each; the second also has
    a week that is still pending. *)
Definition two_hourly_db : DB :=
  mkDB [example_run PENDING] [paid_hourly 1; paid_hourly 2] [column_tax_config]
    [week_timesheet 1 1 0 TS_APPROVED 8; week_timesheet 2 2 0 TS_APPROVED 10;
     week_timesheet 3 2 1 TS_PENDING 8]
    [] [] [] Dec.round_half_even.

Definition two_hourly_summary : Summary :=
  mkSummary 10 "completed" 2 (D 190000 (-2)) (D 124165 (-2)) (D 65835 (-2)).

(** The employee on whose behalf a request is accepted (lines 40-55). *)
Definition submitter_checked (db : DB) (timesheet : TimesheetCreate) (u : UserInfo)
  : Prop :=
  if in_groups "admin" u || in_groups "manager" u then
    exists e, filter (fun e => Employee.id e =? tc_employee_id timesheet) (employees db)
              = [e]
  else
    exists e, filter (fun e => String.eqb (Employee.cognito_sub e) (sub u))
                     (employees db) = [e]
              /\ Employee.id e = tc_employee_id timesheet.

(** Every table other than [timesheets], the log and the engine's rounding
    are the same in both states. *)
Definition same_but_timesheets (db db' : DB) : Prop :=
  payroll_runs db' = payroll_runs db
  /\ employees db' = employees db
  /\ tax_configurations db' = tax_configurations db
  /\ payslips db' = payslips db
  /\ bank_accounts db' = bank_accounts db
  /\ log db' = log db
  /\ column_round db' = column_round db.

(** Two states that differ at most in the statuses of their timesheets. *)
Definition same_up_to_status (db db' : DB) : Prop :=
  same_but_timesheets db db'
  /\ map (timesheet_with_status TS_PENDING) (timesheets db')
     = map (timesheet_with_status TS_PENDING) (timesheets db).

(** One salaried employee with a verified bank account and one week of
    work in the given status. *)
Definition one_week_db (st : TimesheetStatus) : DB :=
  mkDB [example_run PENDING] [banked_employee] [column_tax_config]
    [week_timesheet 1 1 0 st 8] [] [BankAccount.mk 1 1 "acct-1" true] []
    Dec.round_half_even.

(** A submitted week given in hundredths of an hour per day. *)
Definition week_in_hundredths (emp : Z) (mon tue wed thu fri sat sun : Z)
  : TimesheetCreate :=
  mkTimesheetCreate emp 0 (6 * day)
    (D mon (-2)) (D tue (-2)) (D wed (-2)) (D thu (-2)) (D fri (-2)) (D sat (-2))
    (D sun (-2)) None.

(** The rows stored for forty and for fifty hours worked by employee 1. *)
Definition forty_hour_row : Timesheet.t :=
  Timesheet.mk 1 1 0 (6 * day) (D 800 (-2)) (D 800 (-2)) (D 800 (-2))
    (D 800 (-2)) (D 800 (-2)) (D 0 (-2)) (D 0 (-2)) (D 4000 (-2)) (D 0 (-2))
    TS_PENDING None.

Definition fifty_hour_row : Timesheet.t :=
  Timesheet.mk 1 1 0 (6 * day) (D 1000 (-2)) (D 1000 (-2)) (D 1000 (-2))
    (D 1000 (-2)) (D 1000 (-2)) (D 0 (-2)) (D 0 (-2)) (D 5000 (-2)) (D 1000 (-2))
    TS_PENDING None.

(** A request that sets Monday to twelve hours and nothing else. *)
Definition monday_twelve : TimesheetUpdate :=
  mkTimesheetUpdate (Some (D 1200 (-2))) None None None None None None None.

(** The forty-hour week of employee 1, stored and approved. *)
Definition approved_week_db : DB :=
  with_timesheets [timesheet_with_status TS_APPROVED forty_hour_row]
    (one_employee_db PENDING).

(** Three accounts as Plaid lists them: a credit card, then two depository
    accounts. *)
Definition example_accounts : list PlaidAccount :=
  [mkPlaidAccount "a-1" "Card" "credit" "credit card" None;
   mkPlaidAccount "a-2" "Checking" "depository" "checking" (Some "0000");
   mkPlaidAccount "a-3" "Savings" "depository" "savings" None].
(** * Facts about the decimal model *)

Module DecFacts.
Import Dec.

Lemma pow10_pos (k : Z) : 0 <= k -> 0 < 10 ^ k.
Proof. intros; apply Z.pow_pos_nonneg; lia. Qed.

Lemma pow10_succ (k : Z) : 1 <= k -> 10 ^ k = 10 * 10 ^ (k - 1).
Proof.
  intros Hk. replace k with (1 + (k - 1)) at 1 by lia.
  rewrite Z.pow_add_r by lia. reflexivity.
Qed.

Lemma ndigits_fuel_le (fuel : nat) :
  forall n k, 1 <= k -> 0 <= n < 10 ^ k -> 1 <= ndigits_fuel fuel n <= k.
Proof.
  induction fuel as [|fuel IH]; intros n k Hk Hn; cbn [ndigits_fuel].
  - lia.
  - destruct (Z.ltb_spec n 10) as [Hlt|Hge]; [lia|].
    assert (Hk2 : 2 <= k).
    { destruct (Z.eq_dec k 1) as [->|]; [simpl in Hn; lia|lia]. }
    assert (Hq : 0 <= n / 10 < 10 ^ (k - 1)).
    { split; [apply Z.div_pos; lia|].
      apply Z.div_lt_upper_bound; [lia|]. rewrite <- pow10_succ by lia. lia. }
    specialize (IH (n / 10) (k - 1) ltac:(lia) Hq). lia.
Qed.

Lemma ndigits_le (c k : Z) : 1 <= k -> Z.abs c < 10 ^ k -> 1 <= ndigits c <= k.
Proof.
  intros Hk Hc. unfold ndigits. apply ndigits_fuel_le; [assumption|lia].
Qed.

(** Within the precision and the exponent range, [_fix] changes nothing. *)
Lemma fix_exact (c e : Z) :
  Z.abs c < 10 ^ prec -> Etiny <= e <= Etop ->
  _fix (mk c e) = Ok (mk c e).
Proof.
  intros Hc He. unfold _fix. cbn [coef exp].
  destruct (Z.eqb_spec c 0) as [->|Hnz].
  - unfold Etiny, Etop, Emax, Emin, prec in *.
    rewrite Z.max_l, Z.min_l by lia. reflexivity.
  - pose proof (ndigits_le c prec ltac:(unfold prec; lia) Hc) as Hd.
    unfold Etiny, Etop, Emax, Emin, prec in *.
    destruct (Z.gtb_spec (ndigits c + e - 28) (999999 - 28 + 1)); [lia|].
    destruct (Z.ltb_spec e (Z.max (ndigits c + e - 28) (-999999 - 28 + 1))); [lia|].
    reflexivity.
Qed.

Lemma mul_exact (a b : t) :
  Z.abs (coef a * coef b) < 10 ^ prec -> Etiny <= exp a + exp b <= Etop ->
  mul a b = Ok (mk (coef a * coef b) (exp a + exp b)).
Proof. intros; unfold mul; apply fix_exact; assumption. Qed.

(** Sum of two decimals that share their exponent. *)
Lemma add_exact_same (ca cb e : Z) :
  Z.abs (ca + cb) < 10 ^ prec -> Etiny <= e <= Etop ->
  add (mk ca e) (mk cb e) = Ok (mk (ca + cb) e).
Proof.
  intros Hc He. unfold add. cbn [coef exp].
  rewrite Z.min_id, Z.sub_diag. simpl (10 ^ 0).
  rewrite !Z.mul_1_r. apply fix_exact; assumption.
Qed.

Lemma add_exact (a b : t) :
  let e := Z.min (exp a) (exp b) in
  Z.abs (coef a * 10 ^ (exp a - e) + coef b * 10 ^ (exp b - e)) < 10 ^ prec ->
  Etiny <= e <= Etop ->
  add a b = Ok (mk (coef a * 10 ^ (exp a - e) + coef b * 10 ^ (exp b - e)) e).
Proof. intros e Hc He. unfold add. apply fix_exact; assumption. Qed.

Lemma round_half_even_0 (c : Z) : round_half_even c 0 = c.
Proof.
  unfold round_half_even. simpl (10 ^ 0).
  rewrite Z.div_1_r, Z.mod_1_r. simpl. rewrite Z.mul_comm. apply Z.abs_sgn.
Qed.

(** Rounding keeps the result within half a unit of the dropped digits. *)
Lemma round_half_even_spec (c k : Z) :
  0 <= k ->
  2 * Z.abs (round_half_even c k * 10 ^ k - c) <= 10 ^ k.
Proof.
  intros Hk. unfold round_half_even.
  pose proof (pow10_pos k Hk) as Hp.
  set (p := 10 ^ k) in *.
  pose proof (Z.div_mod (Z.abs c) p ltac:(lia)) as Hdm.
  pose proof (Z.mod_pos_bound (Z.abs c) p Hp) as Hr.
  set (q := Z.abs c / p) in *. set (r := Z.abs c mod p) in *.
  assert (Hq : 0 <= q) by (apply Z.div_pos; lia).
  destruct ((2 * r >? p) || ((2 * r =? p) && Z.odd q)) eqn:E.
  - assert (2 * r >= p).
    { apply orb_true_iff in E. destruct E as [E|E].
      - apply Z.gtb_lt in E. lia.
      - apply andb_true_iff in E. destruct E as [E _]. apply Z.eqb_eq in E. lia. }
    destruct (Z.sgn_spec c) as [[Hs ->]|[[Hs ->]|[Hs ->]]]; nia.
  - assert (2 * r <= p).
    { apply orb_false_iff in E. destruct E as [E _].
      destruct (Z.gtb_spec (2 * r) p); [discriminate|lia]. }
    destruct (Z.sgn_spec c) as [[Hs ->]|[[Hs ->]|[Hs ->]]]; nia.
Qed.

Lemma round_half_even_abs_le (c k : Z) :
  0 <= k -> Z.abs (round_half_even c k) <= Z.abs c / 10 ^ k + 1.
Proof.
  intros Hk. unfold round_half_even.
  pose proof (pow10_pos k Hk) as Hp.
  assert (Hq : 0 <= Z.abs c / 10 ^ k) by (apply Z.div_pos; lia).
  destruct ((2 * (Z.abs c mod 10 ^ k) >? 10 ^ k)
            || ((2 * (Z.abs c mod 10 ^ k) =? 10 ^ k) && Z.odd (Z.abs c / 10 ^ k)));
    destruct (Z.sgn_spec c) as [[Hs ->]|[[Hs ->]|[Hs ->]]]; lia.
Qed.

(** Quantizing to cents a decimal that has at least two fractional digits
    and fits the precision: one half-even rounding of the exact value. *)
Lemma quantize_cents_exact (c e : Z) :
  Z.abs c < 10 ^ prec -> -1000 <= e <= -2 ->
  quantize (mk c e) (-2) = Ok (mk (round_half_even c (-2 - e)) (-2)).
Proof.
  intros Hc He.
  assert (Hround : Z.abs (round_half_even c (-2 - e)) < 10 ^ prec).
  { destruct (Z.eq_dec e (-2)) as [->|Hne].
    - simpl (-2 - -2). rewrite round_half_even_0. assumption.
    - pose proof (round_half_even_abs_le c (-2 - e) ltac:(lia)) as Hle.
      assert (Z.abs c / 10 ^ (-2 - e) <= Z.abs c / 10 ^ 1).
      { apply Z.div_le_compat_l; [lia|]. split; [reflexivity|].
        apply Z.pow_le_mono_r; lia. }
      assert (Z.abs c / 10 ^ 1 < 10 ^ 27).
      { apply Z.div_lt_upper_bound; [reflexivity|].
        unfold prec in Hc. change (10 ^ 1 * 10 ^ 27) with (10 ^ 28). exact Hc. }
      unfold prec.
      assert (10 ^ 27 + 1 < 10 ^ 28) by reflexivity. lia. }
  unfold quantize. cbn [coef exp].
  unfold Etiny, Emin, Emax. simpl ((-2 <? _) || (-2 >? _)). cbv iota.
  destruct (Z.eqb_spec c 0) as [->|Hnz].
  - replace (round_half_even 0 (-2 - e)) with 0
      by (unfold round_half_even; simpl; reflexivity).
    reflexivity.
  - pose proof (ndigits_le c prec ltac:(unfold prec; lia) Hc) as Hd.
    pose proof (ndigits_le _ prec ltac:(unfold prec; lia) Hround) as Hd'.
    unfold adjusted, rescale. cbn [coef exp].
    rewrite (proj2 (Z.eqb_neq c 0) Hnz).
    unfold prec in *.
    destruct (Z.gtb_spec (ndigits c + e - 1) 999999); [lia|].
    destruct (Z.gtb_spec (ndigits c + e - 1 - -2 + 1) 28); [lia|].
    assert (Hans :
      (if e >=? -2 then mk (c * 10 ^ (e - -2)) (-2)
       else mk (round_half_even c (-2 - e)) (-2))
      = mk (round_half_even c (-2 - e)) (-2)).
    { destruct (Z.geb_spec e (-2)); [|reflexivity].
      replace e with (-2) by lia. simpl (-2 - -2).
      rewrite round_half_even_0. simpl. rewrite Z.mul_1_r. reflexivity. }
    rewrite Hans. cbn [coef exp].
    destruct (Z.gtb_spec (ndigits (round_half_even c (-2 - e)) + -2 - 1) 999999); [lia|].
    destruct (Z.gtb_spec (ndigits (round_half_even c (-2 - e))) 28); [lia|].
    apply fix_exact; [assumption|unfold Etiny, Etop, Emin, Emax, prec; lia].
Qed.

End DecFacts.

(** * Tax calculator *)

Ltac bind_inv H :=
  repeat match type of H with
  | bind ?m _ = Ok _ =>
      let x := fresh "x" in
      let E := fresh "E" in
      destruct m as [x|] eqn:E; [cbn [bind] in H|discriminate H]
  end.

(** C4. Reference vectors of the tax calculator: with rates 0.22, 0.05,
    0.062 and 0.0145 a gross pay of 1000.00 gives 220.00, 50.00, 62.00,
    14.50, 346.50 and 653.50 whatever the employee and the other columns of
    the configuration (so on every call), and a gross pay of 200000.00 has
    its social security computed on the wage base 160200, giving 9932.40 and
    not 12400.00. *)
Theorem calculate_taxes_reference_vectors
    (tax_config : TaxConfiguration.t) (employee : Employee.t) :
  TaxConfiguration.federal_tax_rate tax_config = D 22 (-2) ->
  TaxConfiguration.state_tax_rate tax_config = D 5 (-2) ->
  TaxConfiguration.social_security_rate tax_config = D 62 (-3) ->
  TaxConfiguration.medicare_rate tax_config = D 145 (-4) ->
  calculate_taxes (D 100000 (-2)) tax_config employee
  = Ok (mkTaxCalculation (D 22000 (-2)) (D 5000 (-2)) (D 6200 (-2))
          (D 1450 (-2)) (D 34650 (-2)) (D 65350 (-2)))
  /\ Dec.mul (Dec.min (D 20000000 (-2)) social_security_wage_base) (D 62 (-3))
     = Dec.mul (Dec.of_int 160200) (D 62 (-3))
  /\ exists r,
       calculate_taxes (D 20000000 (-2)) tax_config employee = Ok r
       /\ social_security r = D 993240 (-2)
       /\ social_security r <> D 1240000 (-2).
Proof.
  destruct tax_config as [i o rf rs rss rm ru act].
  cbn [TaxConfiguration.federal_tax_rate TaxConfiguration.state_tax_rate
       TaxConfiguration.social_security_rate TaxConfiguration.medicare_rate].
  intros -> -> -> ->.
  split; [vm_compute; reflexivity|].
  split; [vm_compute; reflexivity|].
  eexists. split; [vm_compute; reflexivity|].
  split; [reflexivity|discriminate].
Qed.

Lemma calculate_taxes_reference_vectors_witness :
  calculate_taxes (D 100000 (-2)) reference_tax_config (hourly_employee 7 None)
  = Ok (mkTaxCalculation (D 22000 (-2)) (D 5000 (-2)) (D 6200 (-2))
          (D 1450 (-2)) (D 34650 (-2)) (D 65350 (-2))).
Proof.
  apply (calculate_taxes_reference_vectors reference_tax_config
           (hourly_employee 7 None)); reflexivity.
Defined.

Lemma mul_exact_mk (ca ea cb eb : Z) :
  Z.abs (ca * cb) < 10 ^ 28 -> -1000 <= ea + eb <= 1000 ->
  Dec.mul (Dec.mk ca ea) (Dec.mk cb eb) = Ok (Dec.mk (ca * cb) (ea + eb)).
Proof.
  intros Hc He. apply DecFacts.mul_exact; cbn [Dec.coef Dec.exp];
    [exact Hc|unfold Dec.Etiny, Dec.Etop, Dec.Emin, Dec.Emax, Dec.prec; lia].
Qed.

Lemma add_exact_mk (ca cb e : Z) :
  Z.abs (ca + cb) < 10 ^ 28 -> -1000 <= e <= 1000 ->
  Dec.add (Dec.mk ca e) (Dec.mk cb e) = Ok (Dec.mk (ca + cb) e).
Proof.
  intros Hc He. apply DecFacts.add_exact_same;
    [exact Hc|unfold Dec.Etiny, Dec.Etop, Dec.Emin, Dec.Emax, Dec.prec; lia].
Qed.

(** Sum of decimals whose exponents differ by [k >= 0]. *)
Lemma add_exact_le (ca ea cb eb k : Z) :
  eb - ea = k -> 0 <= k ->
  Z.abs (ca + cb * 10 ^ k) < 10 ^ 28 -> -1000 <= ea <= 1000 ->
  Dec.add (Dec.mk ca ea) (Dec.mk cb eb) = Ok (Dec.mk (ca + cb * 10 ^ k) ea).
Proof.
  intros Ek Hk Hc He.
  pose proof (DecFacts.add_exact (Dec.mk ca ea) (Dec.mk cb eb)) as H.
  cbn [Dec.coef Dec.exp] in H.
  replace (Z.min ea eb) with ea in H by lia.
  rewrite Z.sub_diag, Ek in H.
  change (10 ^ 0) with 1 in H. rewrite Z.mul_1_r in H.
  apply H; [exact Hc|unfold Dec.Etiny, Dec.Etop, Dec.Emin, Dec.Emax, Dec.prec; lia].
Qed.

Lemma add_exact_ge (ca ea cb eb k : Z) :
  ea - eb = k -> 0 <= k ->
  Z.abs (ca * 10 ^ k + cb) < 10 ^ 28 -> -1000 <= eb <= 1000 ->
  Dec.add (Dec.mk ca ea) (Dec.mk cb eb) = Ok (Dec.mk (ca * 10 ^ k + cb) eb).
Proof.
  intros Ek Hk Hc He.
  pose proof (DecFacts.add_exact (Dec.mk ca ea) (Dec.mk cb eb)) as H.
  cbn [Dec.coef Dec.exp] in H.
  replace (Z.min ea eb) with eb in H by lia.
  rewrite Z.sub_diag, Ek in H.
  change (10 ^ 0) with 1 in H. rewrite Z.mul_1_r in H.
  apply H; [exact Hc|unfold Dec.Etiny, Dec.Etop, Dec.Emin, Dec.Emax, Dec.prec; lia].
Qed.

Ltac pow_norm :=
  change (10 ^ 1) with 10 in *;
  change (10 ^ 2) with 100 in *;
  change (10 ^ 4) with 10000 in *;
  change (10 ^ 12) with 1000000000000 in *;
  change (10 ^ 28) with 10000000000000000000000000000 in *.

Ltac dec_side := solve [pow_norm; first [lia|nia]].

(** Comparing an integer literal with an amount in cents. *)
Lemma ltb_int_cents (n g : Z) :
  Dec.ltb (Dec.of_int n) (Dec.mk g (-2)) = (n * 100 <? g).
Proof.
  unfold Dec.ltb, Dec.cmp, Dec.of_int. cbn [Dec.coef Dec.exp].
  change (Z.min 0 (-2)) with (-2). change (0 - -2) with 2.
  change (-2 - -2) with 0. change (10 ^ 2) with 100. change (10 ^ 0) with 1.
  rewrite Z.mul_1_r. unfold Z.ltb. reflexivity.
Qed.

Section ColumnDomain.

(** Gross pay in whole cents below ten billion, rates in ten-thousandths
    between 0 and 1: the scales of the payslip and rate columns. *)
Variables g rf rs rss rm : Z.
Variable tax_config : TaxConfiguration.t.
Hypothesis Hg : 0 <= g < 10 ^ 12.
Hypothesis Hrf : 0 <= rf <= 10000.
Hypothesis Hrs : 0 <= rs <= 10000.
Hypothesis Hrss : 0 <= rss <= 10000.
Hypothesis Hrm : 0 <= rm <= 10000.
Hypothesis Efed : TaxConfiguration.federal_tax_rate tax_config = D rf (-4).
Hypothesis Estate : TaxConfiguration.state_tax_rate tax_config = D rs (-4).
Hypothesis Ess : TaxConfiguration.social_security_rate tax_config = D rss (-4).
Hypothesis Emed : TaxConfiguration.medicare_rate tax_config = D rm (-4).

Lemma unrounded_taxes_exact :
  unrounded_taxes (D g (-2)) tax_config
  = Ok (mkTaxCalculation
          (D (g * rf) (-6)) (D (g * rs) (-6))
          (if 16020000 <? g then D (160200 * rss) (-4) else D (g * rss) (-6))
          (D (medicare_micro g rm) (-6))
          (D (total_micro g rf rs rss rm) (-6))
          (D (g * 10000 - total_micro g rf rs rss rm) (-6))).
Proof.
  unfold unrounded_taxes. rewrite Efed, Estate, Ess, Emed. unfold D.
  rewrite !mul_exact_mk by dec_side. cbn [bind].
  unfold Dec.min, Dec.gtb, social_security_wage_base, medicare_threshold.
  rewrite !ltb_int_cents. change (160200 * 100) with 16020000.
  change (200000 * 100) with 20000000.
  unfold total_micro, ss_micro, medicare_micro.
  change (-2 + -4) with (-6).
  destruct (Z.ltb_spec 16020000 g) as [Hcap|Hcap];
  destruct (Z.ltb_spec 20000000 g) as [Hmed|Hmed]; try lia.
  - unfold Dec.of_int.
    rewrite mul_exact_mk by dec_side. cbn [bind]. change (0 + -4) with (-4).
    unfold Dec.sub, Dec.neg. cbn [Dec.coef Dec.exp].
    rewrite (add_exact_le g (-2) (Z.opp 200000) 0 2) by dec_side. cbn [bind].
    rewrite mul_exact_mk by dec_side. cbn [bind]. change (-2 + -3) with (-5).
    rewrite (add_exact_le (g * rm) (-6) _ (-5) 1) by dec_side. cbn [bind].
    rewrite add_exact_mk by dec_side. cbn [bind].
    rewrite (add_exact_le (g * rf + g * rs) (-6) (160200 * rss) (-4) 2) by dec_side.
    cbn [bind].
    rewrite add_exact_mk by dec_side. cbn [bind Dec.coef Dec.exp].
    rewrite (add_exact_ge g (-2) _ (-6) 4) by dec_side.
    cbn [bind]. pow_norm. f_equal. f_equal; f_equal; lia.
  - unfold Dec.of_int.
    rewrite mul_exact_mk by dec_side. cbn [bind]. change (0 + -4) with (-4).
    rewrite add_exact_mk by dec_side. cbn [bind].
    rewrite (add_exact_le (g * rf + g * rs) (-6) (160200 * rss) (-4) 2) by dec_side.
    cbn [bind].
    rewrite add_exact_mk by dec_side. cbn [bind].
    unfold Dec.sub, Dec.neg. cbn [Dec.coef Dec.exp].
    rewrite (add_exact_ge g (-2) _ (-6) 4) by dec_side.
    cbn [bind]. pow_norm. f_equal. f_equal; f_equal; lia.
  - rewrite mul_exact_mk by dec_side. cbn [bind]. change (-2 + -4) with (-6).
    rewrite add_exact_mk by dec_side. cbn [bind].
    rewrite add_exact_mk by dec_side. cbn [bind].
    rewrite add_exact_mk by dec_side. cbn [bind].
    unfold Dec.sub, Dec.neg. cbn [Dec.coef Dec.exp].
    rewrite (add_exact_ge g (-2) _ (-6) 4) by dec_side.
    cbn [bind]. pow_norm. f_equal. f_equal; f_equal; lia.
Qed.

End ColumnDomain.

Lemma unrounded_taxes_sums (gross_pay : Decimal) (tax_config : TaxConfiguration.t)
    (u : TaxCalculation) :
  unrounded_taxes gross_pay tax_config = Ok u ->
  sum4 (federal_tax u) (state_tax u) (social_security u) (medicare u)
  = Ok (total_deductions u)
  /\ Dec.sub gross_pay (total_deductions u) = Ok (net_pay u).
Proof.
  unfold unrounded_taxes. intros H. bind_inv H.
  injection H as <-. cbn [federal_tax state_tax social_security medicare
                          total_deductions net_pay].
  unfold sum4.
  repeat match goal with
  | E : ?m = Ok _ |- context [bind ?m _] => rewrite E; cbn [bind]
  end.
  split; assumption.
Qed.

Lemma calculate_taxes_column_domain
    (g rf rs rss rm : Z) (tax_config : TaxConfiguration.t) (employee : Employee.t) :
  0 <= g < 10 ^ 12 ->
  0 <= rf <= 10000 -> 0 <= rs <= 10000 -> 0 <= rss <= 10000 -> 0 <= rm <= 10000 ->
  TaxConfiguration.federal_tax_rate tax_config = D rf (-4) ->
  TaxConfiguration.state_tax_rate tax_config = D rs (-4) ->
  TaxConfiguration.social_security_rate tax_config = D rss (-4) ->
  TaxConfiguration.medicare_rate tax_config = D rm (-4) ->
  calculate_taxes (D g (-2)) tax_config employee
  = Ok (mkTaxCalculation
          (D (Dec.round_half_even (g * rf) 4) (-2))
          (D (Dec.round_half_even (g * rs) 4) (-2))
          (D (if 16020000 <? g then Dec.round_half_even (160200 * rss) 2
              else Dec.round_half_even (g * rss) 4) (-2))
          (D (Dec.round_half_even (medicare_micro g rm) 4) (-2))
          (D (Dec.round_half_even (total_micro g rf rs rss rm) 4) (-2))
          (D (Dec.round_half_even (g * 10000 - total_micro g rf rs rss rm) 4) (-2))).
Proof.
  intros Hg Hrf Hrs Hrss Hrm Efed Estate Ess Emed.
  unfold calculate_taxes.
  rewrite (unrounded_taxes_exact g rf rs rss rm tax_config) by assumption.
  cbn [bind federal_tax state_tax social_security medicare total_deductions net_pay].
  assert (P12 : 10 ^ 12 = 1000000000000) by reflexivity.
  assert (P28 : 10 ^ Dec.prec = 10000000000000000000000000000) by reflexivity.
  rewrite P12 in Hg.
  unfold quantize_cents, D.
  assert (Hss : 0 <= ss_micro g rss <= 10000 * g).
  { unfold ss_micro. destruct (Z.ltb_spec 16020000 g); nia. }
  assert (Hmd : 0 <= medicare_micro g rm <= 10090 * g).
  { unfold medicare_micro. destruct (Z.ltb_spec 20000000 g); nia. }
  assert (Htot : 0 <= total_micro g rf rs rss rm <= 40090 * g).
  { unfold total_micro. nia. }
  rewrite (DecFacts.quantize_cents_exact (g * rf) (-6)) by (rewrite ?P28; nia).
  cbn [bind].
  rewrite (DecFacts.quantize_cents_exact (g * rs) (-6)) by (rewrite ?P28; nia).
  cbn [bind].
  assert (Hsscap : 0 <= 160200 * rss <= 1602000000) by lia.
  rewrite (DecFacts.quantize_cents_exact (medicare_micro g rm) (-6))
    by (rewrite ?P28; lia).
  rewrite (DecFacts.quantize_cents_exact (total_micro g rf rs rss rm) (-6))
    by (rewrite ?P28; lia).
  rewrite (DecFacts.quantize_cents_exact (g * 10000 - total_micro g rf rs rss rm) (-6))
    by (rewrite ?P28; lia).
  destruct (16020000 <? g).
  - rewrite (DecFacts.quantize_cents_exact (160200 * rss) (-4))
      by (rewrite ?P28; lia).
    reflexivity.
  - rewrite (DecFacts.quantize_cents_exact (g * rss) (-6))
      by (rewrite ?P28; nia).
    reflexivity.
Qed.

(** C5 (amended). Rounding order of the tax totals.  Whenever
    [calculate_taxes] returns, each of its six outputs is the rounding to
    cents of its own unrounded value: the total is the rounding of the
    unrounded sum of the four unrounded deductions and the net pay is the
    rounding of the gross pay minus that unrounded sum; no rounded value
    enters a sum or a difference.  For a gross pay in whole cents below ten
    billion and rates in ten-thousandths between 0 and 1 it always returns,
    and total and net pay are single roundings of the exact amounts. *)
Theorem calculate_taxes_rounds_after_summing
    (gross_pay : Decimal) (tax_config : TaxConfiguration.t) (employee : Employee.t) :
  (forall r, calculate_taxes gross_pay tax_config employee = Ok r ->
     exists u,
       unrounded_taxes gross_pay tax_config = Ok u
       /\ sum4 (federal_tax u) (state_tax u) (social_security u) (medicare u)
          = Ok (total_deductions u)
       /\ Dec.sub gross_pay (total_deductions u) = Ok (net_pay u)
       /\ quantize_cents (federal_tax u) = Ok (federal_tax r)
       /\ quantize_cents (state_tax u) = Ok (state_tax r)
       /\ quantize_cents (social_security u) = Ok (social_security r)
       /\ quantize_cents (medicare u) = Ok (medicare r)
       /\ quantize_cents (total_deductions u) = Ok (total_deductions r)
       /\ quantize_cents (net_pay u) = Ok (net_pay r))
  /\ (forall g rf rs rss rm,
        gross_pay = D g (-2) -> 0 <= g < 10 ^ 12 ->
        0 <= rf <= 10000 -> 0 <= rs <= 10000 ->
        0 <= rss <= 10000 -> 0 <= rm <= 10000 ->
        TaxConfiguration.federal_tax_rate tax_config = D rf (-4) ->
        TaxConfiguration.state_tax_rate tax_config = D rs (-4) ->
        TaxConfiguration.social_security_rate tax_config = D rss (-4) ->
        TaxConfiguration.medicare_rate tax_config = D rm (-4) ->
        exists r,
          calculate_taxes gross_pay tax_config employee = Ok r
          /\ total_deductions r
             = D (Dec.round_half_even (total_micro g rf rs rss rm) 4) (-2)
          /\ net_pay r
             = D (Dec.round_half_even (g * 10000 - total_micro g rf rs rss rm) 4) (-2)).
Proof.
  split.
  - intros r H. unfold calculate_taxes in H.
    destruct (unrounded_taxes gross_pay tax_config) as [u|] eqn:Eu;
      [cbn [bind] in H|discriminate H].
    bind_inv H. injection H as <-.
    destruct (unrounded_taxes_sums _ _ _ Eu) as [Hsum Hnet].
    exists u. cbn [federal_tax state_tax social_security medicare
                   total_deductions net_pay].
    repeat split; assumption.
  - intros g rf rs rss rm -> Hg Hrf Hrs Hrss Hrm Ef Es Ess Em.
    eexists. split.
    + apply (calculate_taxes_column_domain g rf rs rss rm); assumption.
    + split; reflexivity.
Qed.

Lemma calculate_taxes_rounds_after_summing_witness :
  exists r,
    calculate_taxes (D 100002 (-2)) column_tax_config (hourly_employee 7 None) = Ok r
    /\ total_deductions r = D 34651 (-2)
    /\ net_pay r = D 65351 (-2).
Proof.
  destruct (calculate_taxes_rounds_after_summing (D 100002 (-2)) column_tax_config
              (hourly_employee 7 None)) as [_ H].
  destruct (H 100002 2200 500 620 145 eq_refl) as [r [Hr [Ht Hn]]];
    try reflexivity; try (simpl; lia).
  exists r. split; [exact Hr|]. split; [rewrite Ht|rewrite Hn]; reflexivity.
Defined.

(** C5 (as stated) fails: with the reference rates and a gross pay of
    1000.02 the returned total is 346.51 while the four rounded items add up
    to 346.50, and the returned net pay 653.51 is not 1000.02 - 346.50. *)
Lemma totals_from_rounded_items_counterexample :
  exists r,
    calculate_taxes (D 100002 (-2)) reference_tax_config (hourly_employee 7 None)
    = Ok r
    /\ ~ totals_from_rounded_items (D 100002 (-2)) r.
Proof.
  eexists. split; [vm_compute; reflexivity|].
  intros [s [n [Hs [Ht _]]]].
  vm_compute in Hs. injection Hs as <-.
  vm_compute in Ht. discriminate Ht.
Qed.

(** * Effects of the payroll service on the database *)

Lemma next_id_fresh (ids : list Z) (x : Z) : In x ids -> x < next_id ids.
Proof.
  unfold next_id. induction ids as [|y ids IH]; cbn [fold_right In].
  - intros [].
  - intros [->|Hin]; [lia|]. specialize (IH Hin). lia.
Qed.

Lemma commit_appended (old : list Payslip.t) (p p' : Payslip.t) :
  Payslip.id p' = Payslip.id p ->
  Payslip.id p = next_id (map Payslip.id old) ->
  map (fun q => if Payslip.id q =? Payslip.id p' then p' else q) (old ++ [p])
  = old ++ [p'].
Proof.
  intros Hid Hfresh. rewrite map_app. cbn [map].
  rewrite Hid, Z.eqb_refl. f_equal.
  rewrite <- (map_id old) at 2. apply map_ext_in. intros q Hq.
  assert (Payslip.id q < Payslip.id p).
  { rewrite Hfresh. apply next_id_fresh. apply in_map. exact Hq. }
  destruct (Z.eqb_spec (Payslip.id q) (Payslip.id p)); [lia|reflexivity].
Qed.

Lemma same_other_tables_refl (db : DB) : same_other_tables db db.
Proof. repeat split. Qed.

Lemma same_other_tables_trans (a b c : DB) :
  same_other_tables a b -> same_other_tables b c -> same_other_tables a c.
Proof.
  unfold same_other_tables.
  intros (A1 & A2 & A3 & A4 & A5 & A6) (B1 & B2 & B3 & B4 & B5 & B6).
  repeat split; congruence.
Qed.

Lemma follow_up_commit (db0 db : DB) (old : list Payslip.t) (p p' : Payslip.t) :
  follow_up db0 db old p -> Payslip.id p' = Payslip.id p ->
  follow_up db0 (commit_payslip p' db) old p'.
Proof.
  intros (Hps & Hid & Hsame) Hid'. unfold follow_up, commit_payslip.
  cbn [payslips with_payslips]. rewrite Hps.
  rewrite (commit_appended old p p' Hid' Hid).
  repeat split; try congruence; apply Hsame.
Qed.

Lemma follow_up_log (db0 db : DB) (old : list Payslip.t) (p : Payslip.t)
    (l : LogRecord) :
  follow_up db0 db old p -> follow_up db0 (add_log l db) old p.
Proof. intros (Hps & Hid & Hsame). repeat split; try assumption; apply Hsame. Qed.

Lemma same_but_log_refl (db : DB) : same_but_log db db.
Proof. repeat split. Qed.

Lemma same_but_log_trans (a b c : DB) :
  same_but_log a b -> same_but_log b c -> same_but_log a c.
Proof.
  intros [A1 A2] [B1 B2].
  split; [eapply same_other_tables_trans; eassumption|congruence].
Qed.

Lemma same_but_log_add (db : DB) (l : LogRecord) : same_but_log db (add_log l db).
Proof. repeat split. Qed.

Lemma follow_up_same_but_log (db0 db db1 : DB) (old : list Payslip.t) (p : Payslip.t) :
  follow_up db0 db old p -> same_but_log db db1 -> follow_up db0 db1 old p.
Proof.
  intros (Hps & Hid & Hsame) [Ht Hp]. unfold follow_up.
  split; [congruence|]. split; [exact Hid|].
  eapply same_other_tables_trans; eassumption.
Qed.

(** A method of [plaid_service] changes at most the log and hands on what
    its [try] block returned or raised. *)
Lemma plaid_logged_effect (A : Type) (db : DB) (message : string) (r : result A) :
  same_but_log db (fst (plaid_service.logged db message r))
  /\ snd (plaid_service.logged db message r) = r.
Proof. destruct r; cbn; split; try reflexivity; repeat split. Qed.

(** The [try] block of the payment service changes at most the log. *)
Lemma send_payment_via_plaid_try_effect (env : Env) (db : DB) (amount : Decimal)
    (employee_id : Z) (description : string) :
  same_but_log db (fst (send_payment_via_plaid_try env db amount employee_id description)).
Proof.
  unfold send_payment_via_plaid_try.
  destruct (scalar_one_or_none
              (filter (fun e => Employee.id e =? employee_id) (employees db)))
    as [[employee|]|]; try apply same_but_log_refl.
  destruct (scalar_one_or_none _) as [[b|]|]; try apply same_but_log_refl.
  unfold plaid_service.create_payment_recipient, plaid_service.create_payment,
    plaid_service.get_payment_status.
  destruct (create_payment_recipient env _) as [rid|x]; cbn [plaid_service.logged];
    [|apply same_but_log_add].
  destruct (create_payment env rid description amount) as [pid|x];
    cbn [plaid_service.logged]; [|apply same_but_log_add].
  destruct (get_payment_status env pid) as [st|x];
    cbn [plaid_service.logged fst]; [apply same_but_log_refl|apply same_but_log_add].
Qed.

Lemma generate_payslip_pdf_effect (env : Env) (db0 db : DB) (old : list Payslip.t)
    (p : Payslip.t) (e : Employee.t) :
  follow_up db0 db old p ->
  follow_up db0 (fst (_generate_payslip_pdf env db p e)) old
            (snd (_generate_payslip_pdf env db p e))
  /\ pay_record (snd (_generate_payslip_pdf env db p e)) = pay_record p.
Proof.
  intros H.
  unfold _generate_payslip_pdf, pdf_service.generate_payslip_pdf,
    email_service.send_payslip_notification.
  destruct (build_payslip_pdf env p e) as [[]|x]; cbn [fst snd];
    [|split; [apply follow_up_log; assumption|reflexivity]].
  destruct (upload_payslip_pdf env p e) as [url|x]; cbn [fst snd].
  - destruct (send_payslip_notification env _ _ _ _); cbn [fst snd];
      (split; [|reflexivity]).
    + apply (follow_up_commit db0 db old p); [assumption|reflexivity].
    + apply follow_up_log.
      apply (follow_up_commit db0 db old p); [assumption|reflexivity].
  - split; [do 2 apply follow_up_log; assumption|reflexivity].
Qed.

(** The payment service catches everything it raises. *)
Lemma send_payment_via_plaid_returns (env : Env) (db : DB) (amount : Decimal)
    (employee_id : Z) (description : string) :
  exists r,
    snd (send_payment_via_plaid env db amount employee_id description) = Ok r
    /\ same_but_log db
         (fst (send_payment_via_plaid env db amount employee_id description))
    /\ match snd (send_payment_via_plaid_try env db amount employee_id description) with
       | Ok r' => r = r'
       | Raise x =>
           r = mkPaymentResult "plaid" None None "failed" None (Some x)
           /\ In (LogError "backend.services.payment_service" "Plaid payment error" x)
                 (log (fst (send_payment_via_plaid env db amount employee_id
                              description)))
       end.
Proof.
  unfold send_payment_via_plaid.
  pose proof (send_payment_via_plaid_try_effect env db amount employee_id description)
    as Heff.
  destruct (send_payment_via_plaid_try env db amount employee_id description)
    as [db1 [r|x]]; cbn [fst snd] in *.
  - exists r. repeat split; apply Heff.
  - eexists. split; [reflexivity|]. split.
    + eapply same_but_log_trans; [exact Heff|apply same_but_log_add].
    + split; [reflexivity|]. cbn [log add_log]. apply in_or_app. right. left.
      reflexivity.
Qed.

Lemma process_payment_effect (env : Env) (db0 db : DB) (old : list Payslip.t)
    (p : Payslip.t) (e : Employee.t) :
  follow_up db0 db old p ->
  exists p',
    snd (_process_payment env db p e) = Ok p'
    /\ follow_up db0 (fst (_process_payment env db p e)) old p'
    /\ pay_record p' = pay_record p.
Proof.
  intros H. unfold _process_payment.
  match goal with |- context [send_payment_via_plaid ?a ?b ?c ?d ?f] =>
    destruct (send_payment_via_plaid_returns a b c d f) as [r [Hr Hdb]];
    destruct (send_payment_via_plaid a b c d f) as [db1 res] end.
  cbn [fst snd] in Hr, Hdb. subst res. cbn [fst snd].
  eexists. split; [reflexivity|]. split; [|reflexivity].
  apply (follow_up_commit db0 db1 old p); [|reflexivity].
  apply (follow_up_same_but_log db0 db db1); [assumption|apply Hdb].
Qed.

(** [_process_payment] returns in every case: the handler that names the
    unbound [logger] is never entered. *)
Lemma process_payment_never_raises (env : Env) (db : DB) (p : Payslip.t)
    (e : Employee.t) :
  exists p',
    snd (_process_payment env db p e) = Ok p'
    /\ pay_record p' = pay_record p
    /\ exists r, Payslip.payment_status p' = pr_status r
                 /\ Payslip.payment_method p' = Some (pr_method r).
Proof.
  unfold _process_payment.
  match goal with |- context [send_payment_via_plaid ?a ?b ?c ?d ?f] =>
    destruct (send_payment_via_plaid_returns a b c d f) as [r [Hr _]];
    destruct (send_payment_via_plaid a b c d f) as [db1 res] end.
  cbn [fst snd] in Hr. subst res. cbn [fst snd].
  eexists. split; [reflexivity|]. split; [reflexivity|].
  exists r. split; reflexivity.
Qed.

Lemma build_payslip_shape (db : DB) (e : Employee.t) (r : PayrollRun.t)
    (tc : TaxConfiguration.t) (p : Payslip.t) :
  build_payslip db e r tc = Ok p ->
  pay_record p = p
  /\ Payslip.id p = next_id (map Payslip.id (payslips db))
  /\ Payslip.employee_id p = Employee.id e
  /\ Payslip.payroll_run_id p = PayrollRun.id r.
Proof.
  unfold build_payslip. intros H. bind_inv H.
  destruct x0 as [[rp op] gp]. bind_inv H. injection H as <-.
  repeat split.
Qed.

(** One employee: either the computation raises and nothing is written, or
    exactly one payslip is appended and the call returns it. *)
Lemma process_employee_effect (env : Env) (db : DB) (e : Employee.t)
    (r : PayrollRun.t) (tc : TaxConfiguration.t) :
  match build_payslip db e r tc with
  | Raise x => _process_employee_payroll env db e r tc = (db, Raise x)
  | Ok p =>
      exists db' p',
        _process_employee_payroll env db e r tc = (db', Ok p')
        /\ payslips db' = payslips db ++ [p']
        /\ pay_record p' = refresh_payslip db p
        /\ same_other_tables db db'
  end.
Proof.
  unfold _process_employee_payroll.
  destruct (build_payslip db e r tc) as [p0|x] eqn:Hb; [|reflexivity].
  destruct (build_payslip_shape _ _ _ _ _ Hb) as (Hrec0 & Hid0 & _).
  set (p := refresh_payslip db p0).
  assert (Hrec : pay_record p = p).
  { unfold p. rewrite <- Hrec0 at 2. reflexivity. }
  assert (Hid : Payslip.id p = next_id (map Payslip.id (payslips db))) by exact Hid0.
  assert (H0 : follow_up db (with_payslips (payslips db ++ [p]) db) (payslips db) p).
  { repeat split. exact Hid. }
  destruct (generate_payslip_pdf_effect env db _ (payslips db) p e H0) as [H1 Hr1].
  destruct (_generate_payslip_pdf env (with_payslips (payslips db ++ [p]) db) p e)
    as [db1 p1].
  cbn [fst snd] in H1, Hr1.
  destruct (truthy (Employee.bank_account_id e)).
  - destruct (process_payment_effect env db db1 (payslips db) p1 e H1)
      as (p2 & Hres & H2 & Hr2).
    destruct (_process_payment env db1 p1 e) as [db2 res]. cbn [fst snd] in *.
    subst res. exists db2, p2. split; [reflexivity|].
    destruct H2 as (Hps & _ & Hsame). repeat split; try apply Hsame; congruence.
  - exists db1, p1. split; [reflexivity|].
    destruct H1 as (Hps & _ & Hsame). repeat split; try apply Hsame; congruence.
Qed.

(** The loop, employee after employee. *)
Lemma process_employees_app (env : Env) (r : PayrollRun.t) (tc : TaxConfiguration.t)
    (pre rest : list Employee.t) :
  forall db totals,
    process_employees env db (pre ++ rest) r tc totals
    = match process_employees env db pre r tc totals with
      | (db1, Ok totals1) => process_employees env db1 rest r tc totals1
      | (db1, Raise x) => (db1, Raise x)
      end.
Proof.
  induction pre as [|e pre IH]; intros db totals; cbn [app process_employees].
  - reflexivity.
  - destruct (_process_employee_payroll env db e r tc) as [db' [p|x]]; [|reflexivity].
    destruct totals as [[tg tn] tt].
    destruct (g <- Dec.add tg (Payslip.gross_pay p) ;;
              n <- Dec.add tn (Payslip.net_pay p) ;;
              x <- Dec.add tt (Payslip.total_deductions p) ;; Ok (g, n, x));
      [apply IH|reflexivity].
Qed.

(** What a (complete or interrupted) loop leaves behind: only payslips are
    added, all of them for this run, one per employee in loop order. *)
Lemma process_employees_effect (env : Env) (r : PayrollRun.t)
    (tc : TaxConfiguration.t) (emps : list Employee.t) :
  forall db totals db' res,
    process_employees env db emps r tc totals = (db', res) ->
    same_other_tables db db'
    /\ exists created rest,
         payslips db' = payslips db ++ created
         /\ Forall (fun p => Payslip.payroll_run_id p = PayrollRun.id r) created
         /\ map Employee.id emps = map Payslip.employee_id created ++ rest
         /\ (forall totals', res = Ok totals' -> rest = []).
Proof.
  induction emps as [|e emps IH]; intros db totals db' res H;
    cbn [process_employees] in H.
  - injection H as <- <-. split; [apply same_other_tables_refl|].
    exists [], []. rewrite app_nil_r. repeat split; auto.
  - pose proof (process_employee_effect env db e r tc) as He.
    destruct (build_payslip db e r tc) as [p|x] eqn:Hb.
    + destruct He as (db1 & p' & Hrun & Hps & Hrec & Hsame).
      rewrite Hrun in H.
      destruct (build_payslip_shape _ _ _ _ _ Hb) as (_ & _ & Hemp & Hrid).
      assert (Hemp' : Payslip.employee_id p' = Employee.id e).
      { rewrite <- Hemp.
        exact (f_equal Payslip.employee_id Hrec). }
      assert (Hrid' : Payslip.payroll_run_id p' = PayrollRun.id r).
      { rewrite <- Hrid.
        exact (f_equal Payslip.payroll_run_id Hrec). }
      destruct totals as [[tg tn] tt].
      destruct (g <- Dec.add tg (Payslip.gross_pay p') ;;
                n <- Dec.add tn (Payslip.net_pay p') ;;
                x <- Dec.add tt (Payslip.total_deductions p') ;; Ok (g, n, x))
        as [totals1|x].
      * destruct (IH _ _ _ _ H) as (Hsame' & created & rest & Hps' & Hall & Hids & Hok).
        split; [eapply same_other_tables_trans; eassumption|].
        exists (p' :: created), rest. rewrite Hps', Hps, <- app_assoc.
        repeat split; auto. cbn [map app]. rewrite Hemp', Hids. reflexivity.
      * injection H as <- <-. split; [assumption|].
        exists [p'], (map Employee.id emps). repeat split; auto.
        -- cbn [map app]. rewrite Hemp'. reflexivity.
        -- discriminate.
    + rewrite He in H. injection H as <- <-.
      split; [apply same_other_tables_refl|].
      exists [], (map Employee.id (e :: emps)). rewrite app_nil_r.
      repeat split; auto. discriminate.
Qed.

(** The failure of the computation does not depend on the payslips already
    stored. *)
Lemma build_payslip_raise_frame (db db' : DB) (e : Employee.t) (r : PayrollRun.t)
    (tc : TaxConfiguration.t) (x : Exn) :
  timesheets db' = timesheets db ->
  build_payslip db e r tc = Raise x -> build_payslip db' e r tc = Raise x.
Proof.
  unfold build_payslip. intros ->.
  destruct (aggregate_hours _ _) as [hours|]; cbn [bind]; [|auto].
  destruct (gross_pay_of _ _ _ _) as [[[rp op] gp]|]; cbn [bind]; [|auto].
  destruct (calculate_taxes _ _ _); cbn [bind]; [discriminate|auto].
Qed.

(** ** Rows of the run table *)

Lemma update_run_payroll_runs_twice (s s' : PayrollStatus) (run_id : Z) (db : DB) :
  update_run (PayrollRun.set_status s') run_id
    (update_run (PayrollRun.set_status s) run_id db)
  = update_run (PayrollRun.set_status s') run_id db.
Proof.
  unfold update_run, with_payroll_runs. cbn [payroll_runs employees
    tax_configurations timesheets payslips bank_accounts log].
  f_equal. rewrite map_map. apply map_ext. intros a.
  destruct (Z.eqb_spec (PayrollRun.id a) run_id) as [E|E].
  - cbn [PayrollRun.id PayrollRun.set_status]. rewrite E, Z.eqb_refl. reflexivity.
  - rewrite (proj2 (Z.eqb_neq _ _) E). reflexivity.
Qed.

Lemma filter_update_run (f : PayrollRun.t -> PayrollRun.t) (run_id : Z)
    (rows : list PayrollRun.t) :
  (forall a, PayrollRun.id (f a) = PayrollRun.id a) ->
  filter (fun x => PayrollRun.id x =? run_id)
         (map (fun a => if PayrollRun.id a =? run_id then f a else a) rows)
  = map f (filter (fun x => PayrollRun.id x =? run_id) rows).
Proof.
  intros Hf. induction rows as [|a rows IH]; cbn [map filter]; [reflexivity|].
  destruct (Z.eqb_spec (PayrollRun.id a) run_id) as [E|E].
  - rewrite Hf, E, Z.eqb_refl. cbn [map]. f_equal. exact IH.
  - rewrite (proj2 (Z.eqb_neq _ _) E). exact IH.
Qed.

Lemma run_is_update (f : PayrollRun.t -> PayrollRun.t) (run_id : Z) (db : DB)
    (r : PayrollRun.t) :
  (forall a, PayrollRun.id (f a) = PayrollRun.id a) ->
  run_is db run_id r -> run_is (update_run f run_id db) run_id (f r).
Proof.
  unfold run_is, update_run. intros Hf H. cbn [payroll_runs with_payroll_runs].
  rewrite filter_update_run by assumption. rewrite H. reflexivity.
Qed.

Lemma run_is_id (db : DB) (run_id : Z) (r : PayrollRun.t) :
  run_is db run_id r -> PayrollRun.id r = run_id.
Proof.
  unfold run_is. intros H.
  assert (Hin : In r (filter (fun x => PayrollRun.id x =? run_id) (payroll_runs db))).
  { rewrite H. left. reflexivity. }
  apply filter_In in Hin. destruct Hin as [_ Hin]. apply Z.eqb_eq. exact Hin.
Qed.

Lemma run_is_status (db : DB) (run_id : Z) (r : PayrollRun.t) :
  run_is db run_id r -> run_status db run_id = Some (PayrollRun.status r).
Proof.
  unfold run_is, run_status. intros H.
  induction (payroll_runs db) as [|a rows IH]; cbn [filter find] in *;
    [discriminate|].
  destruct (PayrollRun.id a =? run_id).
  - injection H as -> _. reflexivity.
  - apply IH. exact H.
Qed.

(** * The run orchestrator *)

Lemma process_payroll_unfold (env : Env) (db : DB) (run_id : Z) (r : PayrollRun.t) :
  run_is db run_id r ->
  process_payroll env db run_id
  = match process_payroll_try env (processing db run_id) r with
    | (db2, Ok summary) => (db2, Ok summary)
    | (db2, Raise e) => (update_run (PayrollRun.set_status FAILED) run_id db2, Raise e)
    end.
Proof.
  unfold run_is, process_payroll. intros ->. reflexivity.
Qed.

Lemma update_run_same_tables (f : PayrollRun.t -> PayrollRun.t) (run_id : Z)
    (db db' : DB) :
  same_other_tables db db' ->
  payroll_runs (update_run f run_id db') = payroll_runs (update_run f run_id db).
Proof.
  intros (H & _). unfold update_run. cbn [payroll_runs with_payroll_runs].
  rewrite H. reflexivity.
Qed.

(** C3. A run of an organisation without any active tax configuration:
    the run ends in status failed, the payslip table is untouched however
    many employees the organisation has, and the caller receives the error
    "Tax configuration not found for organization". *)
Theorem missing_tax_configuration_fails_run
    (env : Env) (db : DB) (run_id : Z) (r : PayrollRun.t) :
  run_is db run_id r ->
  active_tax_configs db (PayrollRun.org_id r) = [] ->
  process_payroll env db run_id
  = (update_run (PayrollRun.set_status FAILED) run_id db,
     Raise (ValueError "Tax configuration not found for organization"))
  /\ payslips (fst (process_payroll env db run_id)) = payslips db
  /\ run_status (fst (process_payroll env db run_id)) run_id = Some FAILED.
Proof.
  intros Hrun Hcfg.
  assert (E : process_payroll env db run_id
              = (update_run (PayrollRun.set_status FAILED) run_id db,
                 Raise (ValueError "Tax configuration not found for organization"))).
  { rewrite (process_payroll_unfold env db run_id r Hrun).
    unfold process_payroll_try, processing.
    change (active_tax_configs
              (update_run (PayrollRun.set_status PROCESSING) run_id db)
              (PayrollRun.org_id r))
      with (active_tax_configs db (PayrollRun.org_id r)).
    rewrite Hcfg. cbn [scalar_one_or_none].
    rewrite update_run_payroll_runs_twice. reflexivity. }
  rewrite E. cbn [fst]. split; [reflexivity|]. split; [reflexivity|].
  rewrite (run_is_status _ _ (PayrollRun.set_status FAILED r)); [reflexivity|].
  apply run_is_update; [reflexivity|assumption].
Qed.

Lemma missing_tax_configuration_fails_run_witness :
  run_status
    (fst (process_payroll example_env
            no_tax_configuration_db 10)) 10
  = Some FAILED.
Proof.
  apply (missing_tax_configuration_fails_run example_env
           no_tax_configuration_db 10
           (example_run PENDING)); reflexivity.
Defined.

(** What the [try] block leaves behind. *)
Lemma process_payroll_try_effect (env : Env) (db : DB) (r : PayrollRun.t)
    (db' : DB) (res : result Summary) :
  process_payroll_try env db r = (db', res) ->
  exists dbl created rest,
    same_other_tables db dbl
    /\ payslips dbl = payslips db ++ created
    /\ Forall (fun p => Payslip.payroll_run_id p = PayrollRun.id r) created
    /\ map Employee.id (active_employees db (PayrollRun.org_id r))
       = map Payslip.employee_id created ++ rest
    /\ match res with
       | Raise _ => db' = dbl
       | Ok s =>
           rest = []
           /\ db' = update_run
                      (PayrollRun.set_completed
                         (to_column dbl 2 (sum_total_gross_pay s))
                         (to_column dbl 2 (sum_total_net_pay s))
                         (to_column dbl 2 (sum_total_taxes s)) (utcnow env))
                      (PayrollRun.id r) dbl
       end.
Proof.
  unfold process_payroll_try. intros H.
  destruct (scalar_one_or_none (active_tax_configs db (PayrollRun.org_id r)))
    as [[tc|]|x].
  - destruct (process_employees env db (active_employees db (PayrollRun.org_id r))
                r tc (Dec.zero, Dec.zero, Dec.zero)) as [dbl resl] eqn:Hloop.
    destruct (process_employees_effect _ _ _ _ _ _ _ _ Hloop)
      as (Hsame & created & rest & Hps & Hall & Hids & Hok).
    exists dbl, created, rest. repeat (split; [assumption|]).
    destruct resl as [[[tg tn] tt]|x]; injection H as <- <-.
    + cbn [sum_total_gross_pay sum_total_net_pay sum_total_taxes].
      split; [eapply Hok; reflexivity|reflexivity].
    + reflexivity.
  - injection H as <- <-.
    exists db, [], (map Employee.id (active_employees db (PayrollRun.org_id r))).
    rewrite app_nil_r. repeat split; auto.
  - injection H as <- <-.
    exists db, [], (map Employee.id (active_employees db (PayrollRun.org_id r))).
    rewrite app_nil_r. repeat split; auto.
Qed.

(** A loop that raises has processed a first part of its employees and
    stopped at the next one: either that employee's computation raised and
    nothing more was written, or the employee's payslip was committed and
    adding it to the totals raised. *)
Lemma process_employees_raise_inv (env : Env) (r : PayrollRun.t)
    (tc : TaxConfiguration.t) (emps : list Employee.t) :
  forall db totals db' x,
    process_employees env db emps r tc totals = (db', Raise x) ->
    exists pre e post dbk totalsk,
      emps = pre ++ e :: post
      /\ process_employees env db pre r tc totals = (dbk, Ok totalsk)
      /\ process_employees env dbk [e] r tc totalsk = (db', Raise x)
      /\ (db' = dbk
          \/ exists p, payslips db' = payslips dbk ++ [p]
                       /\ Payslip.employee_id p = Employee.id e
                       /\ Payslip.payroll_run_id p = PayrollRun.id r).
Proof.
  induction emps as [|e emps IH]; intros db totals db' x H;
    cbn [process_employees] in H; [discriminate H|].
  pose proof (process_employee_effect env db e r tc) as He.
  destruct (build_payslip db e r tc) as [p|y] eqn:Hb.
  - destruct He as (db1 & p' & Hrun & Hps & Hrec & Hsame).
    rewrite Hrun in H.
    destruct (build_payslip_shape _ _ _ _ _ Hb) as (_ & _ & Hemp & Hrid).
    destruct totals as [[tg tn] tt].
    destruct (g <- Dec.add tg (Payslip.gross_pay p') ;;
              n <- Dec.add tn (Payslip.net_pay p') ;;
              x <- Dec.add tt (Payslip.total_deductions p') ;; Ok (g, n, x))
      as [totals1|y] eqn:Hadd.
    + destruct (IH _ _ _ _ H) as (pre & e' & post & dbk & totalsk & -> & Hpre & Hstop).
      exists (e :: pre), e', post, dbk, totalsk.
      split; [reflexivity|]. split; [|exact Hstop].
      cbn [process_employees]. rewrite Hrun, Hadd. exact Hpre.
    + injection H as <- <-.
      exists [], e, emps, db, (tg, tn, tt).
      split; [reflexivity|]. split; [reflexivity|].
      split; [cbn [process_employees]; rewrite Hrun, Hadd; reflexivity|].
      right. exists p'.
      split; [exact Hps|]. split.
      * rewrite <- Hemp. exact (f_equal Payslip.employee_id Hrec).
      * rewrite <- Hrid. exact (f_equal Payslip.payroll_run_id Hrec).
  - rewrite He in H. injection H as <- <-.
    exists [], e, emps, db, totals.
    split; [reflexivity|]. split; [reflexivity|].
    split; [cbn [process_employees]; rewrite He; reflexivity|].
    left. reflexivity.
Qed.

(** C10. Pay records are committed one by one, and a failing run keeps
    them.  Whenever [process_payroll] raises on an existing run, the run
    table differs from the initial one in the status of that run alone (now
    failed, totals and processed_at untouched) and every payslip that
    existed is still there.  If the organisation has its tax configuration,
    the loop had processed a first part [pre] of the active employees, [k]
    of them, when it raised at the next employee [e]: the payslips stored at
    that point are the initial ones followed by exactly one committed
    payslip of this run for each employee of [pre], in order, and the
    failure path keeps every one of these [k] payslips as committed
    (followed by the payslip of [e] itself when [e]'s payslip was committed
    and it was the addition to the totals that raised).  Otherwise no
    employee was processed and the payslips are unchanged.  There is such a
    failed run that owns payslips. *)
Theorem failed_run_keeps_committed_payslips
    (env : Env) (db : DB) (run_id : Z) (r : PayrollRun.t) (db' : DB) (x : Exn) :
  run_is db run_id r ->
  process_payroll env db run_id = (db', Raise x) ->
  payroll_runs db' = payroll_runs (update_run (PayrollRun.set_status FAILED) run_id db)
  /\ run_is db' run_id (PayrollRun.set_status FAILED r)
  /\ ((scalar_one_or_none (active_tax_configs db (PayrollRun.org_id r)) = Raise x
       \/ active_tax_configs db (PayrollRun.org_id r) = [])
      /\ payslips db' = payslips db
      \/ exists tc pre e post dbk totals committed,
           active_tax_configs db (PayrollRun.org_id r) = [tc]
           /\ active_employees db (PayrollRun.org_id r) = pre ++ e :: post
           /\ process_employees env (processing db run_id) pre r tc no_totals
              = (dbk, Ok totals)
           /\ payslips dbk = payslips db ++ committed
           /\ map Payslip.employee_id committed = map Employee.id pre
           /\ Forall (fun p => Payslip.payroll_run_id p = run_id) committed
           /\ List.length committed = List.length pre
           /\ snd (process_employees env dbk [e] r tc totals) = Raise x
           /\ (payslips db' = payslips dbk
               \/ exists p, payslips db' = payslips dbk ++ [p]
                            /\ Payslip.employee_id p = Employee.id e
                            /\ Payslip.payroll_run_id p = run_id))
  /\ exists db5,
       fst (process_payroll example_env (five_employee_db PENDING) 10) = db5
       /\ run_status db5 10 = Some FAILED
       /\ map Payslip.employee_id (payslips_of_run db5 10) = [1; 2].
Proof.
  intros Hrun H.
  pose proof (run_is_id _ _ _ Hrun) as Hid.
  rewrite (process_payroll_unfold env db run_id r Hrun) in H.
  destruct (process_payroll_try env (processing db run_id) r) as [db2 [s|y]] eqn:Htry;
    [discriminate|].
  injection H as <- <-.
  destruct (process_payroll_try_effect _ _ _ _ _ Htry)
    as (dbl & created & rest & Hsame & Hps & Hall & Hids & ->).
  assert (Hruns : payroll_runs
                    (update_run (PayrollRun.set_status FAILED) run_id dbl)
                  = payroll_runs
                      (update_run (PayrollRun.set_status FAILED) run_id db)).
  { rewrite (update_run_same_tables _ _ _ _ Hsame). unfold processing.
    rewrite update_run_payroll_runs_twice. reflexivity. }
  split; [exact Hruns|]. split.
  { unfold run_is. rewrite Hruns. apply run_is_update; [reflexivity|assumption]. }
  split; [|eexists; split; [reflexivity|]; split; vm_compute; reflexivity].
  unfold process_payroll_try in Htry.
  change (active_tax_configs (processing db run_id) (PayrollRun.org_id r))
    with (active_tax_configs db (PayrollRun.org_id r)) in Htry.
  change (active_employees (processing db run_id) (PayrollRun.org_id r))
    with (active_employees db (PayrollRun.org_id r)) in Htry.
  destruct (active_tax_configs db (PayrollRun.org_id r)) as [|tc [|tc' l]] eqn:Htc;
    cbn [scalar_one_or_none] in Htry.
  - injection Htry as <- _. left. split; [right; reflexivity|reflexivity].
  - right.
    destruct (process_employees env (processing db run_id)
                (active_employees db (PayrollRun.org_id r)) r tc
                (Dec.zero, Dec.zero, Dec.zero)) as [dbf [[[g n] t]|z]] eqn:Hloop;
      [discriminate Htry|].
    injection Htry as <- <-.
    destruct (process_employees_raise_inv _ _ _ _ _ _ _ _ Hloop)
      as (pre & e & post & dbk & totalsk & Hsplit & Hpre & Hraise & Hstop).
    destruct (process_employees_effect _ _ _ _ _ _ _ _ Hpre)
      as (_ & committed & rest' & Hpsk & Hallk & Hidsk & Hok).
    rewrite (Hok _ eq_refl), app_nil_r in Hidsk.
    exists tc, pre, e, post, dbk, totalsk, committed.
    split; [reflexivity|]. split; [exact Hsplit|]. split; [exact Hpre|].
    split; [exact Hpsk|]. split; [symmetry; exact Hidsk|].
    split; [rewrite <- Hid; exact Hallk|].
    split.
    { rewrite <- (length_map Payslip.employee_id committed), <- Hidsk.
      apply length_map. }
    split; [rewrite Hraise; reflexivity|].
    cbn [payslips update_run with_payroll_runs].
    destruct Hstop as [->|(p & Hp & He & Hr)]; [left; reflexivity|right].
    exists p. rewrite <- Hid. repeat split; assumption.
  - injection Htry as <- <-. left. split; [left; reflexivity|reflexivity].
Qed.

Lemma failed_run_keeps_committed_payslips_witness :
  run_is (fst (process_payroll example_env (five_employee_db PENDING) 10)) 10
         (PayrollRun.set_status FAILED (example_run PENDING))
  /\ exists pre e post committed,
       five_employees = pre ++ e :: post
       /\ map Payslip.employee_id committed = map Employee.id pre
       /\ (payslips (fst (process_payroll example_env (five_employee_db PENDING) 10))
           = committed
           \/ exists p,
                payslips (fst (process_payroll example_env (five_employee_db PENDING) 10))
                = committed ++ [p]).
Proof.
  destruct (failed_run_keeps_committed_payslips example_env (five_employee_db PENDING) 10
              (example_run PENDING)
              (fst (process_payroll example_env (five_employee_db PENDING) 10))
              (TypeError "unsupported operand type(s) for *: 'decimal.Decimal' and 'NoneType'")
              eq_refl ltac:(vm_compute; reflexivity))
    as (_ & Hrun & [[[H|H] _]|H] & _).
  - vm_compute in H. discriminate H.
  - vm_compute in H. discriminate H.
  - destruct H as (tc & pre & e & post & dbk & totals & committed
                   & _ & Hsplit & _ & Hps & Hids & _ & _ & _ & Hkeep).
    split; [exact Hrun|].
    exists pre, e, post, committed.
    split; [exact Hsplit|]. split; [exact Hids|].
    rewrite Hps in Hkeep.
    destruct Hkeep as [Hkeep|(p & Hkeep & _)]; [left|right; exists p]; exact Hkeep.
Defined.

(** No function of the service reads the status of the run it is given. *)
Lemma process_employee_status (env : Env) (db : DB) (e : Employee.t)
    (r : PayrollRun.t) (tc : TaxConfiguration.t) (s : PayrollStatus) :
  _process_employee_payroll env db e (PayrollRun.set_status s r) tc
  = _process_employee_payroll env db e r tc.
Proof. reflexivity. Qed.

Lemma process_employees_status (env : Env) (r : PayrollRun.t)
    (tc : TaxConfiguration.t) (s : PayrollStatus) (emps : list Employee.t) :
  forall db totals,
    process_employees env db emps (PayrollRun.set_status s r) tc totals
    = process_employees env db emps r tc totals.
Proof.
  induction emps as [|e emps IH]; intros db totals; cbn [process_employees];
    [reflexivity|].
  rewrite process_employee_status.
  destruct (_process_employee_payroll env db e r tc) as [db' [p|x]]; [|reflexivity].
  destruct totals as [[tg tn] tt].
  destruct (g <- Dec.add tg (Payslip.gross_pay p) ;;
            n <- Dec.add tn (Payslip.net_pay p) ;;
            x <- Dec.add tt (Payslip.total_deductions p) ;; Ok (g, n, x));
    [apply IH|reflexivity].
Qed.

Lemma process_payroll_try_status (env : Env) (db : DB) (r : PayrollRun.t)
    (s : PayrollStatus) :
  process_payroll_try env db (PayrollRun.set_status s r)
  = process_payroll_try env db r.
Proof.
  unfold process_payroll_try.
  cbn [PayrollRun.org_id PayrollRun.id PayrollRun.set_status].
  destruct (scalar_one_or_none (active_tax_configs db (PayrollRun.org_id r)))
    as [[tc|]|x]; try reflexivity.
  rewrite process_employees_status. reflexivity.
Qed.

(** C2 (amended). [process_payroll] never looks at the status of the run.
    For an existing run, whatever its status: putting the run in any status
    [s] beforehand leaves the result and the final database exactly as they
    are for the run as stored; the run is marked processing and carried out
    from there; and it ends completed when a summary is returned and failed
    when an exception is raised.  The only check on the run is that it
    exists: an id that no run has is answered with ValueError "Payroll run
    not found" and the database is left as it was. *)
Theorem process_payroll_ignores_status
    (env : Env) (db : DB) (run_id : Z) (r : PayrollRun.t) (s : PayrollStatus) :
  run_is db run_id r ->
  process_payroll env (update_run (PayrollRun.set_status s) run_id db) run_id
  = process_payroll env db run_id
  /\ process_payroll env db run_id
     = match process_payroll_try env
               (update_run (PayrollRun.set_status PROCESSING) run_id db) r with
       | (db2, Ok summary) => (db2, Ok summary)
       | (db2, Raise e) =>
           (update_run (PayrollRun.set_status FAILED) run_id db2, Raise e)
       end
  /\ run_status (fst (process_payroll env db run_id)) run_id
     = Some (if is_ok (snd (process_payroll env db run_id)) then COMPLETED else FAILED)
  /\ forall unknown_id,
       filter (fun x => PayrollRun.id x =? unknown_id) (payroll_runs db) = [] ->
       process_payroll env db unknown_id
       = (db, Raise (ValueError "Payroll run not found")).
Proof.
  intros Hrun. split; [|split; [|split]].
  - rewrite (process_payroll_unfold env _ run_id (PayrollRun.set_status s r))
      by (apply run_is_update; [reflexivity|assumption]).
    rewrite (process_payroll_unfold env db run_id r Hrun).
    unfold processing. rewrite update_run_payroll_runs_twice.
    rewrite process_payroll_try_status. reflexivity.
  - exact (process_payroll_unfold env db run_id r Hrun).
  - rewrite (process_payroll_unfold env db run_id r Hrun).
    destruct (process_payroll_try env (processing db run_id) r) as [db2 [sm|x]] eqn:Htry;
      destruct (process_payroll_try_effect _ _ _ _ _ Htry)
        as (dbl & created & rest & Hsame & _ & _ & _ & Hres); cbn [fst snd is_ok].
    + destruct Hres as [_ ->].
      assert (Hl : run_is dbl run_id (PayrollRun.set_status PROCESSING r)).
      { unfold run_is. destruct Hsame as [-> _].
        apply run_is_update; [reflexivity|assumption]. }
      rewrite (run_is_id _ _ _ Hrun).
      erewrite run_is_status; [|apply run_is_update; [reflexivity|exact Hl]].
      reflexivity.
    + subst db2.
      assert (Hl : run_is dbl run_id (PayrollRun.set_status PROCESSING r)).
      { unfold run_is. destruct Hsame as [-> _].
        apply run_is_update; [reflexivity|assumption]. }
      erewrite run_is_status; [|apply run_is_update; [reflexivity|exact Hl]].
      reflexivity.
  - intros unknown_id Hnone. unfold process_payroll. rewrite Hnone. reflexivity.
Qed.

Lemma process_payroll_ignores_status_witness :
  process_payroll example_env
    (update_run (PayrollRun.set_status COMPLETED) 10 (one_employee_db PENDING)) 10
  = process_payroll example_env (one_employee_db PENDING) 10
  /\ process_payroll example_env (one_employee_db PENDING) 11
     = (one_employee_db PENDING, Raise (ValueError "Payroll run not found")).
Proof.
  destruct (process_payroll_ignores_status example_env (one_employee_db PENDING) 10
              (example_run PENDING) COMPLETED eq_refl) as (H1 & _ & _ & H4).
  split; [exact H1|exact (H4 11 eq_refl)].
Defined.

(** C2 (as stated) fails: a run that is already completed is not rejected;
    it is processed again, a summary is returned and a new payslip is
    written. *)
Lemma rejects_unless_pending_counterexample :
  ~ rejects_unless_pending example_env (one_employee_db COMPLETED) 10.
Proof.
  intros H.
  destruct (H COMPLETED eq_refl ltac:(discriminate)) as [e He].
  vm_compute in He. discriminate He.
Qed.

(** C1 (amended). A failure while one employee is processed is not
    isolated.  When the employees before [e] have been processed and the
    computation for [e] raises [x], the loop stops there: [process_payroll]
    marks the run failed, leaves its totals untouched and raises [x] to the
    caller instead of returning a summary; the payslips written are those
    of the employees before [e], one each, and neither [e] nor any employee
    after it gets one. *)
Theorem employee_failure_aborts_run
    (env : Env) (db : DB) (run_id : Z) (r : PayrollRun.t) (tc : TaxConfiguration.t)
    (pre post : list Employee.t) (e : Employee.t) (x : Exn)
    (dbk : DB) (totals : Totals) :
  run_is db run_id r ->
  active_tax_configs db (PayrollRun.org_id r) = [tc] ->
  active_employees db (PayrollRun.org_id r) = pre ++ e :: post ->
  process_employees env (processing db run_id) pre r tc no_totals = (dbk, Ok totals) ->
  build_payslip db e r tc = Raise x ->
  process_payroll env db run_id
  = (update_run (PayrollRun.set_status FAILED) run_id dbk, Raise x)
  /\ run_is (fst (process_payroll env db run_id)) run_id
            (PayrollRun.set_status FAILED r)
  /\ exists created,
       payslips (fst (process_payroll env db run_id)) = payslips db ++ created
       /\ map Payslip.employee_id created = map Employee.id pre.
Proof.
  intros Hrun Hcfg Hemps Hpre Hfail.
  destruct (process_employees_effect _ _ _ _ _ _ _ _ Hpre)
    as (Hsame & created & rest & Hps & _ & Hids & Hok).
  rewrite (Hok _ eq_refl), app_nil_r in Hids.
  assert (Hfail' : build_payslip dbk e r tc = Raise x).
  { apply (build_payslip_raise_frame db); [|assumption].
    destruct Hsame as (_ & _ & _ & -> & _). reflexivity. }
  assert (E : process_payroll env db run_id
              = (update_run (PayrollRun.set_status FAILED) run_id dbk, Raise x)).
  { rewrite (process_payroll_unfold env db run_id r Hrun).
    unfold process_payroll_try.
    change (active_tax_configs (processing db run_id) (PayrollRun.org_id r))
      with (active_tax_configs db (PayrollRun.org_id r)).
    change (active_employees (processing db run_id) (PayrollRun.org_id r))
      with (active_employees db (PayrollRun.org_id r)).
    rewrite Hcfg, Hemps. cbn [scalar_one_or_none].
    rewrite process_employees_app. fold no_totals. rewrite Hpre.
    cbn [process_employees].
    pose proof (process_employee_effect env dbk e r tc) as He.
    rewrite Hfail' in He. rewrite He. reflexivity. }
  rewrite E. cbn [fst]. split; [reflexivity|]. split.
  - unfold run_is. rewrite (update_run_same_tables _ _ _ _ Hsame).
    unfold processing. rewrite update_run_payroll_runs_twice.
    apply run_is_update; [reflexivity|assumption].
  - exists created. split; [exact Hps|symmetry; exact Hids].
Qed.

Lemma employee_failure_aborts_run_witness :
  exists dbk,
    process_payroll example_env (five_employee_db PENDING) 10
    = (update_run (PayrollRun.set_status FAILED) 10 dbk,
       Raise (TypeError "unsupported operand type(s) for *: 'decimal.Decimal' and 'NoneType'")).
Proof.
  eexists. eapply proj1.
  eapply (employee_failure_aborts_run example_env (five_employee_db PENDING) 10
            (example_run PENDING) column_tax_config
            [paid_hourly 1; paid_hourly 2] [paid_hourly 4; paid_hourly 5]
            (hourly_employee 3 None)).
  - reflexivity.
  - reflexivity.
  - reflexivity.
  - vm_compute. reflexivity.
  - vm_compute. reflexivity.
Defined.

(** C1 (as stated) fails: in the five-employee run whose third employee has
    no hourly rate, the run does not complete with four pay records; the
    TypeError reaches the caller, the run is failed and two payslips
    exist. *)
Lemma isolates_employee_failure_counterexample :
  ~ isolates_employee_failure example_env (five_employee_db PENDING) 10 4.
Proof.
  intros (db' & summary & H & _).
  vm_compute in H. discriminate H.
Qed.

(** * Creation of a run *)

Lemma same_period_ext (a b : PayrollRunCreate) (r : PayrollRun.t) :
  prc_org_id b = prc_org_id a ->
  prc_pay_period_start b = prc_pay_period_start a ->
  prc_pay_period_end b = prc_pay_period_end a ->
  same_period b r = same_period a r.
Proof. unfold same_period. intros -> -> ->. reflexivity. Qed.

(** C9. Creating a run twice for the same organisation and pay period:
    starting from a database with at most one run for that key, after the
    two calls (by administrators) exactly one such run exists, the second
    call raises HTTP 400 "Payroll run already exists for this period" and
    leaves the database as the first call left it; when no such run existed
    the first call succeeds and the run that exists is the one it
    returned. *)
Theorem create_payroll_run_twice
    (db : DB) (first second : PayrollRunCreate) (u1 u2 : UserInfo) :
  in_groups "admin" u1 = true ->
  in_groups "admin" u2 = true ->
  prc_org_id second = prc_org_id first ->
  prc_pay_period_start second = prc_pay_period_start first ->
  prc_pay_period_end second = prc_pay_period_end first ->
  (List.length (filter (same_period first) (payroll_runs db)) <= 1)%nat ->
  exists db1 res1,
    create_payroll_run db first u1 = (db1, res1)
    /\ create_payroll_run db1 second u2
       = (db1, Raise (HTTPException 400 "Payroll run already exists for this period"))
    /\ List.length (filter (same_period first) (payroll_runs db1)) = 1%nat
    /\ (filter (same_period first) (payroll_runs db) = [] ->
        exists run,
          res1 = Ok run
          /\ PayrollRun.status run = PENDING
          /\ payroll_runs db1 = payroll_runs db ++ [run]
          /\ filter (same_period first) (payroll_runs db1) = [run]).
Proof.
  intros Ha1 Ha2 Eo Es Ee Hlen.
  assert (Hsame : forall rows, filter (same_period second) rows
                               = filter (same_period first) rows).
  { intros rows. apply filter_ext. intros r. apply same_period_ext; assumption. }
  unfold create_payroll_run at 1. rewrite Ha1. cbn [negb].
  destruct (filter (same_period first) (payroll_runs db)) as [|r0 [|r1 rest]] eqn:Hf;
    cbn [scalar_one_or_none].
  - set (run := PayrollRun.mk (next_id (map PayrollRun.id (payroll_runs db)))
                  (prc_org_id first) (prc_pay_period_start first)
                  (prc_pay_period_end first) (prc_pay_date first)
                  PENDING (to_column db 2 Dec.zero) (to_column db 2 Dec.zero)
                  (to_column db 2 Dec.zero) None None).
    assert (Hrun : same_period first run = true).
    { unfold same_period, run. cbn [PayrollRun.org_id PayrollRun.pay_period_start
                                    PayrollRun.pay_period_end].
      rewrite !Z.eqb_refl. reflexivity. }
    assert (Hf1 : filter (same_period first) (payroll_runs db ++ [run]) = [run]).
    { rewrite filter_app, Hf. cbn [filter app]. rewrite Hrun. reflexivity. }
    eexists. eexists. split; [reflexivity|].
    unfold create_payroll_run. rewrite Ha2. cbn [negb payroll_runs with_payroll_runs].
    rewrite Hsame, Hf1. cbn [scalar_one_or_none].
    split; [reflexivity|]. split; [reflexivity|].
    intros _. exists run. split; [reflexivity|]. split; [reflexivity|].
    split; reflexivity.
  - eexists. eexists. split; [reflexivity|].
    unfold create_payroll_run. rewrite Ha2. cbn [negb].
    rewrite Hsame, Hf. cbn [scalar_one_or_none].
    split; [reflexivity|]. split; [reflexivity|]. discriminate.
  - cbn [List.length] in Hlen. lia.
Qed.

Lemma create_payroll_run_twice_witness :
  exists db1 res1,
    create_payroll_run empty_db
      (mkPayrollRunCreate 1 0 (13 * day) (16 * day))
      (mkUserInfo "u-1" ["admin"] None) = (db1, res1)
    /\ create_payroll_run db1 (mkPayrollRunCreate 1 0 (13 * day) (20 * day))
         (mkUserInfo "u-2" ["manager"; "admin"] None)
       = (db1, Raise (HTTPException 400 "Payroll run already exists for this period"))
    /\ List.length
         (filter (same_period (mkPayrollRunCreate 1 0 (13 * day) (16 * day)))
                 (payroll_runs db1)) = 1%nat.
Proof.
  destruct (create_payroll_run_twice empty_db
              (mkPayrollRunCreate 1 0 (13 * day) (16 * day))
              (mkPayrollRunCreate 1 0 (13 * day) (20 * day))
              (mkUserInfo "u-1" ["admin"] None)
              (mkUserInfo "u-2" ["manager"; "admin"] None))
    as (db1 & res1 & H1 & H2 & H3 & _);
    try reflexivity.
  - simpl. lia.
  - exists db1, res1. repeat split; assumption.
Defined.

(** * Time aggregation *)

Lemma eligible_iff (e : Employee.t) (r : PayrollRun.t) (t : Timesheet.t) :
  eligible e r t = true <->
  Timesheet.employee_id t = Employee.id e
  /\ Timesheet.status t = TS_APPROVED
  /\ PayrollRun.pay_period_start r <= Timesheet.week_start_date t
  /\ Timesheet.week_end_date t <= PayrollRun.pay_period_end r.
Proof.
  unfold eligible. rewrite !andb_true_iff, Z.eqb_eq, Z.geb_le, Z.leb_le.
  assert (Hs : TimesheetStatus_eqb (Timesheet.status t) TS_APPROVED = true
               <-> Timesheet.status t = TS_APPROVED).
  { destruct (Timesheet.status t); cbn; split; congruence. }
  rewrite Hs. tauto.
Qed.

Lemma filter_skips (A : Type) (f : A -> bool) (l1 l2 : list A) (a : A) :
  f a = false -> filter f (l1 ++ a :: l2) = filter f (l1 ++ l2).
Proof.
  intros Ha. rewrite !filter_app. cbn [filter]. rewrite Ha. reflexivity.
Qed.

Lemma aggregate_hours_columns (ts : list Timesheet.t) :
  forall a b,
    Forall column_timesheet ts ->
    Z.abs a + 200000 * Z.of_nat (List.length ts) < 10 ^ 28 ->
    Z.abs b + 200000 * Z.of_nat (List.length ts) < 10 ^ 28 ->
    aggregate_hours ts (D a (-2), D b (-2))
    = Ok (D (a + sum_regular_hundredths ts) (-2),
          D (b + sum_overtime_hundredths ts) (-2)).
Proof.
  induction ts as [|t ts IH]; intros a b Hall Ha Hb.
  - cbn [aggregate_hours sum_regular_hundredths sum_overtime_hundredths fold_right].
    rewrite !Z.add_0_r. reflexivity.
  - inversion Hall as [|t' ts' [[Et Ht] [Eo Ho]] Hall']; subst.
    cbn [List.length] in Ha, Hb. rewrite Nat2Z.inj_succ in Ha, Hb.
    cbn [aggregate_hours fst snd sum_regular_hundredths sum_overtime_hundredths
         fold_right].
    destruct (Timesheet.total_hours t) as [ct et].
    destruct (Timesheet.overtime_hours t) as [co eo].
    cbn [Dec.coef Dec.exp] in *. subst et eo.
    unfold Dec.sub, Dec.neg, D. cbn [Dec.coef Dec.exp].
    rewrite add_exact_mk by dec_side. cbn [bind].
    rewrite add_exact_mk by dec_side. cbn [bind].
    rewrite add_exact_mk by dec_side. cbn [bind].
    fold (D (a + (ct + - co)) (-2)). fold (D (b + co) (-2)).
    rewrite IH by (try assumption; pow_norm; lia).
    unfold sum_regular_hundredths, sum_overtime_hundredths.
    unfold D. first [reflexivity|repeat (f_equal; try lia)].
Qed.

Lemma aggregate_hours_columns_from_zero (ts : list Timesheet.t) :
  ts <> [] ->
  Forall column_timesheet ts ->
  Z.of_nat (List.length ts) < 10 ^ 20 ->
  aggregate_hours ts (Dec.zero, Dec.zero)
  = Ok (D (sum_regular_hundredths ts) (-2), D (sum_overtime_hundredths ts) (-2)).
Proof.
  destruct ts as [|t ts]; [congruence|]. intros _ Hall Hlen.
  inversion Hall as [|t' ts' [[Et Ht] [Eo Ho]] Hall']; subst.
  cbn [List.length] in Hlen. rewrite Nat2Z.inj_succ in Hlen.
  change (10 ^ 20) with 100000000000000000000 in Hlen.
  cbn [aggregate_hours fst snd sum_regular_hundredths sum_overtime_hundredths
       fold_right].
  destruct (Timesheet.total_hours t) as [ct et].
  destruct (Timesheet.overtime_hours t) as [co eo].
  cbn [Dec.coef Dec.exp] in *. subst et eo.
  unfold Dec.sub, Dec.neg, Dec.zero, Dec.of_int. cbn [Dec.coef Dec.exp].
  rewrite add_exact_mk by dec_side. cbn [bind].
  rewrite (add_exact_ge 0 0 (ct + - co) (-2) 2) by dec_side. cbn [bind].
  rewrite (add_exact_ge 0 0 co (-2) 2) by dec_side. cbn [bind].
  change (0 * 10 ^ 2) with 0. rewrite !Z.add_0_l.
  fold (D (ct + - co) (-2)). fold (D co (-2)).
  rewrite aggregate_hours_columns by (try assumption; pow_norm; lia).
  unfold sum_regular_hundredths, sum_overtime_hundredths.
  unfold D. first [reflexivity|repeat (f_equal; try lia)].
Qed.

Lemma build_payslip_hours (db : DB) (e : Employee.t) (r : PayrollRun.t)
    (tc : TaxConfiguration.t) (p : Payslip.t) :
  build_payslip db e r tc = Ok p ->
  aggregate_hours (filter (eligible e r) (timesheets db)) (Dec.zero, Dec.zero)
  = Ok (Payslip.regular_hours p, Payslip.overtime_hours p).
Proof.
  unfold build_payslip. intros H.
  destruct (aggregate_hours _ _) as [[rh oh]|]; [cbn [bind] in H|discriminate H].
  bind_inv H. destruct x as [[rp op] gp]. bind_inv H. injection H as <-.
  reflexivity.
Qed.

(** What a successful [create_timesheet] has computed and stored. *)
Lemma create_timesheet_hours (db db' : DB) (timesheet : TimesheetCreate)
    (u : UserInfo) (row : Timesheet.t) :
  create_timesheet db timesheet u = (db', Ok row) ->
  exists total over,
    sum_daily_hours timesheet = Ok total
    /\ overtime_of total = Ok over
    /\ Timesheet.total_hours row = to_column db 2 total
    /\ Timesheet.overtime_hours row = to_column db 2 over
    /\ stored_days row = map (to_column db 2) (submitted_days timesheet)
    /\ Timesheet.status row = TS_PENDING.
Proof.
  unfold create_timesheet. intros H.
  match type of H with
  | (match ?m with Ok _ => _ | Raise _ => _ end) = _ =>
      destruct m as [row'|x] eqn:Hrow; [|discriminate H]
  end.
  injection H as _ <-.
  bind_inv Hrow.
  destruct x0 as [?|]; [discriminate Hrow|].
  bind_inv Hrow. injection Hrow as <-.
  do 2 eexists. split; [reflexivity|]. split; [eassumption|]. repeat split.
Qed.

(** A request that passes the two checks and whose hours can be added is
    stored. *)
Lemma create_timesheet_ok (db : DB) (timesheet : TimesheetCreate) (u : UserInfo)
    (total over : Decimal) :
  submitter_checked db timesheet u ->
  records_of_week db timesheet = [] ->
  sum_daily_hours timesheet = Ok total ->
  overtime_of total = Ok over ->
  exists row,
    create_timesheet db timesheet u
    = (with_timesheets (timesheets db ++ [row]) db, Ok row)
    /\ Timesheet.employee_id row = tc_employee_id timesheet
    /\ Timesheet.status row = TS_PENDING
    /\ stored_days row = map (to_column db 2) (submitted_days timesheet)
    /\ Timesheet.total_hours row = to_column db 2 total
    /\ Timesheet.overtime_hours row = to_column db 2 over.
Proof.
  unfold submitter_checked, records_of_week, create_timesheet.
  intros Hwho Hnone Hsum Hover.
  destruct (in_groups "admin" u || in_groups "manager" u).
  - destruct Hwho as [e0 ->]. cbn [scalar_one_or_none bind].
    rewrite Hnone. cbn [scalar_one_or_none bind]. rewrite Hsum. cbn [bind].
    rewrite Hover. cbn [bind].
    eexists. split; [reflexivity|]. repeat split.
  - destruct Hwho as (e0 & -> & He0). cbn [scalar_one_or_none bind].
    rewrite He0, Z.eqb_refl. cbn [negb bind].
    rewrite Hnone. cbn [scalar_one_or_none bind]. rewrite Hsum. cbn [bind].
    rewrite Hover. cbn [bind].
    eexists. split; [reflexivity|]. repeat split.
Qed.

Lemma to_column_same_scale (db : DB) (c : Z) : to_column db 2 (D c (-2)) = D c (-2).
Proof.
  unfold to_column, D. cbn [Dec.coef Dec.exp].
  change (-2 >=? - (2)) with true. change (10 ^ (-2 + 2)) with 1.
  rewrite Z.mul_1_r. reflexivity.
Qed.

(** Seven daily values of one scale add up exactly. *)
Lemma sum_daily_hours_scaled (timesheet : TimesheetCreate) (e : Z)
    (mon tue wed thu fri sat sun : Z) :
  -1000 <= e <= 0 ->
  submitted_days timesheet = map (fun h => D h e) [mon; tue; wed; thu; fri; sat; sun] ->
  Forall (fun h => 0 <= h <= 240000) [mon; tue; wed; thu; fri; sat; sun] ->
  sum_daily_hours timesheet = Ok (D (mon + tue + wed + thu + fri + sat + sun) e).
Proof.
  intros He Hdays Hall.
  injection Hdays as Hmon Htue Hwed Hthu Hfri Hsat Hsun.
  repeat match goal with
         | H : Forall _ (_ :: _) |- _ =>
             let B := fresh "B" in
             apply Forall_cons_iff in H; destruct H as [B H]
         end.
  unfold sum_daily_hours.
  rewrite Hmon, Htue, Hwed, Hthu, Hfri, Hsat, Hsun. unfold D.
  repeat (rewrite add_exact_mk by dec_side; cbn [bind]).
  reflexivity.
Qed.

(** Overtime of a total given in hundredths or in ten-thousandths. *)
Lemma overtime_of_hundredths (t : Z) :
  0 <= t <= 10 ^ 12 ->
  overtime_of (D t (-2))
  = Ok (if 4000 <? t then D (t - 4000) (-2) else Dec.zero).
Proof.
  intros Ht. unfold overtime_of, Dec.sub, Dec.neg, Dec.of_int, D.
  cbn [Dec.coef Dec.exp].
  rewrite (add_exact_le t (-2) (- (40)) 0 2) by dec_side. cbn [bind].
  unfold Dec.gtb, Dec.zero. rewrite ltb_int_cents. pow_norm.
  destruct (Z.ltb_spec 4000 t), (Z.ltb_spec (0 * 100) (t + - (40) * 100));
    try lia; [|reflexivity].
  apply (f_equal (fun c => Ok (Dec.mk c (-2)))). lia.
Qed.

Lemma overtime_of_ten_thousandths (t : Z) :
  0 <= t <= 10 ^ 12 ->
  overtime_of (D t (-4))
  = Ok (if 400000 <? t then D (t - 400000) (-4) else Dec.zero).
Proof.
  intros Ht. unfold overtime_of, Dec.sub, Dec.neg, Dec.of_int, D.
  cbn [Dec.coef Dec.exp].
  rewrite (add_exact_le t (-4) (- (40)) 0 4) by dec_side. cbn [bind].
  unfold Dec.gtb, Dec.zero, Dec.ltb, Dec.cmp, Dec.of_int. cbn [Dec.coef Dec.exp].
  change (Z.min 0 (-4)) with (-4). change (0 - -4) with 4.
  change (-4 - -4) with 0. change (10 ^ 0) with 1. pow_norm.
  rewrite Z.mul_1_r. change (0 * 10000) with 0.
  destruct (Z.ltb_spec 400000 t), (Z.compare_spec 0 (t + - (40) * 10000));
    try lia; reflexivity.
Qed.

Lemma to_column_hundredths (db : DB) (d : Decimal) :
  -2 <= Dec.exp d -> to_column db 2 d = D (hundredths d) (-2).
Proof.
  intros He. unfold to_column, hundredths.
  destruct (Z.geb_spec (Dec.exp d) (- (2))) as [_|Hlt]; [reflexivity|lia].
Qed.

(** Sum of two decimals of at most two decimals, in hundredths. *)
Lemma add_hundredths (a b : Decimal) :
  -2 <= Dec.exp a <= 28 -> -2 <= Dec.exp b <= 28 ->
  Z.abs (hundredths a) <= 10 ^ 6 -> Z.abs (hundredths b) <= 10 ^ 6 ->
  exists c,
    Dec.add a b = Ok c
    /\ -2 <= Dec.exp c <= 28
    /\ hundredths c = hundredths a + hundredths b.
Proof.
  intros Ha Hb Ba Bb.
  set (m := Z.min (Dec.exp a) (Dec.exp b)).
  assert (Hm : -2 <= m <= 28) by (unfold m; lia).
  set (X := Dec.coef a * 10 ^ (Dec.exp a - m) + Dec.coef b * 10 ^ (Dec.exp b - m)).
  assert (HX : X * 10 ^ (m + 2) = hundredths a + hundredths b).
  { unfold X, hundredths. rewrite Z.mul_add_distr_r, <- !Z.mul_assoc.
    rewrite <- !Z.pow_add_r by (unfold m; lia).
    replace (Dec.exp a - m + (m + 2)) with (Dec.exp a + 2) by lia.
    replace (Dec.exp b - m + (m + 2)) with (Dec.exp b + 2) by lia.
    reflexivity. }
  assert (Hp : 1 <= 10 ^ (m + 2)) by (pose proof (DecFacts.pow10_pos (m + 2)); lia).
  assert (BX : Z.abs X <= 2 * 10 ^ 6).
  { assert (Z.abs X <= Z.abs (X * 10 ^ (m + 2))); [|rewrite HX in *; lia].
    rewrite Z.abs_mul. rewrite (Z.abs_eq (10 ^ (m + 2))) by lia.
    pose proof (Z.abs_nonneg X). nia. }
  exists (Dec.mk X m).
  split; [|split; [exact Hm|exact HX]].
  apply DecFacts.add_exact.
  - fold m. fold X. change (10 ^ 6) with 1000000 in BX. unfold Dec.prec.
    change (10 ^ 28) with 10000000000000000000000000000. lia.
  - fold m. unfold Dec.Etiny, Dec.Etop, Dec.Emin, Dec.Emax, Dec.prec. lia.
Qed.

Lemma ltb_zero_hundredths (d : Decimal) :
  -2 <= Dec.exp d -> Dec.ltb Dec.zero d = (0 <? hundredths d).
Proof.
  intros He. unfold Dec.ltb, Dec.cmp, Dec.zero, Dec.of_int, hundredths.
  cbn [Dec.coef Dec.exp]. rewrite Z.mul_0_l.
  set (k := Dec.exp d - Z.min 0 (Dec.exp d)).
  assert (Hk : 0 < 10 ^ k) by (apply DecFacts.pow10_pos; unfold k; lia).
  assert (Hh : 0 < 10 ^ (Dec.exp d + 2)) by (apply DecFacts.pow10_pos; lia).
  destruct (Z.compare_spec 0 (Dec.coef d * 10 ^ k)) as [E|L|G];
    destruct (Z.ltb_spec 0 (Dec.coef d * 10 ^ (Dec.exp d + 2))) as [L'|G'];
    try reflexivity; nia.
Qed.

(** A week of values with at most two decimals adds up exactly. *)
Lemma sum_daily_hours_two_decimals (timesheet : TimesheetCreate) :
  Forall two_decimal_hours (submitted_days timesheet) ->
  exists total,
    sum_daily_hours timesheet = Ok total
    /\ -2 <= Dec.exp total <= 28
    /\ hundredths total
       = fold_right Z.add 0 (map hundredths (submitted_days timesheet))
    /\ 0 <= hundredths total <= 16800.
Proof.
  unfold submitted_days, sum_daily_hours. intros Hall.
  repeat match goal with
         | H : Forall _ (_ :: _) |- _ =>
             let B := fresh "B" in
             apply Forall_cons_iff in H; destruct H as [B H]
         end.
  clear Hall. unfold two_decimal_hours in *. cbn [map fold_right].
  destruct (add_hundredths (tc_monday_hours timesheet) (tc_tuesday_hours timesheet))
    as (h1 & -> & E1 & V1); try change (10 ^ 6) with 1000000; try lia.
  cbn [bind].
  destruct (add_hundredths h1 (tc_wednesday_hours timesheet))
    as (h2 & -> & E2 & V2); try change (10 ^ 6) with 1000000; try lia.
  cbn [bind].
  destruct (add_hundredths h2 (tc_thursday_hours timesheet))
    as (h3 & -> & E3 & V3); try change (10 ^ 6) with 1000000; try lia.
  cbn [bind].
  destruct (add_hundredths h3 (tc_friday_hours timesheet))
    as (h4 & -> & E4 & V4); try change (10 ^ 6) with 1000000; try lia.
  cbn [bind].
  destruct (add_hundredths h4 (tc_saturday_hours timesheet))
    as (h5 & -> & E5 & V5); try change (10 ^ 6) with 1000000; try lia.
  cbn [bind].
  destruct (add_hundredths h5 (tc_sunday_hours timesheet))
    as (h6 & -> & E6 & V6); try change (10 ^ 6) with 1000000; try lia.
  exists h6. split; [reflexivity|]. split; [exact E6|]. split; lia.
Qed.

(** Overtime of a total with at most two decimals, as it is stored. *)
Lemma overtime_of_two_decimals (db : DB) (total : Decimal) :
  -2 <= Dec.exp total <= 28 -> 0 <= hundredths total <= 10 ^ 5 ->
  exists over,
    overtime_of total = Ok over
    /\ to_column db 2 over = D (Z.max 0 (hundredths total - 4000)) (-2).
Proof.
  intros He Hv. unfold overtime_of, Dec.sub.
  destruct (add_hundredths total (Dec.neg (Dec.of_int 40)))
    as (over & -> & Eo & Vo);
    try (cbn [Dec.neg Dec.of_int Dec.exp]; lia);
    try (change (hundredths (Dec.neg (Dec.of_int 40))) with (-4000);
         change (10 ^ 6) with 1000000; change (10 ^ 5) with 100000 in Hv; lia).
  change (hundredths (Dec.neg (Dec.of_int 40))) with (-4000) in Vo.
  cbn [bind]. eexists. split; [reflexivity|].
  unfold Dec.gtb. rewrite ltb_zero_hundredths by lia.
  destruct (Z.ltb_spec 0 (hundredths over)) as [Hpos|Hneg].
  - rewrite to_column_hundredths by lia. unfold D.
    apply (f_equal (fun c => Dec.mk c (-2))). lia.
  - replace (Z.max 0 (hundredths total - 4000)) with 0 by lia. reflexivity.
Qed.

(** C7 (amended). Time aggregation.
    Payroll: the hours of the payslip computed for an employee are the
    loop's sums of [total_hours - overtime_hours] and of [overtime_hours]
    over exactly the time records of the employee that are approved and lie
    within the pay period, and the payslip stored and returned for the
    employee carries the database's two-decimal values of these sums; any
    other record changes nothing, and with no eligible record the sums are
    zero and nothing is raised.  For records at the scale of their DECIMAL(5, 2)
    columns the sums are the exact integer sums, which the payslip columns
    keep as they are.
    Records: a request that passes the submitter check for a week the
    employee has no record of is stored.  When its seven daily values have
    at most two decimals (between 0 and 24), the record keeps them, at two
    decimals, its [total_hours] is their sum, weekend included, and its
    [overtime_hours] is [max(0, total_hours - 40)].  When they are given to four decimals,
    the record holds each daily value, the exact sum and the exact excess
    over 40 as the database rounds them to two decimals, each on its own.
    The weeks 8,8,8,8,8,0,0 and 10,10,10,10,10,0,0 are stored with 40.00 and
    0.00, and with 50.00 and 10.00. *)
Theorem time_aggregation (e : Employee.t) (r : PayrollRun.t) :
  (forall env db tc p,
      build_payslip db e r tc = Ok p ->
      aggregate_hours (filter (eligible e r) (timesheets db)) (Dec.zero, Dec.zero)
      = Ok (Payslip.regular_hours p, Payslip.overtime_hours p)
      /\ exists db' p',
           _process_employee_payroll env db e r tc = (db', Ok p')
           /\ payslips db' = payslips db ++ [p']
           /\ Payslip.regular_hours p' = to_column db 2 (Payslip.regular_hours p)
           /\ Payslip.overtime_hours p' = to_column db 2 (Payslip.overtime_hours p))
  /\ (forall t,
        eligible e r t = true <->
        Timesheet.employee_id t = Employee.id e
        /\ Timesheet.status t = TS_APPROVED
        /\ PayrollRun.pay_period_start r <= Timesheet.week_start_date t
        /\ Timesheet.week_end_date t <= PayrollRun.pay_period_end r)
  /\ (forall ts1 ts2 t,
        eligible e r t = false ->
        filter (eligible e r) (ts1 ++ t :: ts2) = filter (eligible e r) (ts1 ++ ts2))
  /\ (aggregate_hours [] (Dec.zero, Dec.zero) = Ok (Dec.zero, Dec.zero)
      /\ forall db, to_column db 2 Dec.zero = D 0 (-2))
  /\ (forall ts,
        ts <> [] -> Forall column_timesheet ts ->
        Z.of_nat (List.length ts) < 10 ^ 20 ->
        aggregate_hours ts (Dec.zero, Dec.zero)
        = Ok (D (sum_regular_hundredths ts) (-2), D (sum_overtime_hundredths ts) (-2))
        /\ forall db,
             to_column db 2 (D (sum_regular_hundredths ts) (-2))
             = D (sum_regular_hundredths ts) (-2)
             /\ to_column db 2 (D (sum_overtime_hundredths ts) (-2))
                = D (sum_overtime_hundredths ts) (-2))
  /\ (forall db timesheet u,
        submitter_checked db timesheet u ->
        records_of_week db timesheet = [] ->
        Forall two_decimal_hours (submitted_days timesheet) ->
        let total := fold_right Z.add 0 (map hundredths (submitted_days timesheet)) in
        exists row,
          create_timesheet db timesheet u
          = (with_timesheets (timesheets db ++ [row]) db, Ok row)
          /\ Timesheet.employee_id row = tc_employee_id timesheet
          /\ Timesheet.status row = TS_PENDING
          /\ stored_days row
             = map (fun d => D (hundredths d) (-2)) (submitted_days timesheet)
          /\ Timesheet.total_hours row = D total (-2)
          /\ Timesheet.overtime_hours row = D (Z.max 0 (total - 4000)) (-2))
  /\ (forall db timesheet u mon tue wed thu fri sat sun,
        submitter_checked db timesheet u ->
        records_of_week db timesheet = [] ->
        submitted_days timesheet
        = map (fun h => D h (-4)) [mon; tue; wed; thu; fri; sat; sun] ->
        Forall (fun h => 0 <= h <= 240000) [mon; tue; wed; thu; fri; sat; sun] ->
        let total := mon + tue + wed + thu + fri + sat + sun in
        exists row,
          create_timesheet db timesheet u
          = (with_timesheets (timesheets db ++ [row]) db, Ok row)
          /\ stored_days row
             = map (fun h => D (column_round db h 2) (-2))
                   [mon; tue; wed; thu; fri; sat; sun]
          /\ Timesheet.total_hours row = D (column_round db total 2) (-2)
          /\ Timesheet.overtime_hours row
             = (if 400000 <? total
                then D (column_round db (total - 400000) 2) (-2)
                else D 0 (-2)))
  /\ (forall db u,
        submitter_checked db (week_of (Employee.id e) 8 8 8 8 8 0 0) u ->
        records_of_week db (week_of (Employee.id e) 8 8 8 8 8 0 0) = [] ->
        exists row,
          create_timesheet db (week_of (Employee.id e) 8 8 8 8 8 0 0) u
          = (with_timesheets (timesheets db ++ [row]) db, Ok row)
          /\ Timesheet.total_hours row = D 4000 (-2)
          /\ Timesheet.overtime_hours row = D 0 (-2))
  /\ (forall db u,
        submitter_checked db (week_of (Employee.id e) 10 10 10 10 10 0 0) u ->
        records_of_week db (week_of (Employee.id e) 10 10 10 10 10 0 0) = [] ->
        exists row,
          create_timesheet db (week_of (Employee.id e) 10 10 10 10 10 0 0) u
          = (with_timesheets (timesheets db ++ [row]) db, Ok row)
          /\ Timesheet.total_hours row = D 5000 (-2)
          /\ Timesheet.overtime_hours row = D 1000 (-2)).
Proof.
  split.
  { intros env db tc p Hb.
    split; [exact (build_payslip_hours _ _ _ _ _ Hb)|].
    pose proof (process_employee_effect env db e r tc) as He.
    rewrite Hb in He. destruct He as (db1 & p1 & Hrun & Hps & Hrec & _).
    exists db1, p1. split; [exact Hrun|]. split; [exact Hps|]. split.
    - exact (f_equal Payslip.regular_hours Hrec).
    - exact (f_equal Payslip.overtime_hours Hrec). }
  split; [apply eligible_iff|].
  split; [intros ts1 ts2 t; apply filter_skips|].
  split; [split; [reflexivity|intros db; reflexivity]|].
  split.
  { intros ts Hne Hall Hlen.
    split; [apply aggregate_hours_columns_from_zero; assumption|].
    intros db. split; apply to_column_same_scale. }
  split.
  { intros db timesheet u Hwho Hnone Hall total.
    destruct (sum_daily_hours_two_decimals timesheet Hall)
      as (total' & Hsum & He & Hv & Hb).
    fold total in Hv.
    destruct (overtime_of_two_decimals db total' He ltac:(pow_norm; lia))
      as (over & Hover & Hstored).
    destruct (create_timesheet_ok db timesheet u _ _ Hwho Hnone Hsum Hover)
      as (row & Hrun & Hemp & Hst & Hd & Htot & Hov).
    exists row. split; [exact Hrun|]. split; [exact Hemp|]. split; [exact Hst|].
    split; [|split].
    - rewrite Hd. apply map_ext_in. intros d Hd'.
      apply to_column_hundredths.
      apply (proj1 (Forall_forall _ _) Hall d Hd').
    - rewrite Htot, to_column_hundredths by lia. rewrite Hv. reflexivity.
    - rewrite Hov, Hstored, Hv. reflexivity. }
  split.
  { intros db timesheet u mon tue wed thu fri sat sun Hwho Hnone Hdays Hall total.
    pose proof (sum_daily_hours_scaled timesheet (-4) _ _ _ _ _ _ _
                  ltac:(lia) Hdays Hall) as Hsum.
    fold total in Hsum.
    assert (Ht : 0 <= total <= 1680000).
    { unfold total.
      repeat match goal with
             | H : Forall _ (_ :: _) |- _ =>
                 let B := fresh "B" in
                 apply Forall_cons_iff in H; destruct H as [B H]
             end. lia. }
    destruct (create_timesheet_ok db timesheet u _ _ Hwho Hnone Hsum
                (overtime_of_ten_thousandths total ltac:(pow_norm; lia)))
      as (row & Hrun & _ & _ & Hd & Htot & Hov).
    exists row. split; [exact Hrun|]. split; [|split].
    - rewrite Hd, Hdays. reflexivity.
    - rewrite Htot. reflexivity.
    - rewrite Hov. destruct (400000 <? total); reflexivity. }
  split.
  - intros db u Hwho Hnone.
    destruct (create_timesheet_ok db _ u (Dec.of_int 40) (Dec.of_int 0) Hwho Hnone
                eq_refl eq_refl) as (row & Hrun & _ & _ & _ & Htot & Hov).
    exists row. split; [exact Hrun|]. split; [rewrite Htot|rewrite Hov]; reflexivity.
  - intros db u Hwho Hnone.
    destruct (create_timesheet_ok db _ u (Dec.of_int 50) (Dec.of_int 10) Hwho Hnone
                eq_refl eq_refl) as (row & Hrun & _ & _ & _ & Htot & Hov).
    exists row. split; [exact Hrun|]. split; [rewrite Htot|rewrite Hov]; reflexivity.
Qed.

Lemma time_aggregation_witness :
  (exists row,
      create_timesheet (one_employee_db PENDING) quarter_hour_week
        (mkUserInfo "sub" ["employee"] None)
      = (with_timesheets [row] (one_employee_db PENDING), Ok row)
      /\ stored_days row
         = [D 750 (-2); D 825 (-2); D 800 (-2); D 900 (-2); D 725 (-2); D 0 (-2);
            D 400 (-2)]
      /\ Timesheet.total_hours row = D 4400 (-2)
      /\ Timesheet.overtime_hours row = D 400 (-2))
  /\ (exists row,
        create_timesheet (one_employee_db PENDING) (week_of 1 10 10 10 10 10 0 0)
          (mkUserInfo "u-7" ["manager"] None)
        = (with_timesheets [row] (one_employee_db PENDING), Ok row)
        /\ Timesheet.total_hours row = D 5000 (-2)
        /\ Timesheet.overtime_hours row = D 1000 (-2))
  /\ (exists db' p',
        _process_employee_payroll example_env (five_employee_db PENDING)
          (paid_hourly 1) (example_run PENDING) column_tax_config = (db', Ok p')
        /\ Payslip.regular_hours p' = D 4000 (-2)
        /\ Payslip.overtime_hours p' = D 0 (-2))
  /\ aggregate_hours
       [week_timesheet 1 1 0 TS_APPROVED 8; week_timesheet 2 1 1 TS_APPROVED 10]
       (Dec.zero, Dec.zero)
     = Ok (D 8000 (-2), D 1000 (-2)).
Proof.
  destruct (time_aggregation (paid_hourly 1) (example_run PENDING))
    as (H1 & _ & _ & _ & H5 & H6 & _ & _ & H9).
  split; [|split; [|split]].
  - destruct (H6 (one_employee_db PENDING) quarter_hour_week
                (mkUserInfo "sub" ["employee"] None))
      as (row & Hrun & _ & _ & Hdays & Htot & Hover).
    + exists banked_employee. split; reflexivity.
    + reflexivity.
    + repeat constructor; vm_compute; discriminate.
    + exists row. split; [exact Hrun|]. split; [exact Hdays|].
      split; [exact Htot|exact Hover].
  - apply (H9 (one_employee_db PENDING) (mkUserInfo "u-7" ["manager"] None)).
    + exists banked_employee. reflexivity.
    + reflexivity.
  - edestruct (H1 example_env (five_employee_db PENDING) column_tax_config)
      as (_ & db' & p' & Hrun & _ & Hreg & Hover).
    + vm_compute. reflexivity.
    + exists db', p'. split; [exact Hrun|]. split; [exact Hreg|exact Hover].
  - apply (proj1 (H5 [week_timesheet 1 1 0 TS_APPROVED 8;
                      week_timesheet 2 1 1 TS_APPROVED 10]
                   ltac:(discriminate)
                   ltac:(repeat constructor; simpl; lia)
                   ltac:(simpl; lia))).
Defined.

(** C7 (as stated) fails: the record stored for five days of 8.3333 hours
    has a total of 41.67 hours, while its seven daily values, 8.33 each and
    0.00 for the weekend, add up to 41.65. *)
Lemma created_hours_add_up_counterexample :
  ~ created_hours_add_up (one_employee_db PENDING) twenty_minute_week
      (mkUserInfo "sub" ["employee"] None).
Proof.
  intros (db' & row & H & total & over & Hsum & Hcmp & _).
  vm_compute in H. injection H as _ <-.
  vm_compute in Hsum. injection Hsum as <-.
  vm_compute in Hcmp. discriminate Hcmp.
Qed.

(** * Rounding to the context precision *)

Lemma ndigits_fuel_gt (fuel : nat) :
  forall n, 0 <= n < 2 ^ Z.of_nat fuel -> n < 10 ^ Dec.ndigits_fuel fuel n.
Proof.
  induction fuel as [|fuel IH]; intros n Hn; cbn [Dec.ndigits_fuel].
  - change (2 ^ Z.of_nat 0) with 1 in Hn. change (10 ^ 1) with 10. lia.
  - destruct (Z.ltb_spec n 10) as [Hlt|Hge]; [change (10 ^ 1) with 10; lia|].
    rewrite Nat2Z.inj_succ, Z.pow_succ_r in Hn by lia.
    assert (Hq : 0 <= n / 10 < 2 ^ Z.of_nat fuel).
    { split; [apply Z.div_pos; lia|]. apply Z.div_lt_upper_bound; lia. }
    specialize (IH _ Hq).
    assert (Hd : 1 <= Dec.ndigits_fuel fuel (n / 10)).
    { clear -fuel. generalize (n / 10). induction fuel; intros m; cbn [Dec.ndigits_fuel];
        [lia|]. destruct (m <? 10); [lia|]. specialize (IHfuel (m / 10)). lia. }
    rewrite Z.pow_add_r by lia. change (10 ^ 1) with 10.
    pose proof (Z.div_mod n 10 ltac:(lia)) as Hdm.
    pose proof (Z.mod_pos_bound n 10 ltac:(lia)). lia.
Qed.

Lemma ndigits_gt (c : Z) : Z.abs c < 10 ^ Dec.ndigits c.
Proof.
  unfold Dec.ndigits. apply ndigits_fuel_gt. split; [lia|].
  destruct (Z.eq_dec (Z.abs c) 0) as [->|Hnz].
  - cbn. lia.
  - rewrite Nat2Z.inj_succ, Z2Nat.id by apply Z.log2_nonneg.
    apply Z.log2_spec. lia.
Qed.

Lemma ndigits_pos (c : Z) : 1 <= Dec.ndigits c.
Proof.
  pose proof (ndigits_gt c) as H.
  destruct (Z_lt_le_dec (Dec.ndigits c) 1) as [Hlt|]; [|assumption].
  exfalso. assert (Hz : Dec.ndigits c <= 0) by lia.
  destruct (Z.eq_dec (Dec.ndigits c) 0) as [E|E].
  - rewrite E in H. change (10 ^ 0) with 1 in H.
    assert (c = 0) by lia. subst c. vm_compute in E. discriminate.
  - rewrite Z.pow_neg_r in H by lia. lia.
Qed.

(** [_fix] on a number of moderate size: it returns, the result fits the
    precision, the exponent grows by at most the number of excess digits
    plus one, and the value moves by at most half a unit of the last digit
    kept. *)
Lemma fix_rounds (c e : Z) :
  -100000 <= e <= 100000 -> Z.abs c < 10 ^ 200 ->
  exists c' e',
    Dec._fix (Dec.mk c e) = Ok (Dec.mk c' e')
    /\ Z.abs c' < 10 ^ 28
    /\ e <= e' <= e + Z.max 0 (Dec.ndigits c - 28) + 1
    /\ 2 * Z.abs (c' * 10 ^ (e' - e) - c) <= 10 ^ (e' - e).
Proof.
  intros He Hc.
  pose proof (DecFacts.ndigits_le c 200 ltac:(lia) Hc) as Hnd. clear Hc.
  pose proof (ndigits_gt c) as Hgt.
  unfold Dec._fix. cbn [Dec.coef Dec.exp].
  unfold Dec.Etiny, Dec.Etop, Dec.Emin, Dec.Emax, Dec.prec.
  destruct (Z.eqb_spec c 0) as [->|Hnz].
  - exists 0, e. rewrite Z.max_l, Z.min_l by lia.
    split; [reflexivity|]. split; [reflexivity|]. split; [lia|].
    rewrite Z.sub_diag. change (10 ^ 0) with 1. lia.
  - destruct (Z.gtb_spec (Dec.ndigits c + e - 28) (999999 - 28 + 1)); [lia|].
    rewrite Z.max_l by lia.
    destruct (Z.ltb_spec e (Dec.ndigits c + e - 28)) as [Hlt|Hge].
    + set (k := Dec.ndigits c + e - 28 - e).
      assert (Hk : k = Dec.ndigits c - 28) by (unfold k; lia).
      assert (Hk0 : 0 < k) by lia.
      pose proof (DecFacts.round_half_even_spec c k ltac:(lia)) as Hspec.
      pose proof (DecFacts.round_half_even_abs_le c k ltac:(lia)) as Hle.
      assert (Hq28 : Z.abs c / 10 ^ k < 10 ^ 28).
      { apply Z.div_lt_upper_bound; [apply DecFacts.pow10_pos; lia|].
        rewrite <- Z.pow_add_r by lia. replace (k + 28) with (Dec.ndigits c) by lia.
        exact Hgt. }
      set (q := Dec.round_half_even c k) in *.
      destruct (Z.geb_spec (Z.abs q) (10 ^ 28)) as [Hbig|Hsmall].
      * assert (Habs : Z.abs q = 10 ^ 28) by lia.
        destruct (Z.gtb_spec (Dec.ndigits c + e - 28 + 1) (999999 - 28 + 1)); [lia|].
        exists (q / 10), (Dec.ndigits c + e - 28 + 1).
        assert (Hq10 : q = 10 * (q / 10) /\ Z.abs (q / 10) = 10 ^ 27).
        { change (10 ^ 28) with (10 * 10 ^ 27) in Habs.
          destruct (Z.abs_spec q) as [[_ Eq]|[_ Eq]]; rewrite Eq in Habs.
          - rewrite Habs, Z.mul_comm, Z.div_mul by lia.
            split; [lia|]. apply Z.abs_eq. apply Z.lt_le_incl, DecFacts.pow10_pos; lia.
          - assert (Eq' : q = (- 10 ^ 27) * 10) by lia.
            rewrite Eq', Z.div_mul by lia. split; [lia|].
            rewrite Z.abs_opp. apply Z.abs_eq.
            apply Z.lt_le_incl, DecFacts.pow10_pos; lia. }
        destruct Hq10 as [Hq10 Hq27].
        split; [reflexivity|]. split; [rewrite Hq27; reflexivity|].
        split; [lia|].
        replace (Dec.ndigits c + e - 28 + 1 - e) with (k + 1) by (unfold k; lia).
        rewrite Z.pow_add_r by lia. change (10 ^ 1) with 10.
        replace (q / 10 * (10 ^ k * 10)) with (q * 10 ^ k) by nia.
        pose proof (DecFacts.pow10_pos k ltac:(lia)). lia.
      * destruct (Z.gtb_spec (Dec.ndigits c + e - 28) (999999 - 28 + 1)); [lia|].
        exists q, (Dec.ndigits c + e - 28).
        split; [reflexivity|]. split; [lia|]. split; [lia|].
        fold k. exact Hspec.
    + exists c, e. split; [reflexivity|].
      assert (Dec.ndigits c <= 28) by lia.
      split.
      { eapply Z.lt_le_trans; [exact Hgt|]. apply Z.pow_le_mono_r; lia. }
      split; [lia|]. rewrite Z.sub_diag. change (10 ^ 0) with 1. lia.
Qed.

(** * Gross pay *)

Lemma gross_pay_of_inv (e : Employee.t) (r : PayrollRun.t) (rh oh rp op gp : Decimal) :
  gross_pay_of e r rh oh = Ok (rp, op, gp) ->
  (Employee.salary_type e = HOURLY ->
     exists rate x,
       Employee.hourly_rate e = Some rate
       /\ Dec.mul rh rate = Ok rp
       /\ Dec.mul oh rate = Ok x
       /\ Dec.mul x (D 15 (-1)) = Ok op)
  /\ (Employee.salary_type e = FIXED ->
        exists daily,
          Dec.div (Employee.base_salary e) (Dec.of_int 365) = Ok daily
          /\ Dec.mul daily
               (Dec.of_int (timedelta_days (PayrollRun.pay_period_end r)
                                           (PayrollRun.pay_period_start r) + 1))
             = Ok rp
          /\ op = Dec.zero)
  /\ Dec.add rp op = Ok gp.
Proof.
  unfold gross_pay_of. intros H.
  destruct (Employee.salary_type e).
  - destruct (Employee.hourly_rate e) as [rate|]; [|discriminate H].
    bind_inv H. cbn [fst snd] in *. injection H as <- <- <-.
    bind_inv E. injection E as <-. cbn [fst snd] in *.
    split; [intros _; eauto 8|]. split; [discriminate|assumption].
  - bind_inv H. cbn [fst snd] in *. injection H as <- <- <-.
    bind_inv E. injection E as <-. cbn [fst snd] in *.
    split; [discriminate|]. split; [intros _; eauto|assumption].
Qed.

Lemma build_payslip_pay (db : DB) (e : Employee.t) (r : PayrollRun.t)
    (tc : TaxConfiguration.t) (p : Payslip.t) :
  build_payslip db e r tc = Ok p ->
  gross_pay_of e r (Payslip.regular_hours p) (Payslip.overtime_hours p)
  = Ok (Payslip.regular_pay p, Payslip.overtime_pay p, Payslip.gross_pay p).
Proof.
  unfold build_payslip. intros H.
  destruct (aggregate_hours _ _) as [[rh oh]|]; [cbn [bind fst snd] in H|discriminate H].
  destruct (gross_pay_of e r rh oh) as [[[rp op] gp]|] eqn:Hg;
    [cbn [bind] in H|discriminate H].
  bind_inv H. injection H as <-.
  cbn [Payslip.regular_hours Payslip.overtime_hours Payslip.regular_pay
       Payslip.overtime_pay Payslip.gross_pay].
  exact Hg.
Qed.

Lemma gross_pay_of_hourly_exact (e : Employee.t) (r : PayrollRun.t) (h o rt : Z) :
  Employee.salary_type e = HOURLY ->
  Employee.hourly_rate e = Some (D rt (-2)) ->
  0 <= rt < 10 ^ 6 -> Z.abs h < 10 ^ 10 -> Z.abs o < 10 ^ 10 ->
  gross_pay_of e r (D h (-2)) (D o (-2))
  = Ok (D (h * rt) (-4), D (o * rt * 15) (-5), D (h * rt * 10 + o * rt * 15) (-5)).
Proof.
  intros Ht Hr Hrt Hh Ho. unfold gross_pay_of. rewrite Ht, Hr. unfold D.
  change (10 ^ 6) with 1000000 in Hrt.
  change (10 ^ 10) with 10000000000 in Hh, Ho.
  rewrite !mul_exact_mk by dec_side. cbn [bind].
  rewrite mul_exact_mk by dec_side. cbn [bind fst snd].
  change (-2 + -2) with (-4). change (-4 + -1) with (-5).
  rewrite (add_exact_ge (h * rt) (-4) (o * rt * 15) (-5) 1) by dec_side.
  reflexivity.
Qed.

(** ** Accuracy of the salary proration *)

Lemma fix_small (c e : Z) :
  Dec.ndigits c <= 28 -> -100000 <= e <= 100000 ->
  Dec._fix (Dec.mk c e) = Ok (Dec.mk c e).
Proof.
  intros Hnd He. apply DecFacts.fix_exact.
  - eapply Z.lt_le_trans; [apply ndigits_gt|].
    unfold Dec.prec. apply Z.pow_le_mono_r; lia.
  - unfold Dec.Etiny, Dec.Etop, Dec.Emin, Dec.Emax, Dec.prec. lia.
Qed.

Lemma ndigits_big (c : Z) : 28 < Dec.ndigits c -> 10 ^ 28 <= Z.abs c.
Proof.
  intros H. destruct (Z_lt_le_dec (Z.abs c) (10 ^ 28)) as [Hlt|]; [|assumption].
  pose proof (DecFacts.ndigits_le c 28 ltac:(lia) Hlt). lia.
Qed.

Lemma strip_to_ideal_value (fuel : nat) :
  forall c e ideal c' e',
    0 <= c ->
    Dec.strip_to_ideal fuel c e ideal = (c', e') ->
    c' * 10 ^ (e' - e) = c /\ 0 <= c' /\ e <= e' <= Z.max e ideal.
Proof.
  induction fuel as [|fuel IH]; intros c e ideal c' e' Hc H;
    cbn [Dec.strip_to_ideal] in H.
  - injection H as <- <-. rewrite Z.sub_diag. change (10 ^ 0) with 1. lia.
  - destruct (Z.ltb_spec e ideal) as [Hlt|Hge]; cbn [andb] in H.
    + destruct (Z.eqb_spec (c mod 10) 0) as [Hmod|Hmod].
      * apply IH in H; [|apply Z.div_pos; lia].
        destruct H as (Hv & Hc' & He').
        split; [|lia].
        replace (e' - e) with (1 + (e' - (e + 1))) by lia.
        rewrite Z.pow_add_r by lia. change (10 ^ 1) with 10.
        pose proof (Z.div_mod c 10 ltac:(lia)). nia.
      * injection H as <- <-. rewrite Z.sub_diag. change (10 ^ 0) with 1. lia.
    + injection H as <- <-. rewrite Z.sub_diag. change (10 ^ 0) with 1. lia.
Qed.

(** The daily rate: [base / 365] is returned with an error of at most
    [10 ^ 4] units of the working exponent [e0]. *)
Lemma div_365_accuracy (b : Z) :
  0 < b < 10 ^ 10 ->
  exists c1 e1 e0,
    Dec.div (Dec.mk b (-2)) (Dec.of_int 365) = Ok (Dec.mk c1 e1)
    /\ -33 <= e0 <= -24 /\ e0 <= e1 <= -2
    /\ Z.abs c1 < 10 ^ 28
    /\ Z.abs (365 * (c1 * 10 ^ (e1 - e0)) - b * 10 ^ (-2 - e0)) <= 365 * 10 ^ 4.
Proof.
  intros Hb. change (10 ^ 10) with 10000000000 in Hb.
  unfold Dec.div, Dec.of_int. cbn [Dec.coef Dec.exp].
  change (365 =? 0) with false. cbv iota.
  rewrite (proj2 (Z.eqb_neq b 0)) by lia.
  rewrite (Z.abs_eq b) by lia. change (Z.abs 365) with 365.
  change (Dec.ndigits 365) with 3. unfold Dec.prec.
  replace (Z.sgn b * Z.sgn 365) with 1 by (rewrite Z.sgn_pos by lia; reflexivity).
  pose proof (DecFacts.ndigits_le b 10 ltac:(lia)
                ltac:(rewrite Z.abs_eq by lia; change (10 ^ 10) with 10000000000; lia))
    as Hnd.
  pose proof (ndigits_gt b) as Hgt. rewrite Z.abs_eq in Hgt by lia.
  set (shift := 3 - Dec.ndigits b + 28 + 1).
  assert (Hshift : 22 <= shift <= 31) by (unfold shift; lia).
  destruct (Z.geb_spec shift 0) as [_|]; [|lia].
  change (-2 - 0) with (-2).
  set (e0 := -2 - shift).
  assert (He0 : -33 <= e0 <= -24) by (unfold e0; lia).
  replace shift with (-2 - e0) in * by (unfold e0; lia).
  assert (Hpow : 0 < 10 ^ (-2 - e0)) by (apply DecFacts.pow10_pos; lia).
  set (num := b * 10 ^ (-2 - e0)).
  assert (Hnum : 0 < num < 10 ^ 32).
  { unfold num. split; [nia|].
    replace 32 with (Dec.ndigits b + (-2 - e0)) by (unfold e0, shift; lia).
    rewrite Z.pow_add_r by lia. nia. }
  change (10 ^ 32) with 100000000000000000000000000000000 in Hnum.
  pose proof (Z.div_mod num 365 ltac:(lia)) as Hdm.
  pose proof (Z.mod_pos_bound num 365 ltac:(lia)) as Hr.
  assert (Hq : 0 <= num / 365 < 10 ^ 30 - 1).
  { split; [apply Z.div_pos; lia|].
    apply Z.div_lt_upper_bound; [lia|]. change (10 ^ 30) with 1000000000000000000000000000000.
    lia. }
  change (10 ^ 30) with 1000000000000000000000000000000 in Hq.
  assert (Enum : b * 10 ^ (-2 - e0) = num) by reflexivity.
  clearbody num. clear Hgt Hb Hnd.
  destruct (Z.eqb_spec (num mod 365) 0) as [Hex|Hnex].
  - (* exact quotient *)
    destruct (Dec.strip_to_ideal (Z.to_nat (-2 - e0)) (num / 365) e0 (-2))
      as [q' e'] eqn:Hs.
    apply strip_to_ideal_value in Hs; [|lia].
    destruct Hs as (Hv & Hq' & He'). rewrite Z.max_r in He' by lia.
    rewrite Z.mul_1_l.
    assert (Hp' : 0 < 10 ^ (e' - e0)) by (apply DecFacts.pow10_pos; lia).
    destruct (Z_le_gt_dec (Dec.ndigits q') 28) as [Hsmall|Hbig].
    + rewrite fix_small by lia.
      exists q', e', e0. split; [reflexivity|]. split; [lia|]. split; [lia|].
      split.
      { eapply Z.lt_le_trans; [apply ndigits_gt|]. apply Z.pow_le_mono_r; lia. }
      rewrite Hv, Enum. change (10 ^ 4) with 10000. lia.
    + pose proof (ndigits_big q' ltac:(lia)) as Hq28.
      rewrite Z.abs_eq in Hq28 by lia.
      change (10 ^ 28) with 10000000000000000000000000000 in Hq28.
      assert (Hd : e' - e0 <= 1).
      { destruct (Z_le_gt_dec (e' - e0) 1) as [|Hgt]; [assumption|exfalso].
        assert (10 ^ 2 <= 10 ^ (e' - e0)) by (apply Z.pow_le_mono_r; lia).
        change (10 ^ 2) with 100 in H. nia. }
      assert (Hq30 : Z.abs q' < 10 ^ 30).
      { rewrite Z.abs_eq by lia.
        change (10 ^ 30) with 1000000000000000000000000000000. nia. }
      pose proof (DecFacts.ndigits_le q' 30 ltac:(lia) Hq30) as Hnd30.
      assert (H200 : Z.abs q' < 10 ^ 200).
      { eapply Z.lt_le_trans; [exact Hq30|]. apply Z.pow_le_mono_r; lia. }
      destruct (fix_rounds q' e' ltac:(lia) H200) as (c1 & e1 & Hf & Hc1 & He1 & Herr).
      exists c1, e1, e0. split; [exact Hf|]. split; [lia|].
      assert (He1' : e' <= e1 <= e' + 3) by lia.
      assert (Hnd29 : e' - e0 = 1 -> Dec.ndigits q' <= 29).
      { intros E1. apply DecFacts.ndigits_le; [lia|].
        rewrite Z.abs_eq by lia. rewrite E1 in Hv. change (10 ^ 1) with 10 in Hv.
        change (10 ^ 29) with 100000000000000000000000000000. lia. }
      assert (He13 : e1 - e0 <= 3) by lia.
      split; [lia|]. split; [exact Hc1|]. rewrite Enum.
      replace (e1 - e0) with ((e1 - e') + (e' - e0)) by lia.
      rewrite Z.pow_add_r by lia.
      assert (Hpa : 0 < 10 ^ (e1 - e') <= 10 ^ 3).
      { split; [apply DecFacts.pow10_pos; lia|apply Z.pow_le_mono_r; lia]. }
      assert (Hpb : 0 < 10 ^ (e' - e0) <= 10 ^ 1).
      { split; [assumption|apply Z.pow_le_mono_r; lia]. }
      assert (Hpab : 10 ^ (e1 - e') * 10 ^ (e' - e0) <= 10 ^ 3).
      { rewrite <- Z.pow_add_r by lia. apply Z.pow_le_mono_r; lia. }
      change (10 ^ 3) with 1000 in *. change (10 ^ 1) with 10 in *.
      change (10 ^ 4) with 10000.
      set (A := 10 ^ (e1 - e')) in *. set (B := 10 ^ (e' - e0)) in *.
      assert (Hnum' : num = 365 * (q' * B)) by lia.
      rewrite Hnum'.
      replace (365 * (c1 * (A * B)) - 365 * (q' * B))
        with (365 * B * (c1 * A - q')) by ring.
      rewrite Z.abs_mul, (Z.abs_eq (365 * B)) by lia. nia.
  - (* inexact quotient *)
    rewrite Z.mul_1_l.
    set (q := if num / 365 mod 5 =? 0 then num / 365 + 1 else num / 365).
    assert (Hq2 : num / 365 <= q <= num / 365 + 1)
      by (unfold q; destruct (_ =? 0); lia).
    clearbody q.
    assert (Hq30 : Z.abs q < 10 ^ 30).
    { rewrite Z.abs_eq by lia.
      change (10 ^ 30) with 1000000000000000000000000000000. lia. }
    pose proof (DecFacts.ndigits_le q 30 ltac:(lia) Hq30) as Hnd30.
    assert (H200 : Z.abs q < 10 ^ 200).
    { eapply Z.lt_le_trans; [exact Hq30|]. apply Z.pow_le_mono_r; lia. }
    destruct (fix_rounds q e0 ltac:(lia) H200) as (c1 & e1 & Hf & Hc1 & He1 & Herr).
    exists c1, e1, e0. split; [exact Hf|]. split; [lia|].
    assert (He13 : e0 <= e1 <= e0 + 3) by lia.
    split; [lia|]. split; [exact Hc1|]. rewrite Enum.
    assert (Hpa : 0 < 10 ^ (e1 - e0) <= 10 ^ 3).
    { split; [apply DecFacts.pow10_pos; lia|apply Z.pow_le_mono_r; lia]. }
    change (10 ^ 3) with 1000 in *. change (10 ^ 4) with 10000.
    set (A := 10 ^ (e1 - e0)) in *. lia.
Qed.

(** The same on the absolute scale [10 ^ -40]. *)
Lemma div_365_accuracy_abs (b : Z) :
  0 < b < 10 ^ 10 ->
  exists c1 e1,
    Dec.div (Dec.mk b (-2)) (Dec.of_int 365) = Ok (Dec.mk c1 e1)
    /\ -33 <= e1 <= -2
    /\ Z.abs c1 < 10 ^ 28
    /\ Z.abs (365 * (c1 * 10 ^ (e1 + 40)) - b * 10 ^ 38) <= 365 * 10 ^ 20.
Proof.
  intros Hb.
  destruct (div_365_accuracy b Hb) as (c1 & e1 & e0 & Hdiv & He0 & He1 & Hc1 & Herr).
  exists c1, e1. split; [exact Hdiv|]. split; [lia|]. split; [exact Hc1|].
  assert (HS : 0 < 10 ^ (e0 + 40) <= 10 ^ 16).
  { split; [apply DecFacts.pow10_pos; lia|apply Z.pow_le_mono_r; lia]. }
  assert (E1 : 10 ^ (e1 + 40) = 10 ^ (e1 - e0) * 10 ^ (e0 + 40)).
  { rewrite <- Z.pow_add_r by lia. f_equal. lia. }
  assert (E2 : 10 ^ 38 = 10 ^ (-2 - e0) * 10 ^ (e0 + 40)).
  { rewrite <- Z.pow_add_r by lia. f_equal. lia. }
  rewrite E1, E2. clear E1 E2.
  set (S := 10 ^ (e0 + 40)) in *.
  replace (365 * (c1 * (10 ^ (e1 - e0) * S)) - b * (10 ^ (-2 - e0) * S))
    with (S * (365 * (c1 * 10 ^ (e1 - e0)) - b * 10 ^ (-2 - e0))) by ring.
  rewrite Z.abs_mul, (Z.abs_eq S) by lia.
  change (10 ^ 20) with (10 ^ 16 * 10 ^ 4).
  change (10 ^ 4) with 10000 in *. change (10 ^ 16) with 10000000000000000 in *.
  nia.
Qed.

(** Multiplying the daily rate by the number of days. *)
Lemma mul_days_accuracy (b c1 e1 days : Z) :
  0 < b < 10 ^ 10 -> 1 <= days <= 10000 ->
  -33 <= e1 <= -2 -> Z.abs c1 < 10 ^ 28 ->
  Z.abs (365 * (c1 * 10 ^ (e1 + 40)) - b * 10 ^ 38) <= 365 * 10 ^ 20 ->
  exists c2 e2,
    Dec.mul (Dec.mk c1 e1) (Dec.of_int days) = Ok (Dec.mk c2 e2)
    /\ -33 <= e2 <= -2
    /\ Z.abs c2 < 10 ^ 28
    /\ Z.abs (365 * (c2 * 10 ^ (e2 + 40)) - b * days * 10 ^ 38) <= 730 * 10 ^ 24.
Proof.
  intros Hb Hdays He1 Hc1 Herr.
  unfold Dec.mul, Dec.of_int. cbn [Dec.coef Dec.exp]. rewrite Z.add_0_r.
  assert (HU : 0 < 10 ^ (e1 + 40)) by (apply DecFacts.pow10_pos; lia).
  set (U1 := 10 ^ (e1 + 40)) in *.
  change (10 ^ 10) with 10000000000 in Hb.
  change (10 ^ 38) with 100000000000000000000000000000000000000 in *.
  change (10 ^ 20) with 100000000000000000000 in Herr.
  set (W := c1 * U1) in *.
  assert (HW : Z.abs W < 10 ^ 46).
  { change (10 ^ 46) with 10000000000000000000000000000000000000000000000. lia. }
  assert (Hdiv' : Z.abs (365 * (c1 * days * U1) - b * days * 100000000000000000000000000000000000000)
                  <= 365 * 10 ^ 24).
  { replace (365 * (c1 * days * U1) - b * days * 100000000000000000000000000000000000000)
      with (days * (365 * W - b * 100000000000000000000000000000000000000))
      by (unfold W; ring).
    rewrite Z.abs_mul, (Z.abs_eq days) by lia.
    change (10 ^ 24) with (10000 * 100000000000000000000). nia. }
  assert (HP : Z.abs (c1 * days) * U1 < 10 ^ 50).
  { replace (Z.abs (c1 * days) * U1) with (Z.abs W * days).
    - change (10 ^ 50) with (10 ^ 46 * 10000). nia.
    - unfold W. rewrite !Z.abs_mul, (Z.abs_eq U1), (Z.abs_eq days) by lia. ring. }
  change (10 ^ 24) with 1000000000000000000000000 in *.
  destruct (Z_le_gt_dec (Dec.ndigits (c1 * days)) 28) as [Hsmall|Hbig].
  - rewrite fix_small by lia.
    exists (c1 * days), e1. split; [reflexivity|]. split; [lia|].
    split.
    { eapply Z.lt_le_trans; [apply ndigits_gt|]. apply Z.pow_le_mono_r; lia. }
    fold U1. lia.
  - pose proof (ndigits_big (c1 * days) ltac:(lia)) as HP28.
    assert (He18 : e1 < -18).
    { destruct (Z_lt_le_dec e1 (-18)) as [|Hge]; [assumption|exfalso].
      assert (10 ^ 22 <= U1) by (unfold U1; apply Z.pow_le_mono_r; lia).
      assert (10 ^ 28 * 10 ^ 22 <= Z.abs (c1 * days) * U1).
      { apply Z.mul_le_mono_nonneg; try lia;
          apply Z.lt_le_incl, DecFacts.pow10_pos; lia. }
      change (10 ^ 28 * 10 ^ 22) with (10 ^ 50) in H0. lia. }
    assert (HPk : Z.abs (c1 * days) < 10 ^ (10 - e1)).
    { destruct (Z_lt_le_dec (Z.abs (c1 * days)) (10 ^ (10 - e1))) as [|Hge];
        [assumption|exfalso].
      assert (10 ^ (10 - e1) * U1 <= Z.abs (c1 * days) * U1)
        by (apply Z.mul_le_mono_nonneg_r; lia).
      unfold U1 in H. rewrite <- Z.pow_add_r in H by lia.
      replace (10 - e1 + (e1 + 40)) with 50 in H by lia. fold U1 in H. lia. }
    pose proof (DecFacts.ndigits_le _ (10 - e1) ltac:(lia) HPk) as Hnd.
    assert (H200 : Z.abs (c1 * days) < 10 ^ 200).
    { eapply Z.lt_le_trans; [exact HPk|]. apply Z.pow_le_mono_r; lia. }
    destruct (fix_rounds (c1 * days) e1 ltac:(lia) H200)
      as (c2 & e2 & Hf & Hc2 & He2 & Hround).
    exists c2, e2. split; [exact Hf|].
    assert (He2' : e1 <= e2 <= -17) by lia.
    split; [lia|]. split; [exact Hc2|].
    assert (HA : 0 < 10 ^ (e2 - e1)) by (apply DecFacts.pow10_pos; lia).
    assert (HU2 : 10 ^ (e2 + 40) = 10 ^ (e2 - e1) * U1).
    { unfold U1. rewrite <- Z.pow_add_r by lia. f_equal. lia. }
    assert (HU2' : 10 ^ (e2 + 40) <= 10 ^ 23) by (apply Z.pow_le_mono_r; lia).
    change (10 ^ 23) with 100000000000000000000000 in HU2'.
    rewrite HU2 in *.
    set (A := 10 ^ (e2 - e1)) in *.
    assert (Hr : 2 * Z.abs (c2 * (A * U1) - c1 * days * U1) <= A * U1).
    { replace (c2 * (A * U1) - c1 * days * U1) with (U1 * (c2 * A - c1 * days)) by ring.
      rewrite Z.abs_mul, (Z.abs_eq U1) by lia.
      replace (2 * (U1 * Z.abs (c2 * A - c1 * days)))
        with (U1 * (2 * Z.abs (c2 * A - c1 * days))) by ring.
      rewrite (Z.mul_comm A U1). apply Z.mul_le_mono_nonneg_l; [lia|exact Hround]. }
    lia.
Qed.

Lemma gross_pay_of_salaried_accuracy (e : Employee.t) (r : PayrollRun.t)
    (rh oh : Decimal) (b : Z) :
  Employee.salary_type e = FIXED ->
  Employee.base_salary e = D b (-2) -> 0 <= b < 10 ^ 10 ->
  0 <= PayrollRun.pay_period_end r - PayrollRun.pay_period_start r
    < 9999 * microseconds_per_day ->
  exists c2 e2,
    gross_pay_of e r rh oh = Ok (D c2 e2, Dec.zero, D c2 e2)
    /\ -33 <= e2 <= -2
    /\ Z.abs (365 * (c2 * 10 ^ (e2 + 40))
              - b * (timedelta_days (PayrollRun.pay_period_end r)
                                    (PayrollRun.pay_period_start r) + 1) * 10 ^ 38)
       <= 730 * 10 ^ 24.
Proof.
  intros Ht Hbase Hb Hper. unfold gross_pay_of. rewrite Ht, Hbase. unfold D.
  destruct (Z.eq_dec b 0) as [->|Hnz].
  { exists 0, (-2). split; [reflexivity|]. split; [lia|].
    rewrite !Z.mul_0_l, Z.mul_0_r, Z.sub_0_r. change (Z.abs 0) with 0.
    apply Z.mul_nonneg_nonneg; [lia|apply Z.lt_le_incl, DecFacts.pow10_pos; lia]. }
  assert (Hb' : 0 < b < 10 ^ 10) by lia.
  destruct (div_365_accuracy_abs b Hb') as (c1 & e1 & Hdiv & He1 & Hc1 & Herr).
  rewrite Hdiv. cbn [bind].
  set (days := timedelta_days (PayrollRun.pay_period_end r)
                              (PayrollRun.pay_period_start r) + 1).
  assert (Hdays : 1 <= days <= 10000).
  { unfold days, timedelta_days.
    assert (0 <= (PayrollRun.pay_period_end r - PayrollRun.pay_period_start r)
                 / microseconds_per_day < 9999).
    { split; [apply Z.div_pos; [lia|reflexivity]|].
      apply Z.div_lt_upper_bound; [reflexivity|]. lia. }
    lia. }
  destruct (mul_days_accuracy b c1 e1 days Hb' Hdays He1 Hc1 Herr)
    as (c2 & e2 & Hmul & He2 & Hc2 & Hacc).
  rewrite Hmul. cbn [bind fst snd].
  unfold Dec.zero, Dec.of_int.
  rewrite (add_exact_le c2 e2 0 0 (- e2)) by (rewrite ?Z.mul_0_l, ?Z.add_0_r; lia).
  cbn [bind]. rewrite Z.mul_0_l, Z.add_0_r.
  exists c2, e2. split; [reflexivity|]. split; assumption.
Qed.

(** C6. Gross pay.  On every payslip produced for an hourly employee,
    [regular_pay = regular_hours * hourly_rate] and
    [overtime_pay = overtime_hours * hourly_rate * 1.5]; for a salaried
    employee [regular_pay = (base_salary / 365) * days_in_period] with
    [days_in_period = (pay_period_end - pay_period_start).days + 1] and
    [overtime_pay = 0]; in both modes [gross_pay = regular_pay +
    overtime_pay], the operations being those of Decimal.  At the scale of
    the columns the hourly products are exact, and the salaried computation
    always returns a regular pay within [2 * 10 ^ -16] of
    [base_salary * days_in_period / 365], which is also the gross pay. *)
Theorem gross_pay_computation (e : Employee.t) (r : PayrollRun.t) :
  (forall db tc p,
      build_payslip db e r tc = Ok p ->
      (Employee.salary_type e = HOURLY ->
         exists rate x,
           Employee.hourly_rate e = Some rate
           /\ Dec.mul (Payslip.regular_hours p) rate = Ok (Payslip.regular_pay p)
           /\ Dec.mul (Payslip.overtime_hours p) rate = Ok x
           /\ Dec.mul x (D 15 (-1)) = Ok (Payslip.overtime_pay p))
      /\ (Employee.salary_type e = FIXED ->
            exists daily,
              Dec.div (Employee.base_salary e) (Dec.of_int 365) = Ok daily
              /\ Dec.mul daily
                   (Dec.of_int (timedelta_days (PayrollRun.pay_period_end r)
                                               (PayrollRun.pay_period_start r) + 1))
                 = Ok (Payslip.regular_pay p)
              /\ Payslip.overtime_pay p = Dec.zero)
      /\ Dec.add (Payslip.regular_pay p) (Payslip.overtime_pay p)
         = Ok (Payslip.gross_pay p))
  /\ (forall h o rt,
        Employee.salary_type e = HOURLY ->
        Employee.hourly_rate e = Some (D rt (-2)) ->
        0 <= rt < 10 ^ 6 -> Z.abs h < 10 ^ 10 -> Z.abs o < 10 ^ 10 ->
        gross_pay_of e r (D h (-2)) (D o (-2))
        = Ok (D (h * rt) (-4), D (o * rt * 15) (-5),
              D (h * rt * 10 + o * rt * 15) (-5)))
  /\ (forall rh oh b,
        Employee.salary_type e = FIXED ->
        Employee.base_salary e = D b (-2) -> 0 <= b < 10 ^ 10 ->
        0 <= PayrollRun.pay_period_end r - PayrollRun.pay_period_start r
          < 9999 * microseconds_per_day ->
        exists c2 e2,
          gross_pay_of e r rh oh = Ok (D c2 e2, Dec.zero, D c2 e2)
          /\ -33 <= e2 <= -2
          /\ Z.abs (365 * (c2 * 10 ^ (e2 + 40))
                    - b * (timedelta_days (PayrollRun.pay_period_end r)
                                          (PayrollRun.pay_period_start r) + 1)
                      * 10 ^ 38)
             <= 730 * 10 ^ 24).
Proof.
  split.
  - intros db tc p H. apply (gross_pay_of_inv e r _ _ _ _ _ (build_payslip_pay _ _ _ _ _ H)).
  - split.
    + intros h o rt. apply gross_pay_of_hourly_exact.
    + intros rh oh b. apply gross_pay_of_salaried_accuracy.
Qed.

Lemma gross_pay_computation_witness :
  gross_pay_of (paid_hourly 1) (example_run PENDING) (D 8000 (-2)) (D 1000 (-2))
  = Ok (D 16000000 (-4), D 30000000 (-5), D 190000000 (-5)).
Proof.
  destruct (gross_pay_computation (paid_hourly 1) (example_run PENDING))
    as (_ & H & _).
  rewrite (H 8000 1000 2000); try reflexivity; simpl; lia.
Defined.

(** A salaried employee paid 52000.00 a year, over a period of 14 days. *)
Example salaried_fortnight :
  gross_pay_of banked_employee (example_run PENDING) Dec.zero Dec.zero
  = Ok (D 1994520547945205479452054795 (-24), Dec.zero,
        D 1994520547945205479452054795 (-24)).
Proof. vm_compute. reflexivity. Qed.

(** * Payment follow-up *)

(** What the payment service answers depends on the employees and bank
    accounts only. *)
Lemma send_payment_via_plaid_try_inputs (env : Env) (db db' : DB) (amount : Decimal)
    (employee_id : Z) (description : string) :
  employees db' = employees db ->
  bank_accounts db' = bank_accounts db ->
  snd (send_payment_via_plaid_try env db' amount employee_id description)
  = snd (send_payment_via_plaid_try env db amount employee_id description).
Proof.
  intros He Hb. unfold send_payment_via_plaid_try.
  rewrite He, Hb.
  destruct (scalar_one_or_none
              (filter (fun e => Employee.id e =? employee_id) (employees db)))
    as [[employee|]|]; try reflexivity.
  destruct (scalar_one_or_none _) as [[b|]|]; try reflexivity.
  unfold plaid_service.create_payment_recipient, plaid_service.create_payment,
    plaid_service.get_payment_status.
  destruct (create_payment_recipient env _) as [rid|x]; cbn [plaid_service.logged];
    [|reflexivity].
  destruct (create_payment env rid description amount) as [pid|x];
    cbn [plaid_service.logged]; [|reflexivity].
  destruct (get_payment_status env pid) as [st|x];
    cbn [plaid_service.logged]; reflexivity.
Qed.

Lemma send_payment_via_plaid_try_frame (env : Env) (db db' : DB) (amount : Decimal)
    (employee_id : Z) (description : string) :
  same_other_tables db db' ->
  snd (send_payment_via_plaid_try env db' amount employee_id description)
  = snd (send_payment_via_plaid_try env db amount employee_id description).
Proof.
  intros (_ & He & _ & _ & Hb & _).
  apply send_payment_via_plaid_try_inputs; assumption.
Qed.

Lemma send_payment_via_plaid_inputs (env : Env) (db db' : DB) (amount : Decimal)
    (employee_id : Z) (description : string) :
  employees db' = employees db ->
  bank_accounts db' = bank_accounts db ->
  snd (send_payment_via_plaid env db' amount employee_id description)
  = snd (send_payment_via_plaid env db amount employee_id description).
Proof.
  intros He Hb.
  pose proof (send_payment_via_plaid_try_inputs env db db' amount employee_id
                description He Hb) as H.
  unfold send_payment_via_plaid.
  destruct (send_payment_via_plaid_try env db' amount employee_id description)
    as [d1 r1].
  destruct (send_payment_via_plaid_try env db amount employee_id description)
    as [d2 r2].
  cbn [snd] in H. subst r1. destruct r2; reflexivity.
Qed.

Lemma to_column_engine (db db' : DB) (scale : Z) (d : Decimal) :
  column_round db' = column_round db -> to_column db' scale d = to_column db scale d.
Proof. intros H. unfold to_column. rewrite H. reflexivity. Qed.

Lemma refresh_payslip_engine (db db' : DB) (p : Payslip.t) :
  column_round db' = column_round db -> refresh_payslip db' p = refresh_payslip db p.
Proof.
  intros H. unfold refresh_payslip. rewrite !(to_column_engine db db' _ _ H).
  reflexivity.
Qed.

Lemma pay_record_fields (p q : Payslip.t) :
  pay_record p = pay_record q ->
  Payslip.net_pay p = Payslip.net_pay q
  /\ Payslip.pay_period_start p = Payslip.pay_period_start q
  /\ Payslip.pay_period_end p = Payslip.pay_period_end q.
Proof.
  intros H.
  split; [exact (f_equal Payslip.net_pay H)|].
  split; [exact (f_equal Payslip.pay_period_start H)
         |exact (f_equal Payslip.pay_period_end H)].
Qed.

(** A failed payment attempt for one employee. *)
Lemma failed_payment_is_recorded (env : Env) (db : DB) (e : Employee.t)
    (r : PayrollRun.t) (tc : TaxConfiguration.t) (p : Payslip.t) (x : Exn) :
  build_payslip db e r tc = Ok p ->
  truthy (Employee.bank_account_id e) = true ->
  snd (send_payment_via_plaid_try env db (Payslip.net_pay (refresh_payslip db p))
         (Employee.id e) (payment_description env p)) = Raise x ->
  exists db' p',
    _process_employee_payroll env db e r tc = (db', Ok p')
    /\ Payslip.payment_status p' = "failed"
    /\ pay_record p' = refresh_payslip db p
    /\ payslips db' = payslips db ++ [p']
    /\ In (LogError "backend.services.payment_service" "Plaid payment error" x)
          (log db').
Proof.
  intros Hb Hbank Hfail. unfold _process_employee_payroll. rewrite Hb, Hbank.
  destruct (build_payslip_shape _ _ _ _ _ Hb) as (Hrec0 & Hid0 & _).
  set (p0 := refresh_payslip db p) in *.
  assert (Hrec : pay_record p0 = p0).
  { unfold p0. rewrite <- Hrec0 at 2. reflexivity. }
  assert (Hid : Payslip.id p0 = next_id (map Payslip.id (payslips db))) by exact Hid0.
  assert (H0 : follow_up db (with_payslips (payslips db ++ [p0]) db) (payslips db) p0).
  { repeat split. exact Hid. }
  destruct (generate_payslip_pdf_effect env db _ (payslips db) p0 e H0) as [H1 Hr1].
  destruct (_generate_payslip_pdf env (with_payslips (payslips db ++ [p0]) db) p0 e)
    as [db1 p1].
  cbn [fst snd] in H1, Hr1.
  destruct (pay_record_fields _ _ Hr1) as (Hnet & Hs & He).
  assert (Hdesc : payment_description env p1 = payment_description env p).
  { unfold payment_description. rewrite Hs, He. reflexivity. }
  unfold _process_payment.
  rewrite Hdesc, Hnet.
  destruct (send_payment_via_plaid_returns env db1 (Payslip.net_pay p0)
              (Employee.id e) (payment_description env p))
    as (res & Hres & Hlog & Hcase).
  rewrite (send_payment_via_plaid_try_frame env db db1) in Hcase by apply H1.
  rewrite Hfail in Hcase. destruct Hcase as [-> Hin].
  destruct (send_payment_via_plaid env db1 (Payslip.net_pay p0) (Employee.id e)
              (payment_description env p)) as [db2 res2].
  cbn [fst snd] in Hres, Hlog, Hin. subst res2.
  cbn [pr_method pr_payment_id pr_reference pr_status or_else].
  eexists. eexists. split; [reflexivity|].
  split; [reflexivity|]. split; [rewrite <- Hrec, <- Hr1; reflexivity|].
  split.
  - apply (follow_up_commit db _ (payslips db) p1); [|reflexivity].
    apply (follow_up_same_but_log db db1 db2); assumption.
  - exact Hin.
Qed.

(** ** The run does not depend on what the Plaid client answers *)

Lemma clear_payment_id (p : Payslip.t) : Payslip.id (clear_payment p) = Payslip.id p.
Proof. reflexivity. Qed.

Lemma map_id_clear_payment (l l' : list Payslip.t) :
  map clear_payment l' = map clear_payment l ->
  map Payslip.id l' = map Payslip.id l.
Proof.
  intros H.
  assert (E : forall k, map Payslip.id k = map Payslip.id (map clear_payment k)).
  { intros k. rewrite map_map. reflexivity. }
  rewrite (E l'), (E l), H. reflexivity.
Qed.

Lemma same_but_payments_refl (db : DB) : same_but_payments db db.
Proof. split; [apply same_other_tables_refl|reflexivity]. Qed.

Lemma same_but_log_payments (db db' : DB) :
  same_but_log db db' -> same_but_payments db db'.
Proof. intros [Hsame Hps]. split; [exact Hsame|]. rewrite Hps. reflexivity. Qed.

Lemma build_payslip_same_but_payments (db db' : DB) (e : Employee.t)
    (r : PayrollRun.t) (tc : TaxConfiguration.t) :
  same_but_payments db db' ->
  build_payslip db' e r tc = build_payslip db e r tc.
Proof.
  intros [(_ & _ & _ & Ht & _) Hps]. unfold build_payslip.
  rewrite Ht, (map_id_clear_payment _ _ Hps). reflexivity.
Qed.

Lemma cons_eq (A : Type) (a b : A) (l l' : list A) :
  a :: l = b :: l' -> a = b /\ l = l'.
Proof. intros H. injection H as -> ->. split; reflexivity. Qed.

Lemma commit_payslip_same_but_payments (db db' : DB) (p p' : Payslip.t) :
  same_but_payments db db' ->
  clear_payment p' = clear_payment p ->
  same_but_payments (commit_payslip p db) (commit_payslip p' db').
Proof.
  intros [Hsame Hps] Hp. split; [exact Hsame|].
  unfold commit_payslip. cbn [payslips with_payslips].
  assert (Hid : Payslip.id p' = Payslip.id p)
    by exact (f_equal Payslip.id Hp).
  rewrite Hid. revert Hps. generalize (payslips db'). generalize (payslips db).
  induction l as [|q l IH]; intros [|q' l'] H; cbn [map] in *; try discriminate;
    [reflexivity|].
  apply cons_eq in H. destruct H as [Hq Hl]. rewrite (IH _ Hl). f_equal.
  assert (Hqid : Payslip.id q' = Payslip.id q) by exact (f_equal Payslip.id Hq).
  rewrite Hqid. destruct (Payslip.id q =? Payslip.id p); assumption.
Qed.

Lemma add_log_same_but_payments_l (db db' : DB) (l : LogRecord) :
  same_but_payments db db' -> same_but_payments (add_log l db) db'.
Proof. intros [Hsame Hps]. split; assumption. Qed.

Lemma add_log_same_but_payments_r (db db' : DB) (l : LogRecord) :
  same_but_payments db db' -> same_but_payments db (add_log l db').
Proof. intros [Hsame Hps]. split; assumption. Qed.

Section OtherPlaidClient.

Variable env : Env.
Variable recipient : string -> result string.
Variable payment : string -> string -> Decimal -> result string.
Variable status : string -> result (string * option string).

Let env' : Env := with_plaid env recipient payment status.

Lemma generate_payslip_pdf_other_plaid (db db' : DB) (p : Payslip.t) (e : Employee.t) :
  same_but_payments db db' ->
  same_but_payments (fst (_generate_payslip_pdf env db p e))
                    (fst (_generate_payslip_pdf env' db' p e))
  /\ snd (_generate_payslip_pdf env' db' p e) = snd (_generate_payslip_pdf env db p e).
Proof.
  intros H.
  unfold _generate_payslip_pdf, pdf_service.generate_payslip_pdf,
    email_service.send_payslip_notification, env', with_plaid.
  cbn [build_payslip_pdf upload_payslip_pdf send_payslip_notification utcnow].
  destruct (build_payslip_pdf env p e) as [[]|x]; cbn [fst snd].
  2:{ split; [|reflexivity].
      apply add_log_same_but_payments_l, add_log_same_but_payments_r. assumption. }
  destruct (upload_payslip_pdf env p e) as [url|x]; cbn [fst snd].
  - destruct (send_payslip_notification env _ _ _ _); cbn [fst snd];
      (split; [|reflexivity]).
    + apply commit_payslip_same_but_payments; [assumption|reflexivity].
    + apply add_log_same_but_payments_l, add_log_same_but_payments_r.
      apply commit_payslip_same_but_payments; [assumption|reflexivity].
  - split; [|reflexivity].
    do 2 apply add_log_same_but_payments_l.
    do 2 apply add_log_same_but_payments_r. assumption.
Qed.

Lemma send_payment_same_but_payments (e0 : Env) (db : DB) (amount : Decimal)
    (employee_id : Z) (description : string) :
  same_but_payments db (fst (send_payment_via_plaid e0 db amount employee_id description))
  /\ exists pr, snd (send_payment_via_plaid e0 db amount employee_id description) = Ok pr.
Proof.
  destruct (send_payment_via_plaid_returns e0 db amount employee_id description)
    as (pr & Hpr & Hlog & _).
  split; [apply same_but_log_payments; exact Hlog|exists pr; exact Hpr].
Qed.

Lemma same_but_payments_trans (a b c : DB) :
  same_but_payments a b -> same_but_payments b c -> same_but_payments a c.
Proof.
  intros [S1 P1] [S2 P2]. split; [eapply same_other_tables_trans; eassumption|].
  congruence.
Qed.

Lemma same_but_payments_sym (a b : DB) :
  same_but_payments a b -> same_but_payments b a.
Proof.
  intros [(A1 & A2 & A3 & A4 & A5 & A6) P]. repeat split; congruence.
Qed.

Lemma process_payment_other_plaid (db db' : DB) (p : Payslip.t) (e : Employee.t) :
  same_but_payments db db' ->
  exists q q',
    snd (_process_payment env db p e) = Ok q
    /\ snd (_process_payment env' db' p e) = Ok q'
    /\ clear_payment q' = clear_payment q
    /\ same_but_payments (fst (_process_payment env db p e))
                         (fst (_process_payment env' db' p e)).
Proof.
  intros H. unfold _process_payment.
  destruct (send_payment_same_but_payments env db (Payslip.net_pay p)
              (Employee.id e) (payment_description env p)) as [H1 [pr Hpr]].
  destruct (send_payment_same_but_payments env' db' (Payslip.net_pay p)
              (Employee.id e) (payment_description env' p)) as [H2 [pr' Hpr']].
  destruct (send_payment_via_plaid env db _ _ _) as [d1 res1].
  destruct (send_payment_via_plaid env' db' _ _ _) as [d2 res2].
  cbn [fst snd] in *. subst res1 res2. cbn [fst snd].
  eexists. eexists. split; [reflexivity|]. split; [reflexivity|].
  split; [reflexivity|].
  apply commit_payslip_same_but_payments; [|reflexivity].
  eapply same_but_payments_trans; [apply same_but_payments_sym; exact H1|].
  eapply same_but_payments_trans; [exact H|exact H2].
Qed.

Lemma process_employee_other_plaid (db db' : DB) (e : Employee.t)
    (r : PayrollRun.t) (tc : TaxConfiguration.t) :
  same_but_payments db db' ->
  same_but_payments (fst (_process_employee_payroll env db e r tc))
                    (fst (_process_employee_payroll env' db' e r tc))
  /\ same_outcome (snd (_process_employee_payroll env db e r tc))
                  (snd (_process_employee_payroll env' db' e r tc)).
Proof.
  intros H. unfold _process_employee_payroll.
  rewrite (build_payslip_same_but_payments db db' e r tc H).
  destruct (build_payslip db e r tc) as [p0|x]; [|split; [exact H|reflexivity]].
  rewrite (refresh_payslip_engine db db' p0) by apply H.
  set (p := refresh_payslip db p0).
  assert (H0 : same_but_payments (with_payslips (payslips db ++ [p]) db)
                                 (with_payslips (payslips db' ++ [p]) db')).
  { destruct H as [Hsame Hps]. split; [exact Hsame|].
    cbn [payslips with_payslips]. rewrite !map_app, Hps. reflexivity. }
  destruct (generate_payslip_pdf_other_plaid _ _ p e H0) as [H1 Hp1].
  destruct (_generate_payslip_pdf env (with_payslips (payslips db ++ [p]) db) p e)
    as [d1 p1].
  destruct (_generate_payslip_pdf env' (with_payslips (payslips db' ++ [p]) db') p e)
    as [d1' p1'].
  cbn [fst snd] in H1, Hp1. subst p1'.
  destruct (truthy (Employee.bank_account_id e)).
  - destruct (process_payment_other_plaid d1 d1' p1 e H1) as (q & q' & E1 & E2 & Hq & Hd).
    destruct (_process_payment env d1 p1 e) as [d2 res].
    destruct (_process_payment env' d1' p1 e) as [d2' res'].
    cbn [fst snd] in *. subst res res'. split; [exact Hd|exact Hq].
  - cbn [fst snd]. split; [exact H1|reflexivity].
Qed.

Lemma process_employees_other_plaid (r : PayrollRun.t) (tc : TaxConfiguration.t)
    (emps : list Employee.t) :
  forall db db' totals,
    same_but_payments db db' ->
    same_but_payments (fst (process_employees env db emps r tc totals))
                      (fst (process_employees env' db' emps r tc totals))
    /\ snd (process_employees env' db' emps r tc totals)
       = snd (process_employees env db emps r tc totals).
Proof.
  induction emps as [|e emps IH]; intros db db' totals H; cbn [process_employees].
  - split; [exact H|reflexivity].
  - destruct (process_employee_other_plaid db db' e r tc H) as [Hd Ho].
    destruct (_process_employee_payroll env db e r tc) as [d1 [p|x]];
      destruct (_process_employee_payroll env' db' e r tc) as [d1' [p'|x']];
      cbn [fst snd same_outcome] in Hd, Ho; try contradiction.
    + destruct totals as [[tg tn] tt].
      rewrite (f_equal Payslip.gross_pay Ho : Payslip.gross_pay p' = Payslip.gross_pay p).
      rewrite (f_equal Payslip.net_pay Ho : Payslip.net_pay p' = Payslip.net_pay p).
      rewrite (f_equal Payslip.total_deductions Ho
               : Payslip.total_deductions p' = Payslip.total_deductions p).
      destruct (g <- Dec.add tg (Payslip.gross_pay p) ;;
                n <- Dec.add tn (Payslip.net_pay p) ;;
                x <- Dec.add tt (Payslip.total_deductions p) ;; Ok (g, n, x)).
      * apply IH. exact Hd.
      * split; [exact Hd|reflexivity].
    + subst x'. split; [exact Hd|reflexivity].
Qed.

Lemma update_run_same_but_payments (f : PayrollRun.t -> PayrollRun.t) (run_id : Z)
    (db db' : DB) :
  same_but_payments db db' ->
  same_but_payments (update_run f run_id db) (update_run f run_id db').
Proof.
  intros [(H1 & H2 & H3 & H4 & H5 & H6) Hps]. unfold update_run.
  split; [|exact Hps]. repeat split; cbn [payroll_runs with_payroll_runs employees
    tax_configurations timesheets bank_accounts column_round]; congruence.
Qed.

Lemma process_payroll_other_plaid (db : DB) (run_id : Z) :
  same_but_payments (fst (process_payroll env db run_id))
                    (fst (process_payroll env' db run_id))
  /\ snd (process_payroll env' db run_id) = snd (process_payroll env db run_id).
Proof.
  unfold process_payroll.
  destruct (scalar_one_or_none _) as [[r|]|x];
    try (split; [apply same_but_payments_refl|reflexivity]).
  unfold process_payroll_try.
  set (db1 := update_run (PayrollRun.set_status PROCESSING) run_id db).
  destruct (scalar_one_or_none (active_tax_configs db1 (PayrollRun.org_id r)))
    as [[tc|]|x];
    try (split; [apply same_but_payments_refl|reflexivity]).
  destruct (process_employees_other_plaid r tc
              (active_employees db1 (PayrollRun.org_id r)) db1 db1
              (Dec.zero, Dec.zero, Dec.zero) (same_but_payments_refl db1))
    as [Hd Hr].
  fold env'.
  destruct (process_employees env db1 _ r tc _) as [d2 res].
  destruct (process_employees env' db1 _ r tc _) as [d2' res'].
  cbn [fst snd] in Hd, Hr. subst res'.
  destruct res as [[[tg tn] tt]|x]; cbn [fst snd];
    [rewrite !(to_column_engine d2 d2') by apply Hd|];
    (split; [apply update_run_same_but_payments; exact Hd|reflexivity]).
Qed.

End OtherPlaidClient.

(** C8. A failing payment initiation is contained.  When the payment call
    for an employee fails (the Plaid attempt, made for the net pay of the
    stored payslip, raises [x] for any reason), the payment service logs the
    error and [_process_employee_payroll] still returns the payslip: its
    payment_status is "failed", its pay figures are those that were
    committed (the computed payslip as the database holds it), it is the one
    row appended to the table, and nothing is raised.  Whatever the Plaid client answers, [process_payroll]
    returns the same result and leaves the same run rows and the same
    payslips up to their payment fields. *)
Theorem payment_failure_is_contained (env : Env) :
  (forall db e r tc p x,
      build_payslip db e r tc = Ok p ->
      truthy (Employee.bank_account_id e) = true ->
      snd (send_payment_via_plaid_try env db
             (Payslip.net_pay (refresh_payslip db p)) (Employee.id e)
             (payment_description env p)) = Raise x ->
      exists db' p',
        _process_employee_payroll env db e r tc = (db', Ok p')
        /\ Payslip.payment_status p' = "failed"
        /\ pay_record p' = refresh_payslip db p
        /\ payslips db' = payslips db ++ [p']
        /\ In (LogError "backend.services.payment_service" "Plaid payment error" x)
              (log db'))
  /\ (forall db run_id recipient payment status,
        snd (process_payroll (with_plaid env recipient payment status) db run_id)
        = snd (process_payroll env db run_id)
        /\ same_but_payments
             (fst (process_payroll env db run_id))
             (fst (process_payroll (with_plaid env recipient payment status) db run_id))).
Proof.
  split.
  - intros db e r tc p x. apply failed_payment_is_recorded.
  - intros db run_id recipient payment status.
    destruct (process_payroll_other_plaid env recipient payment status db run_id)
      as [Hd Hr].
    split; assumption.
Qed.

Lemma payment_failure_is_contained_witness :
  exists db' p',
    _process_employee_payroll failing_payment_env (one_employee_db PENDING)
      banked_employee (example_run PENDING) column_tax_config = (db', Ok p')
    /\ Payslip.payment_status p' = "failed".
Proof.
  destruct (payment_failure_is_contained failing_payment_env) as [H _].
  edestruct (H (one_employee_db PENDING) banked_employee (example_run PENDING)
               column_tax_config) as (db' & p' & H1 & H2 & _).
  - vm_compute. reflexivity.
  - reflexivity.
  - vm_compute. reflexivity.
  - exists db', p'. split; assumption.
Defined.

(** With a Plaid client that refuses every payment the run still completes,
    with the totals of the run whose payments go through. *)
Example run_completes_when_payment_fails :
  snd (process_payroll failing_payment_env (one_employee_db PENDING) 10)
  = snd (process_payroll example_env (one_employee_db PENDING) 10)
  /\ run_status (fst (process_payroll failing_payment_env (one_employee_db PENDING) 10)) 10
     = Some COMPLETED
  /\ map Payslip.payment_status
         (payslips (fst (process_payroll failing_payment_env (one_employee_db PENDING) 10)))
     = ["failed"%string].
Proof. vm_compute. repeat split. Qed.

(** * Further properties of the embedded code *)

(** ** Estimated annual taxes *)

Lemma Dec_leb_cents_zero (m : Z) : Dec_leb (Dec.mk m (-2)) Dec.zero = (m <=? 0).
Proof.
  unfold Dec_leb, Dec.zero. rewrite ltb_int_cents.
  rewrite Z.leb_antisym. reflexivity.
Qed.

Lemma sub_exact_mk (ca cb e : Z) :
  Z.abs (ca - cb) < 10 ^ 28 -> -1000 <= e <= 1000 ->
  Dec.sub (Dec.mk ca e) (Dec.mk cb e) = Ok (Dec.mk (ca - cb) e).
Proof.
  intros Hc He. unfold Dec.sub, Dec.neg. cbn [Dec.coef Dec.exp].
  rewrite add_exact_mk by (rewrite ?Z.add_opp_r; assumption).
  rewrite Z.add_opp_r. reflexivity.
Qed.

Lemma loop_break (brackets : list (Decimal * Decimal)) (f prev : Decimal) (m : Z) :
  m <= 0 -> federal_tax_loop brackets f (Dec.mk m (-2)) prev = Ok f.
Proof.
  intros Hm. destruct brackets as [|[l r] rest]; cbn [federal_tax_loop];
    rewrite Dec_leb_cents_zero; destruct (Z.leb_spec m 0); try lia; reflexivity.
Qed.

(** One iteration over a bracket that the remaining income exceeds. *)
Lemma loop_full (limit prev rate : Z) (rest : list (Decimal * Decimal))
    (f e m : Z) :
  0 <= prev < limit -> limit <= 1000000 -> 0 <= rate <= 100 ->
  (e = 0 /\ f = 0) \/ e = -2 -> 0 <= f < 10 ^ 12 ->
  (limit - prev) * 100 < m -> m < 10 ^ 26 ->
  federal_tax_loop ((Dec.mk limit 0, Dec.mk rate (-2)) :: rest)
    (Dec.mk f e) (Dec.mk m (-2)) (Dec.mk prev 0)
  = federal_tax_loop rest (Dec.mk (f + (limit - prev) * rate) (-2))
      (Dec.mk (m - (limit - prev) * 100) (-2)) (Dec.mk limit 0).
Proof.
  intros Hl Hl' Hr He Hf Hm Hm'.
  cbn [federal_tax_loop].
  rewrite Dec_leb_cents_zero. destruct (Z.leb_spec m 0); [lia|].
  rewrite sub_exact_mk by dec_side. cbn [bind].
  unfold Dec.min. change (Dec.mk (limit - prev) 0) with (Dec.of_int (limit - prev)).
  rewrite ltb_int_cents. destruct (Z.ltb_spec ((limit - prev) * 100) m); [|lia].
  unfold Dec.of_int. rewrite mul_exact_mk by dec_side. cbn [bind].
  change (0 + -2) with (-2).
  assert (Hadd : Dec.add (Dec.mk f e) (Dec.mk ((limit - prev) * rate) (-2))
                 = Ok (Dec.mk (f + (limit - prev) * rate) (-2))).
  { destruct He as [[-> ->]| ->].
    - rewrite (add_exact_ge 0 0 _ (-2) 2) by dec_side. reflexivity.
    - rewrite add_exact_mk by dec_side. reflexivity. }
  rewrite Hadd. cbn [bind].
  unfold Dec.sub, Dec.neg. cbn [Dec.coef Dec.exp].
  rewrite (add_exact_le m (-2) (- (limit - prev)) 0 2) by dec_side. cbn [bind].
  pow_norm. f_equal. f_equal. lia.
Qed.

(** The iteration that uses up the remaining income, and the exit on the
    next one. *)
Lemma loop_last (limit prev rate : Z) (rest : list (Decimal * Decimal))
    (f e m : Z) :
  0 <= prev < limit -> limit <= 1000000 -> 0 <= rate <= 100 ->
  (e = 0 /\ f = 0) \/ e = -2 -> 0 <= f < 10 ^ 12 ->
  0 < m <= (limit - prev) * 100 ->
  federal_tax_loop ((Dec.mk limit 0, Dec.mk rate (-2)) :: rest)
    (Dec.mk f e) (Dec.mk m (-2)) (Dec.mk prev 0)
  = Ok (Dec.mk (f * 100 + m * rate) (-4)).
Proof.
  intros Hl Hl' Hr He Hf Hm.
  cbn [federal_tax_loop].
  rewrite Dec_leb_cents_zero. destruct (Z.leb_spec m 0); [lia|].
  rewrite sub_exact_mk by dec_side. cbn [bind].
  unfold Dec.min. change (Dec.mk (limit - prev) 0) with (Dec.of_int (limit - prev)).
  rewrite ltb_int_cents. destruct (Z.ltb_spec ((limit - prev) * 100) m); [lia|].
  rewrite mul_exact_mk by dec_side. cbn [bind].
  change (-2 + -2) with (-4).
  assert (Hadd : Dec.add (Dec.mk f e) (Dec.mk (m * rate) (-4))
                 = Ok (Dec.mk (f * 100 + m * rate) (-4))).
  { destruct He as [[-> ->]| ->].
    - rewrite (add_exact_ge 0 0 _ (-4) 4) by dec_side. reflexivity.
    - rewrite (add_exact_ge f (-2) _ (-4) 2) by dec_side. reflexivity. }
  rewrite Hadd. cbn [bind].
  rewrite sub_exact_mk by dec_side. cbn [bind].
  rewrite Z.sub_diag. apply loop_break. lia.
Qed.
Lemma federal_tax_loop_progressive (s : Z) :
  0 < s <= 57812500 ->
  federal_tax_loop federal_brackets Dec.zero (D s (-2)) Dec.zero
  = Ok (D (progressive_tax s) (-4)).
Proof.
  intros Hs. unfold federal_brackets, Dec.zero, Dec.of_int, D.
  unfold progressive_tax, bracket_part.
  destruct (Z.le_gt_cases s 1100000).
  { rewrite loop_last by dec_side. apply (f_equal (fun c => Ok (Dec.mk c (-4)))); lia. }
  rewrite loop_full by dec_side.
  destruct (Z.le_gt_cases s 4472500).
  { rewrite loop_last by dec_side. apply (f_equal (fun c => Ok (Dec.mk c (-4)))); lia. }
  rewrite loop_full by dec_side.
  destruct (Z.le_gt_cases s 9537500).
  { rewrite loop_last by dec_side. apply (f_equal (fun c => Ok (Dec.mk c (-4)))); lia. }
  rewrite loop_full by dec_side.
  destruct (Z.le_gt_cases s 18205000).
  { rewrite loop_last by dec_side. apply (f_equal (fun c => Ok (Dec.mk c (-4)))); lia. }
  rewrite loop_full by dec_side.
  destruct (Z.le_gt_cases s 23125000).
  { rewrite loop_last by dec_side. apply (f_equal (fun c => Ok (Dec.mk c (-4)))); lia. }
  rewrite loop_full by dec_side.
  rewrite loop_last by dec_side. apply (f_equal (fun c => Ok (Dec.mk c (-4)))); lia.
Qed.

Lemma federal_tax_loop_top_bracket (s : Z) :
  57812500 < s < 10 ^ 26 ->
  federal_tax_loop federal_brackets Dec.zero (D s (-2)) Dec.zero
  = Raise (TypeError "unsupported operand type(s) for -: 'float' and 'decimal.Decimal'").
Proof.
  intros Hs. unfold federal_brackets, Dec.zero, Dec.of_int, D.
  do 6 (rewrite loop_full by dec_side).
  cbn [federal_tax_loop]. rewrite Dec_leb_cents_zero.
  destruct (Z.leb_spec (s - (11000 - 0) * 100 - (44725 - 11000) * 100
                          - (95375 - 44725) * 100 - (182050 - 95375) * 100
                          - (231250 - 182050) * 100 - (578125 - 231250) * 100) 0);
    [lia|reflexivity].
Qed.
Lemma progressive_tax_bounds (s : Z) :
  0 <= s <= 57812500 -> 0 <= progressive_tax s <= 35 * s.
Proof. unfold progressive_tax, bracket_part. lia. Qed.

(** X1. Estimated annual taxes below the top bracket.  For an annual salary
    of [s] cents between 0 and 578125.00, [calculate_annual_taxes] returns,
    and its federal tax is the rounding to cents of the progressive bracket
    formula (each bracket's rate on the part of the salary inside it);
    social security is 6.2% of the salary capped at 160200 (9932.40 above
    it), medicare 1.45%, and the total is one rounding of the exact sum. *)
Theorem calculate_annual_taxes_brackets (s : Z) (tax_status : string) :
  0 <= s <= 57812500 ->
  calculate_annual_taxes (D s (-2)) tax_status
  = Ok (mkAnnualTaxes
          (D (Dec.round_half_even (progressive_tax s) 2) (-2))
          (D (if 16020000 <? s then 993240 else Dec.round_half_even (s * 62) 3) (-2))
          (D (Dec.round_half_even (s * 145) 4) (-2))
          (D (Dec.round_half_even
                (progressive_tax s * 100 + ss_micro s 620 + s * 145) 4) (-2))).
Proof.
  intros Hs.
  destruct (Z.eq_dec s 0) as [->|Hne]; [reflexivity|].
  pose proof (progressive_tax_bounds s Hs) as HP.
  assert (P28 : 10 ^ Dec.prec = 10000000000000000000000000000) by reflexivity.
  unfold calculate_annual_taxes.
  rewrite federal_tax_loop_progressive by lia. cbn [bind].
  unfold Dec.min, social_security_wage_base, D.
  rewrite ltb_int_cents. change (160200 * 100) with 16020000.
  unfold ss_micro, quantize_cents.
  destruct (Z.ltb_spec 16020000 s) as [Hcap|Hcap].
  - unfold Dec.of_int. rewrite mul_exact_mk by dec_side. cbn [bind].
    rewrite mul_exact_mk by dec_side. cbn [bind].
    rewrite (DecFacts.quantize_cents_exact (progressive_tax s) (-4))
      by (rewrite ?P28; lia).
    cbn [bind].
    rewrite (DecFacts.quantize_cents_exact (160200 * 62) (0 + -3))
      by (rewrite ?P28; lia).
    cbn [bind].
    rewrite (DecFacts.quantize_cents_exact (s * 145) (-2 + -4))
      by (rewrite ?P28; lia).
    cbn [bind].
    rewrite (add_exact_le (progressive_tax s) (-4) (160200 * 62) (0 + -3) 1)
      by dec_side.
    cbn [bind].
    rewrite (add_exact_ge _ (-4) (s * 145) (-2 + -4) 2) by dec_side.
    cbn [bind].
    rewrite (DecFacts.quantize_cents_exact _ (-2 + -4)) by (rewrite ?P28; dec_side).
    cbn [bind]. pow_norm.
    change (-2 - (0 + -3)) with 1. change (-2 - (-2 + -4)) with 4.
    change (-2 - -4) with 2.
    change (Dec.round_half_even (160200 * 62) 1) with 993240.
    do 3 f_equal. f_equal. f_equal. lia.
  - rewrite mul_exact_mk by dec_side. cbn [bind].
    rewrite mul_exact_mk by dec_side. cbn [bind].
    rewrite (DecFacts.quantize_cents_exact (progressive_tax s) (-4))
      by (rewrite ?P28; lia).
    cbn [bind].
    rewrite (DecFacts.quantize_cents_exact (s * 62) (-2 + -3))
      by (rewrite ?P28; lia).
    cbn [bind].
    rewrite (DecFacts.quantize_cents_exact (s * 145) (-2 + -4))
      by (rewrite ?P28; lia).
    cbn [bind].
    rewrite (add_exact_ge (progressive_tax s) (-4) (s * 62) (-2 + -3) 1)
      by dec_side.
    cbn [bind].
    rewrite (add_exact_ge _ (-2 + -3) (s * 145) (-2 + -4) 1) by dec_side.
    cbn [bind].
    rewrite (DecFacts.quantize_cents_exact _ (-2 + -4)) by (rewrite ?P28; dec_side).
    cbn [bind]. pow_norm.
    change (-2 - (-2 + -3)) with 3. change (-2 - (-2 + -4)) with 4.
    change (-2 - -4) with 2.
    do 3 f_equal. f_equal. f_equal. lia.
Qed.

Lemma calculate_annual_taxes_brackets_witness :
  calculate_annual_taxes (D 5000033 (-2)) "single"
  = Ok (mkAnnualTaxes (D 630757 (-2)) (D 310002 (-2)) (D 72500 (-2))
          (D 1013260 (-2))).
Proof. apply (calculate_annual_taxes_brackets 5000033 "single"); lia. Defined.

(** X2. Estimated annual taxes in the top bracket.  For every annual salary
    above 578125.00 the loop reaches the last bracket, whose limit is
    [float('inf')], and the subtraction of the previous Decimal limit from
    it raises TypeError: no estimate is returned. *)
Theorem calculate_annual_taxes_top_bracket (s : Z) (tax_status : string) :
  57812500 < s < 10 ^ 26 ->
  calculate_annual_taxes (D s (-2)) tax_status
  = Raise (TypeError "unsupported operand type(s) for -: 'float' and 'decimal.Decimal'").
Proof.
  intros Hs. unfold calculate_annual_taxes.
  rewrite federal_tax_loop_top_bracket by exact Hs. reflexivity.
Qed.

Lemma calculate_annual_taxes_top_bracket_witness :
  calculate_annual_taxes (D 60000000 (-2)) "single"
  = Raise (TypeError "unsupported operand type(s) for -: 'float' and 'decimal.Decimal'").
Proof. apply (calculate_annual_taxes_top_bracket 60000000 "single"); lia. Defined.

(** ** Consistency of one tax calculation *)

Lemma round_half_even_nonneg (c k : Z) :
  0 <= c -> 0 <= k -> 0 <= Dec.round_half_even c k.
Proof.
  intros Hc Hk.
  pose proof (DecFacts.round_half_even_spec c k Hk) as H.
  pose proof (DecFacts.pow10_pos k Hk) as Hp.
  destruct (Z.le_gt_cases 0 (Dec.round_half_even c k)) as [|Hneg]; [assumption|].
  exfalso. nia.
Qed.

(** X3. Consistency of a tax calculation.  For a gross pay of [g] cents
    below ten billion and rates in ten-thousandths between 0 and 1,
    [calculate_taxes] returns six amounts in cents: no deduction is
    negative; total deductions plus net pay differ from the gross pay by at
    most one cent; the four rounded deductions differ from the rounded total
    by at most two cents; social security never exceeds 160200 times its
    rate (plus the half cent of rounding); and the net pay is not negative
    when the four rates sum to at most 99.1%. *)
Theorem calculate_taxes_consistency
    (g rf rs rss rm : Z) (tax_config : TaxConfiguration.t) (employee : Employee.t) :
  0 <= g < 10 ^ 12 ->
  0 <= rf <= 10000 -> 0 <= rs <= 10000 -> 0 <= rss <= 10000 -> 0 <= rm <= 10000 ->
  TaxConfiguration.federal_tax_rate tax_config = D rf (-4) ->
  TaxConfiguration.state_tax_rate tax_config = D rs (-4) ->
  TaxConfiguration.social_security_rate tax_config = D rss (-4) ->
  TaxConfiguration.medicare_rate tax_config = D rm (-4) ->
  exists f s ss m t n,
    calculate_taxes (D g (-2)) tax_config employee
    = Ok (mkTaxCalculation (D f (-2)) (D s (-2)) (D ss (-2)) (D m (-2))
            (D t (-2)) (D n (-2)))
    /\ 0 <= f /\ 0 <= s /\ 0 <= ss /\ 0 <= m /\ 0 <= t
    /\ Z.abs (t + n - g) <= 1
    /\ Z.abs (f + s + ss + m - t) <= 2
    /\ 2 * ss <= 3204 * rss + 1
    /\ (rf + rs + rss + rm <= 9910 -> 0 <= n).
Proof.
  intros Hg Hrf Hrs Hrss Hrm Efed Estate Ess Emed.
  rewrite (calculate_taxes_column_domain g rf rs rss rm) by assumption.
  change (10 ^ 12) with 1000000000000 in Hg.
  assert (Hssm : 0 <= ss_micro g rss <= 16020000 * rss).
  { unfold ss_micro. destruct (Z.ltb_spec 16020000 g); nia. }
  assert (Hmd : 0 <= medicare_micro g rm <= (rm + 90) * g).
  { unfold medicare_micro. destruct (Z.ltb_spec 20000000 g); nia. }
  set (ss := if 16020000 <? g then Dec.round_half_even (160200 * rss) 2
             else Dec.round_half_even (g * rss) 4).
  assert (Hss : 2 * Z.abs (ss * 10000 - ss_micro g rss) <= 10000 /\ 0 <= ss).
  { unfold ss, ss_micro. destruct (Z.ltb_spec 16020000 g).
    - pose proof (DecFacts.round_half_even_spec (160200 * rss) 2 ltac:(lia)) as H1.
      pose proof (round_half_even_nonneg (160200 * rss) 2 ltac:(lia) ltac:(lia)).
      pow_norm. lia.
    - pose proof (DecFacts.round_half_even_spec (g * rss) 4 ltac:(lia)) as H1.
      pose proof (round_half_even_nonneg (g * rss) 4 ltac:(nia) ltac:(lia)).
      pow_norm. lia. }
  pose proof (DecFacts.round_half_even_spec (g * rf) 4 ltac:(lia)) as Hf.
  pose proof (DecFacts.round_half_even_spec (g * rs) 4 ltac:(lia)) as Hs.
  pose proof (DecFacts.round_half_even_spec (medicare_micro g rm) 4 ltac:(lia)) as Hm.
  pose proof (DecFacts.round_half_even_spec (total_micro g rf rs rss rm) 4 ltac:(lia))
    as Ht.
  pose proof (DecFacts.round_half_even_spec
                (g * 10000 - total_micro g rf rs rss rm) 4 ltac:(lia)) as Hn.
  pose proof (round_half_even_nonneg (g * rf) 4 ltac:(nia) ltac:(lia)) as Hf0.
  pose proof (round_half_even_nonneg (g * rs) 4 ltac:(nia) ltac:(lia)) as Hs0.
  pose proof (round_half_even_nonneg (medicare_micro g rm) 4 ltac:(lia) ltac:(lia))
    as Hm0.
  assert (Htm : total_micro g rf rs rss rm
                = g * rf + g * rs + ss_micro g rss + medicare_micro g rm)
    by reflexivity.
  assert (Hgf : 0 <= g * rf) by (apply Z.mul_nonneg_nonneg; lia).
  assert (Hgs : 0 <= g * rs) by (apply Z.mul_nonneg_nonneg; lia).
  pose proof (round_half_even_nonneg (total_micro g rf rs rss rm) 4
                ltac:(lia) ltac:(lia)) as Ht0.
  pow_norm.
  do 6 eexists. split; [reflexivity|].
  fold ss.
  repeat split; try assumption; try lia.
  intros Hsum.
  apply round_half_even_nonneg; [|lia].
  assert (Hcap : ss_micro g rss <= g * rss).
  { unfold ss_micro. destruct (Z.ltb_spec 16020000 g); [|lia].
    apply Z.mul_le_mono_nonneg_r; lia. }
  assert (Hrest : 0 <= g * (10000 - (rf + rs + rss + rm + 90)))
    by (apply Z.mul_nonneg_nonneg; lia).
  lia.
Qed.

Lemma calculate_taxes_consistency_witness :
  exists f s ss m t n,
    calculate_taxes (D 1 (-2)) column_tax_config (hourly_employee 7 None)
    = Ok (mkTaxCalculation (D f (-2)) (D s (-2)) (D ss (-2)) (D m (-2))
            (D t (-2)) (D n (-2)))
    /\ Z.abs (t + n - 1) <= 1.
Proof.
  destruct (calculate_taxes_consistency 1 2200 500 620 145 column_tax_config
              (hourly_employee 7 None))
    as (f & s & ss & m & t & n & H & _ & _ & _ & _ & _ & Hn & _);
    try reflexivity; try lia.
  exists f, s, ss, m, t, n. split; assumption.
Defined.

(** ** Payroll runs that complete *)

Lemma pay_figures_pay_record (p : Payslip.t) : pay_figures (pay_record p) = pay_figures p.
Proof. reflexivity. Qed.

Lemma pay_figures_fields (p q : Payslip.t) :
  pay_figures p = pay_figures q ->
  Payslip.gross_pay p = Payslip.gross_pay q
  /\ Payslip.net_pay p = Payslip.net_pay q
  /\ Payslip.total_deductions p = Payslip.total_deductions q
  /\ Payslip.employee_id p = Payslip.employee_id q.
Proof.
  intros H.
  repeat split.
  - exact (f_equal Payslip.gross_pay H).
  - exact (f_equal Payslip.net_pay H).
  - exact (f_equal Payslip.total_deductions H).
  - exact (f_equal Payslip.employee_id H).
Qed.

Lemma pay_figures_refresh (db db' : DB) (p q : Payslip.t) :
  column_round db' = column_round db ->
  pay_figures q = pay_figures p ->
  pay_figures (refresh_payslip db' q) = pay_figures (refresh_payslip db p).
Proof.
  intros He H. rewrite (refresh_payslip_engine db db' q He).
  change (refresh_payslip db (pay_figures q) = refresh_payslip db (pay_figures p)).
  rewrite H. reflexivity.
Qed.

(** The pay figures of an employee depend on the timesheets and on the key
    columns of the run only. *)
Lemma build_payslip_inputs (db db' : DB) (e : Employee.t) (r r' : PayrollRun.t)
    (tc : TaxConfiguration.t) :
  timesheets db' = timesheets db -> run_key r' = run_key r ->
  match build_payslip db e r tc, build_payslip db' e r' tc with
  | Ok p, Ok p' => pay_figures p' = pay_figures p
  | Raise x, Raise x' => x' = x
  | _, _ => False
  end.
Proof.
  intros Hts Hk. unfold run_key in Hk. injection Hk as Hid Horg Hs He Hd.
  unfold build_payslip. rewrite Hts.
  assert (Hel : eligible e r' = eligible e r).
  { unfold eligible. rewrite Hs, He. reflexivity. }
  rewrite Hel.
  destruct (aggregate_hours (filter (eligible e r) (timesheets db)) (Dec.zero, Dec.zero))
    as [hours|x]; cbn [bind]; [|reflexivity].
  assert (Hg : gross_pay_of e r' (fst hours) (snd hours)
               = gross_pay_of e r (fst hours) (snd hours)).
  { unfold gross_pay_of. rewrite Hs, He. reflexivity. }
  rewrite Hg.
  destruct (gross_pay_of e r (fst hours) (snd hours)) as [[[rp op] gp]|x];
    cbn [bind]; [|reflexivity].
  destruct (calculate_taxes gp tc e) as [t|x]; cbn [bind]; [|reflexivity].
  unfold pay_figures. cbn. rewrite Hid, Hs, He, Hd. reflexivity.
Qed.

(** One employee, two environments, two states and two versions of the run
    row: the same error, or payslips with the same pay figures. *)
Lemma process_employee_inputs (env env' : Env) (db db' : DB) (e : Employee.t)
    (r r' : PayrollRun.t) (tc : TaxConfiguration.t) :
  timesheets db' = timesheets db -> column_round db' = column_round db ->
  run_key r' = run_key r ->
  same_other_tables db (fst (_process_employee_payroll env db e r tc))
  /\ same_other_tables db' (fst (_process_employee_payroll env' db' e r' tc))
  /\ match snd (_process_employee_payroll env db e r tc),
           snd (_process_employee_payroll env' db' e r' tc) with
     | Ok p, Ok p' => pay_figures p' = pay_figures p
     | Raise x, Raise x' => x' = x
     | _, _ => False
     end.
Proof.
  intros Hts Heng Hk.
  pose proof (build_payslip_inputs db db' e r r' tc Hts Hk) as Hb.
  pose proof (process_employee_effect env db e r tc) as H1.
  pose proof (process_employee_effect env' db' e r' tc) as H2.
  destruct (build_payslip db e r tc) as [p|x];
    destruct (build_payslip db' e r' tc) as [q|y]; try contradiction.
  - destruct H1 as (db1 & p1 & -> & _ & Hr1 & Hs1).
    destruct H2 as (db2 & q1 & -> & _ & Hr2 & Hs2).
    cbn [fst snd].
    split; [exact Hs1|]. split; [exact Hs2|].
    rewrite <- (pay_figures_pay_record q1), <- (pay_figures_pay_record p1).
    rewrite Hr1, Hr2. apply pay_figures_refresh; assumption.
  - rewrite H1, H2. cbn [fst snd].
    split; [apply same_other_tables_refl|]. split; [apply same_other_tables_refl|].
    exact Hb.
Qed.

Lemma process_employees_inputs (env env' : Env) (r r' : PayrollRun.t)
    (tc : TaxConfiguration.t) (emps : list Employee.t) :
  run_key r' = run_key r ->
  forall db db' totals,
    timesheets db' = timesheets db ->
    column_round db' = column_round db ->
    snd (process_employees env' db' emps r' tc totals)
    = snd (process_employees env db emps r tc totals).
Proof.
  intros Hk. induction emps as [|e emps IH]; intros db db' totals Hts Heng;
    cbn [process_employees].
  - reflexivity.
  - destruct (process_employee_inputs env env' db db' e r r' tc Hts Heng Hk)
      as ((_ & _ & _ & T1 & _ & G1) & (_ & _ & _ & T2 & _ & G2) & Hout).
    destruct (_process_employee_payroll env db e r tc) as [db1 [p|x]];
      destruct (_process_employee_payroll env' db' e r' tc) as [db2 [q|y]];
      cbn [fst snd] in *; try contradiction.
    + destruct (pay_figures_fields _ _ Hout) as (-> & -> & -> & _).
      destruct totals as [[tg tn] tt].
      destruct (g <- Dec.add tg (Payslip.gross_pay p) ;;
                n <- Dec.add tn (Payslip.net_pay p) ;;
                x <- Dec.add tt (Payslip.total_deductions p) ;; Ok (g, n, x));
        [|reflexivity].
      apply IH; congruence.
    + subst y. reflexivity.
Qed.

Lemma process_payroll_try_inputs (env env' : Env) (db db' : DB) (r r' : PayrollRun.t) :
  employees db' = employees db ->
  tax_configurations db' = tax_configurations db ->
  timesheets db' = timesheets db ->
  column_round db' = column_round db ->
  run_key r' = run_key r ->
  snd (process_payroll_try env' db' r') = snd (process_payroll_try env db r).
Proof.
  intros He Htc Hts Heng Hk. pose proof Hk as Hk'.
  unfold run_key in Hk'. injection Hk' as Hid Horg _ _ _.
  unfold process_payroll_try, active_employees, active_tax_configs.
  rewrite He, Htc, Horg, Hid.
  destruct (scalar_one_or_none _) as [[tc|]|x]; try reflexivity.
  pose proof (process_employees_inputs env env' r r' tc
                (filter (fun e => (Employee.org_id e =? PayrollRun.org_id r)
                                  && Employee.is_active e) (employees db))
                Hk db db' (Dec.zero, Dec.zero, Dec.zero) Hts Heng) as H.
  destruct (process_employees env db _ r tc _) as [d1 [[[g n] x]|y]];
    destruct (process_employees env' db' _ r' tc _) as [d2 [[[g' n'] x']|y']];
    cbn [snd] in *; try discriminate.
  - injection H as -> -> ->. reflexivity.
  - injection H as ->. reflexivity.
Qed.
(** A loop that completes: one payslip per employee in loop order, each with
    the pay figures computed from the timesheets, and running totals that
    are the left-to-right sums of the payslips' amounts. *)
Lemma process_employees_totals (env : Env) (r : PayrollRun.t)
    (tc : TaxConfiguration.t) (emps : list Employee.t) :
  forall db totals db' totals',
    process_employees env db emps r tc totals = (db', Ok totals') ->
    exists created,
      payslips db' = payslips db ++ created
      /\ Forall2 (fun e p => exists q,
                              build_payslip db e r tc = Ok q
                              /\ pay_figures p = pay_figures (refresh_payslip db q))
                 emps created
      /\ sum_decimals (fst (fst totals)) (map Payslip.gross_pay created)
         = Ok (fst (fst totals'))
      /\ sum_decimals (snd (fst totals)) (map Payslip.net_pay created)
         = Ok (snd (fst totals'))
      /\ sum_decimals (snd totals) (map Payslip.total_deductions created)
         = Ok (snd totals').
Proof.
  induction emps as [|e emps IH]; intros db totals db' totals' H;
    cbn [process_employees] in H.
  - injection H as <- <-. exists []. rewrite app_nil_r.
    repeat split; auto.
  - pose proof (process_employee_effect env db e r tc) as He.
    destruct (build_payslip db e r tc) as [p|x] eqn:Hb.
    + destruct He as (db1 & p' & Hrun & Hps & Hrec & Hsame).
      rewrite Hrun in H.
      destruct totals as [[tg tn] tt].
      destruct (Dec.add tg (Payslip.gross_pay p')) as [g|] eqn:Eg;
        cbn [bind] in H; [|discriminate H].
      destruct (Dec.add tn (Payslip.net_pay p')) as [n|] eqn:En;
        cbn [bind] in H; [|discriminate H].
      destruct (Dec.add tt (Payslip.total_deductions p')) as [x|] eqn:Ex;
        cbn [bind] in H; [|discriminate H].
      destruct (IH _ _ _ _ H) as (created & Hps' & Hall & Sg & Sn & Sx).
      exists (p' :: created). rewrite Hps', Hps, <- app_assoc.
      split; [reflexivity|]. split.
      * constructor.
        -- exists p. split; [exact Hb|].
           rewrite <- Hrec. symmetry. apply pay_figures_pay_record.
        -- eapply Forall2_impl; [|exact Hall].
           intros e0 p0 (q & Hq & Hf).
           assert (Hts : timesheets db1 = timesheets db) by apply Hsame.
           assert (Heng : column_round db1 = column_round db) by apply Hsame.
           pose proof (build_payslip_inputs db db1 e0 r r tc Hts eq_refl) as Hi.
           rewrite Hq in Hi.
           destruct (build_payslip db e0 r tc) as [q0|]; [|contradiction].
           exists q0. split; [reflexivity|]. rewrite Hf.
           apply pay_figures_refresh; assumption.
      * cbn [map sum_decimals fst snd] in *.
        rewrite Eg, En, Ex. cbn [bind]. auto.
    + rewrite He in H. discriminate H.
Qed.

Lemma Forall2_length_eq (A B : Type) (R : A -> B -> Prop) (l : list A) (l' : list B) :
  Forall2 R l l' -> List.length l = List.length l'.
Proof. induction 1; cbn; congruence. Qed.

Lemma set_completed_processing (g n x : Decimal) (now : datetime) (r : PayrollRun.t) :
  PayrollRun.set_completed g n x now (PayrollRun.set_status PROCESSING r)
  = PayrollRun.set_completed g n x now r.
Proof. reflexivity. Qed.

Lemma process_payroll_ok_try (env : Env) (db : DB) (run_id : Z) (r : PayrollRun.t)
    (db' : DB) (s : Summary) :
  run_is db run_id r ->
  process_payroll env db run_id = (db', Ok s) ->
  process_payroll_try env (processing db run_id) r = (db', Ok s).
Proof.
  intros Hrun H.
  rewrite (process_payroll_unfold env db run_id r Hrun) in H.
  destruct (process_payroll_try env (processing db run_id) r) as [d [s0|x]];
    [exact H|discriminate H].
Qed.

(** What a try block that returns has done. *)
Lemma process_payroll_try_ok_inv (env : Env) (db : DB) (r : PayrollRun.t)
    (db' : DB) (s : Summary) :
  process_payroll_try env db r = (db', Ok s) ->
  exists tc dbl created,
    active_tax_configs db (PayrollRun.org_id r) = [tc]
    /\ process_employees env db (active_employees db (PayrollRun.org_id r)) r tc
         (Dec.zero, Dec.zero, Dec.zero)
       = (dbl, Ok (sum_total_gross_pay s, sum_total_net_pay s, sum_total_taxes s))
    /\ db' = update_run (PayrollRun.set_completed
                           (to_column db 2 (sum_total_gross_pay s))
                           (to_column db 2 (sum_total_net_pay s))
                           (to_column db 2 (sum_total_taxes s)) (utcnow env))
                        (PayrollRun.id r) dbl
    /\ same_other_tables db dbl
    /\ payslips dbl = payslips db ++ created
    /\ Forall2 (fun e p => exists q,
                            build_payslip db e r tc = Ok q
                            /\ pay_figures p = pay_figures (refresh_payslip db q))
               (active_employees db (PayrollRun.org_id r)) created
    /\ sum_payroll_run_id s = PayrollRun.id r
    /\ sum_status s = "completed"
    /\ sum_total_employees s = List.length created.
Proof.
  unfold process_payroll_try. intros H.
  destruct (active_tax_configs db (PayrollRun.org_id r)) as [|tc [|tc' l]] eqn:Htc;
    cbn [scalar_one_or_none] in H; try discriminate H.
  destruct (process_employees env db (active_employees db (PayrollRun.org_id r)) r tc
              (Dec.zero, Dec.zero, Dec.zero)) as [dbl [[[g n] x]|y]] eqn:Hloop;
    [|discriminate H].
  injection H as <- <-.
  destruct (process_employees_totals _ _ _ _ _ _ _ _ Hloop)
    as (created & Hps & Hall & _).
  destruct (process_employees_effect _ _ _ _ _ _ _ _ Hloop) as (Hsame & _).
  exists tc, dbl, created.
  cbn [sum_total_gross_pay sum_total_net_pay sum_total_taxes sum_total_employees
       sum_payroll_run_id sum_status].
  rewrite !(to_column_engine db dbl) by apply Hsame.
  repeat split; try apply Hsame; auto.
  exact (Forall2_length_eq _ _ _ _ _ Hall).
Qed.

Lemma Forall2_employee_ids (db : DB) (r : PayrollRun.t) (tc : TaxConfiguration.t)
    (emps : list Employee.t) (created : list Payslip.t) :
  Forall2 (fun e p => exists q,
                        build_payslip db e r tc = Ok q
                        /\ pay_figures p = pay_figures (refresh_payslip db q))
          emps created ->
  map Payslip.employee_id created = map Employee.id emps
  /\ Forall (fun p => Payslip.payroll_run_id p = PayrollRun.id r) created.
Proof.
  induction 1 as [|e p emps created (q & Hq & Hf) _ [IH1 IH2]]; cbn [map].
  - split; [reflexivity|constructor].
  - destruct (build_payslip_shape _ _ _ _ _ Hq) as (_ & _ & Hemp & Hrid).
    split.
    + rewrite IH1. f_equal.
      rewrite <- Hemp. exact (f_equal Payslip.employee_id Hf).
    + constructor; [|exact IH2].
      rewrite <- Hrid. exact (f_equal Payslip.payroll_run_id Hf).
Qed.

(** X4. A run that completes.  When [process_payroll] returns a summary
    for the run [r], exactly one payslip has been appended for each active
    employee of the run's organisation, in query order, each carrying the
    pay figures that [build_payslip] computes for that employee from the
    initial state as the database holds them, at the scale of their
    DECIMAL(_, 2) columns; the summary's three totals are the left-to-right
    Decimal sums of these stored gross pay, net pay and total deductions;
    the employee count is the number of payslips; and the run row is stored
    as completed with these totals, at the scale of its columns, and the
    processing time, every other table being unchanged. *)
Theorem process_payroll_completed (env : Env) (db : DB) (run_id : Z)
    (r : PayrollRun.t) (db' : DB) (s : Summary) :
  run_is db run_id r ->
  process_payroll env db run_id = (db', Ok s) ->
  exists tc created,
    active_tax_configs db (PayrollRun.org_id r) = [tc]
    /\ payslips db' = payslips db ++ created
    /\ Forall2 (fun e p => exists q,
                            build_payslip db e r tc = Ok q
                            /\ pay_figures p = pay_figures (refresh_payslip db q))
               (active_employees db (PayrollRun.org_id r)) created
    /\ Forall (fun p => Payslip.payroll_run_id p = run_id) created
    /\ sum_decimals Dec.zero (map Payslip.gross_pay created)
       = Ok (sum_total_gross_pay s)
    /\ sum_decimals Dec.zero (map Payslip.net_pay created)
       = Ok (sum_total_net_pay s)
    /\ sum_decimals Dec.zero (map Payslip.total_deductions created)
       = Ok (sum_total_taxes s)
    /\ sum_total_employees s = List.length created
    /\ sum_payroll_run_id s = run_id
    /\ sum_status s = "completed"
    /\ run_is db' run_id
         (PayrollRun.set_completed (to_column db 2 (sum_total_gross_pay s))
            (to_column db 2 (sum_total_net_pay s))
            (to_column db 2 (sum_total_taxes s)) (utcnow env) r)
    /\ same_other_tables
         (update_run (PayrollRun.set_completed
                        (to_column db 2 (sum_total_gross_pay s))
                        (to_column db 2 (sum_total_net_pay s))
                        (to_column db 2 (sum_total_taxes s)) (utcnow env))
                     run_id db) db'.
Proof.
  intros Hrun H.
  pose proof (run_is_id _ _ _ Hrun) as Hid.
  apply (process_payroll_ok_try env db run_id r db' s Hrun) in H.
  destruct (process_payroll_try_ok_inv _ _ _ _ _ H)
    as (tc & dbl & created & Htc & Hloop & Hdb' & Hsame & Hps & Hall & Sid & Sst & Sn).
  destruct (process_employees_totals _ _ _ _ _ _ _ _ Hloop)
    as (created' & Hps' & _ & Sg & Snet & Sx).
  assert (created' = created) as ->.
  { rewrite Hps in Hps'. exact (eq_sym (app_inv_head _ _ _ Hps')). }
  cbn [fst snd] in Sg, Snet, Sx.
  assert (Hall' : Forall2 (fun e p => exists q,
                                        build_payslip db e r tc = Ok q
                                        /\ pay_figures p
                                           = pay_figures (refresh_payslip db q))
                          (active_employees db (PayrollRun.org_id r)) created).
  { eapply Forall2_impl; [|exact Hall].
    intros e0 p0 (q & Hq & Hf).
    pose proof (build_payslip_inputs db (processing db run_id) e0 r r tc
                  eq_refl eq_refl) as Hi.
    rewrite Hq in Hi.
    destruct (build_payslip db e0 r tc) as [q0|]; [|contradiction].
    exists q0. split; [reflexivity|]. rewrite Hf.
    apply (pay_figures_refresh db (processing db run_id)); [reflexivity|exact Hi]. }
  destruct (Forall2_employee_ids _ _ _ _ _ Hall') as (_ & Hrid).
  rewrite Hid in Hrid, Sid, Hdb'.
  change (to_column (processing db run_id) 2) with (to_column db 2) in Hdb'.
  destruct Hsame as (Hruns & Hemp & Htax & Hts & Hbank & Heng).
  assert (Hr1 : run_is dbl run_id (PayrollRun.set_status PROCESSING r)).
  { unfold run_is. rewrite Hruns. apply run_is_update; [reflexivity|exact Hrun]. }
  exists tc, created.
  split; [exact Htc|]. split; [subst db'; exact Hps|].
  split; [exact Hall'|]. split; [exact Hrid|].
  split; [exact Sg|]. split; [exact Snet|]. split; [exact Sx|].
  split; [exact Sn|]. split; [exact Sid|]. split; [exact Sst|].
  subst db'. split.
  - rewrite <- set_completed_processing.
    apply run_is_update; [reflexivity|exact Hr1].
  - unfold same_other_tables, update_run. cbn [payroll_runs employees
      tax_configurations timesheets bank_accounts column_round with_payroll_runs].
    rewrite Hruns, Hemp, Htax, Hts, Hbank, Heng. cbn [payroll_runs employees
      tax_configurations timesheets bank_accounts column_round processing update_run
      with_payroll_runs].
    repeat split. rewrite map_map. apply map_ext. intros a.
    destruct (PayrollRun.id a =? run_id) eqn:Ea; [|rewrite Ea; reflexivity].
    assert (Eid : (PayrollRun.id (PayrollRun.set_status PROCESSING a) =? run_id) = true)
      by exact Ea.
    rewrite Eid. reflexivity.
Qed.

Lemma process_payroll_completed_witness :
  exists created,
    payslips (fst (process_payroll example_env two_hourly_db 10)) = created
    /\ sum_decimals Dec.zero (map Payslip.gross_pay created) = Ok (D 190000 (-2))
    /\ sum_decimals Dec.zero (map Payslip.net_pay created) = Ok (D 124165 (-2))
    /\ List.length created = 2%nat.
Proof.
  destruct (process_payroll_completed example_env two_hourly_db 10
              (example_run PENDING)
              (fst (process_payroll example_env two_hourly_db 10))
              two_hourly_summary)
    as (tc & created & _ & Hps & _ & _ & Sg & Sn & _ & Hlen & _).
  - reflexivity.
  - vm_compute. reflexivity.
  - exists created. split; [exact Hps|]. split; [exact Sg|]. split; [exact Sn|].
    symmetry. exact Hlen.
Defined.

(** X5. What a run's outcome depends on.  The summary returned by
    [process_payroll], or the exception it raises, is the same for any two
    states that agree on the runs, employees, tax configurations and
    timesheets, whatever the PDF service, the mailer, the Plaid client and
    the clock answer and whatever payslips, bank accounts and log records
    are stored, the engine's rounding being the same. *)
Theorem process_payroll_pay_inputs (env env' : Env) (db db' : DB) (run_id : Z) :
  same_pay_inputs db db' ->
  snd (process_payroll env' db' run_id) = snd (process_payroll env db run_id).
Proof.
  intros (Hruns & Hemp & Htax & Hts & Heng).
  unfold process_payroll. rewrite Hruns.
  destruct (scalar_one_or_none
              (filter (fun r => PayrollRun.id r =? run_id) (payroll_runs db)))
    as [[r|]|x]; try reflexivity.
  pose proof (process_payroll_try_inputs env env'
                (update_run (PayrollRun.set_status PROCESSING) run_id db)
                (update_run (PayrollRun.set_status PROCESSING) run_id db')
                r r Hemp Htax Hts Heng eq_refl) as H.
  destruct (process_payroll_try env _ r) as [d1 [s1|x1]];
    destruct (process_payroll_try env' _ r) as [d2 [s2|x2]];
    cbn [snd] in *; try discriminate; exact H.
Qed.

Lemma process_payroll_pay_inputs_witness :
  snd (process_payroll failing_payment_env
         unbanked_db
         10)
  = snd (process_payroll example_env (one_employee_db PENDING) 10).
Proof.
  apply (process_payroll_pay_inputs example_env failing_payment_env
           (one_employee_db PENDING)).
  repeat split.
Defined.
Lemma filter_all (A : Type) (f : A -> bool) (l : list A) :
  Forall (fun a => f a = true) l -> filter f l = l.
Proof.
  induction 1 as [|a l Ha _ IH]; cbn [filter]; [reflexivity|].
  rewrite Ha, IH. reflexivity.
Qed.

(** X6. Processing a completed run again.  After a call of
    [process_payroll] that returned a summary, a second call for the same
    run returns the same summary and appends a second payslip for every
    active employee: the run then has two more payslips per active employee
    than it had before the first call. *)
Theorem process_payroll_again (env : Env) (db : DB) (run_id : Z)
    (r : PayrollRun.t) (db1 : DB) (s : Summary) :
  run_is db run_id r ->
  process_payroll env db run_id = (db1, Ok s) ->
  exists db2 created,
    process_payroll env db1 run_id = (db2, Ok s)
    /\ payslips db2 = payslips db1 ++ created
    /\ map Payslip.employee_id created
       = map Employee.id (active_employees db (PayrollRun.org_id r))
    /\ Forall (fun p => Payslip.payroll_run_id p = run_id) created
    /\ List.length (payslips_of_run db2 run_id)
       = (List.length (payslips_of_run db run_id)
          + 2 * List.length (active_employees db (PayrollRun.org_id r)))%nat.
Proof.
  intros Hrun H.
  pose proof (run_is_id _ _ _ Hrun) as Hid.
  pose proof (process_payroll_ok_try env db run_id r db1 s Hrun H) as Htry.
  destruct (process_payroll_try_ok_inv _ _ _ _ _ Htry)
    as (tc & dbl & created1 & Htc & _ & Hdb1 & Hsame & Hps1 & Hall1 & _).
  destruct (Forall2_employee_ids _ _ _ _ _ Hall1) as (Hemp1 & Hrid1).
  destruct Hsame as (Hruns & Hemp & Htax & Hts & Hbank & Heng).
  change (to_column (processing db run_id) 2) with (to_column db 2) in Hdb1.
  set (r1 := PayrollRun.set_completed (to_column db 2 (sum_total_gross_pay s))
               (to_column db 2 (sum_total_net_pay s))
               (to_column db 2 (sum_total_taxes s)) (utcnow env) r).
  assert (Hrun1 : run_is db1 run_id r1).
  { subst db1 r1. rewrite Hid. rewrite <- set_completed_processing.
    apply run_is_update; [reflexivity|].
    unfold run_is. rewrite Hruns. apply run_is_update; [reflexivity|exact Hrun]. }
  assert (E1 : employees db1 = employees db) by (subst db1; exact Hemp).
  assert (T1 : tax_configurations db1 = tax_configurations db)
    by (subst db1; exact Htax).
  assert (S1 : timesheets db1 = timesheets db) by (subst db1; exact Hts).
  assert (P1 : payslips db1 = payslips db ++ created1) by (subst db1; exact Hps1).
  assert (G1 : column_round db1 = column_round db) by (subst db1; exact Heng).
  pose proof (process_payroll_try_inputs env env (processing db run_id)
                (processing db1 run_id) r r1 E1 T1 S1 G1 eq_refl) as Hsnd.
  rewrite Htry in Hsnd. cbn [snd] in Hsnd.
  destruct (process_payroll_try env (processing db1 run_id) r1) as [db2 res] eqn:Htry2.
  cbn [snd] in Hsnd. subst res.
  destruct (process_payroll_try_ok_inv _ _ _ _ _ Htry2)
    as (tc2 & dbl2 & created2 & _ & _ & Hdb2 & _ & Hps2 & Hall2 & _).
  destruct (Forall2_employee_ids _ _ _ _ _ Hall2) as (Hemp2 & Hrid2).
  change (PayrollRun.org_id r1) with (PayrollRun.org_id r) in Hemp2.
  change (PayrollRun.id r1) with (PayrollRun.id r) in Hrid2.
  change (payslips (processing db1 run_id)) with (payslips db1) in Hps2.
  change (payslips (processing db run_id)) with (payslips db) in P1.
  assert (Hact : active_employees (processing db1 run_id) (PayrollRun.org_id r)
                 = active_employees db (PayrollRun.org_id r)).
  { unfold active_employees. cbn [employees processing update_run with_payroll_runs].
    rewrite E1. reflexivity. }
  rewrite Hact in Hemp2. rewrite Hid in Hrid1, Hrid2.
  assert (P2 : payslips db2 = payslips db1 ++ created2) by (subst db2; exact Hps2).
  exists db2, created2.
  split.
  { rewrite (process_payroll_unfold env db1 run_id r1 Hrun1), Htry2. reflexivity. }
  split; [exact P2|]. split; [exact Hemp2|]. split; [exact Hrid2|].
  unfold payslips_of_run. rewrite P2, P1, !filter_app, !length_app.
  rewrite (filter_all _ _ created1), (filter_all _ _ created2).
  - rewrite <- (length_map Payslip.employee_id created1), Hemp1.
    rewrite <- (length_map Payslip.employee_id created2), Hemp2.
    change (active_employees (processing db run_id) (PayrollRun.org_id r))
      with (active_employees db (PayrollRun.org_id r)).
    rewrite !length_map. lia.
  - eapply Forall_impl; [|exact Hrid2]. intros p Hp. apply Z.eqb_eq. exact Hp.
  - eapply Forall_impl; [|exact Hrid1]. intros p Hp. apply Z.eqb_eq. exact Hp.
Qed.

Lemma process_payroll_again_witness :
  exists db2 created,
    process_payroll example_env
      (fst (process_payroll example_env two_hourly_db 10)) 10
    = (db2, Ok two_hourly_summary)
    /\ payslips db2
       = payslips (fst (process_payroll example_env two_hourly_db 10)) ++ created
    /\ map Payslip.employee_id created = [1; 2].
Proof.
  destruct (process_payroll_again example_env two_hourly_db 10 (example_run PENDING)
              (fst (process_payroll example_env two_hourly_db 10))
              two_hourly_summary)
    as (db2 & created & H & Hps & Hemp & _).
  - reflexivity.
  - vm_compute. reflexivity.
  - exists db2, created. split; [exact H|]. split; [exact Hps|exact Hemp].
Defined.

(** ** Entry points of payroll runs *)

Lemma filter_id_fresh (rows : list PayrollRun.t) :
  filter (fun r => PayrollRun.id r =? next_id (map PayrollRun.id rows)) rows = [].
Proof.
  assert (H : forall n, (forall x, In x (map PayrollRun.id rows) -> x < n) ->
                        filter (fun r => PayrollRun.id r =? n) rows = []).
  { induction rows as [|a rows IH]; intros n Hn; cbn [filter]; [reflexivity|].
    destruct (Z.eqb_spec (PayrollRun.id a) n) as [E|_].
    - specialize (Hn (PayrollRun.id a) (or_introl eq_refl)). lia.
    - apply IH. intros x Hx. apply Hn. right. exact Hx. }
  apply H. intros x Hx. apply next_id_fresh. exact Hx.
Qed.

(** X7. The service-level creation does not look for an existing run.  Two
    calls of [PayrollService.create_payroll_run] for the same organisation
    and period append two pending runs with distinct fresh keys, each found
    by its key; from then on the router's [create_payroll_run] for that
    period raises MultipleResultsFound instead of answering HTTP 400. *)
Theorem service_create_payroll_run_twice (db : DB) (org_id : Z)
    (pay_period_start pay_period_end pay_date : datetime) (by1 by2 : Z) :
  exists db1 run1 db2 run2,
    PayrollService.create_payroll_run db org_id pay_period_start pay_period_end
      pay_date by1 = (db1, run1)
    /\ PayrollService.create_payroll_run db1 org_id pay_period_start pay_period_end
         pay_date by2 = (db2, run2)
    /\ payroll_runs db2 = payroll_runs db ++ [run1; run2]
    /\ PayrollRun.id run1 < PayrollRun.id run2
    /\ PayrollRun.status run1 = PENDING /\ PayrollRun.status run2 = PENDING
    /\ run_is db2 (PayrollRun.id run1) run1
    /\ run_is db2 (PayrollRun.id run2) run2
    /\ forall (payroll_run : PayrollRunCreate) (u : UserInfo),
         in_groups "admin" u = true ->
         prc_org_id payroll_run = org_id ->
         prc_pay_period_start payroll_run = pay_period_start ->
         prc_pay_period_end payroll_run = pay_period_end ->
         create_payroll_run db2 payroll_run u = (db2, Raise MultipleResultsFound).
Proof.
  unfold PayrollService.create_payroll_run.
  set (run1 := PayrollRun.mk (next_id (map PayrollRun.id (payroll_runs db))) org_id
                 pay_period_start pay_period_end pay_date PENDING
                 (to_column db 2 Dec.zero) (to_column db 2 Dec.zero)
                 (to_column db 2 Dec.zero) (Some by1) None).
  set (db1 := with_payroll_runs (payroll_runs db ++ [run1]) db).
  set (run2 := PayrollRun.mk (next_id (map PayrollRun.id (payroll_runs db1))) org_id
                 pay_period_start pay_period_end pay_date PENDING
                 (to_column db1 2 Dec.zero) (to_column db1 2 Dec.zero)
                 (to_column db1 2 Dec.zero) (Some by2) None).
  exists db1, run1, (with_payroll_runs (payroll_runs db1 ++ [run2]) db1), run2.
  assert (Hlt : PayrollRun.id run1 < PayrollRun.id run2).
  { apply (next_id_fresh (map PayrollRun.id (payroll_runs db1))).
    apply in_map. cbn. apply in_or_app. right. left. reflexivity. }
  assert (Hrows : payroll_runs db1 ++ [run2] = payroll_runs db ++ [run1; run2]).
  { cbn [db1 payroll_runs with_payroll_runs]. rewrite <- app_assoc. reflexivity. }
  split; [reflexivity|]. split; [reflexivity|].
  split; [exact Hrows|]. split; [exact Hlt|].
  split; [reflexivity|]. split; [reflexivity|].
  cbn [payroll_runs with_payroll_runs]. split; [|split].
  - unfold run_is. cbn [payroll_runs with_payroll_runs]. rewrite Hrows.
    rewrite filter_app. cbn [PayrollRun.id run1]. rewrite filter_id_fresh.
    cbn [filter app]. fold run1.
    change (next_id (map PayrollRun.id (payroll_runs db))) with (PayrollRun.id run1).
    rewrite Z.eqb_refl.
    destruct (Z.eqb_spec (PayrollRun.id run2) (PayrollRun.id run1)); [lia|reflexivity].
  - unfold run_is. cbn [payroll_runs with_payroll_runs].
    rewrite filter_app. cbn [PayrollRun.id run2]. rewrite filter_id_fresh.
    cbn [filter app]. fold run2.
    change (next_id (map PayrollRun.id (payroll_runs db1))) with (PayrollRun.id run2).
    rewrite Z.eqb_refl. reflexivity.
  - intros payroll_run u Hadmin Horg Hs He.
    unfold create_payroll_run. rewrite Hadmin. cbn [negb].
    cbn [payroll_runs with_payroll_runs]. rewrite Hrows, filter_app.
    assert (H1 : same_period payroll_run run1 = true).
    { unfold same_period. cbn [run1 PayrollRun.org_id PayrollRun.pay_period_start
        PayrollRun.pay_period_end]. rewrite Horg, Hs, He, !Z.eqb_refl. reflexivity. }
    assert (H2 : same_period payroll_run run2 = true).
    { unfold same_period. cbn [run2 PayrollRun.org_id PayrollRun.pay_period_start
        PayrollRun.pay_period_end]. rewrite Horg, Hs, He, !Z.eqb_refl. reflexivity. }
    cbn [filter]. rewrite H1, H2.
    destruct (filter (same_period payroll_run) (payroll_runs db)) as [|a [|b l]];
      reflexivity.
Qed.

Lemma service_create_payroll_run_twice_witness :
  create_payroll_run
    (fst (PayrollService.create_payroll_run
            (fst (PayrollService.create_payroll_run empty_db
                    1 0 (13 * day) (16 * day) 7))
            1 0 (13 * day) (16 * day) 7))
    (mkPayrollRunCreate 1 0 (13 * day) (16 * day))
    (mkUserInfo "u-1" ["admin"] None)
  = (fst (PayrollService.create_payroll_run
            (fst (PayrollService.create_payroll_run empty_db
                    1 0 (13 * day) (16 * day) 7))
            1 0 (13 * day) (16 * day) 7),
     Raise MultipleResultsFound).
Proof.
  destruct (service_create_payroll_run_twice empty_db 1 0
              (13 * day) (16 * day) 7 7)
    as (db1 & run1 & db2 & run2 & H1 & H2 & _ & _ & _ & _ & _ & _ & H).
  rewrite H1. cbn [fst]. rewrite H2. cbn [fst].
  apply H; reflexivity.
Defined.

(** X8. Outcomes of the processing endpoint.  A caller outside the admin
    group gets HTTP 403 and nothing is read or written.  For an admin the
    state is the one [process_payroll] leaves and the answer is its summary,
    or HTTP 404 carrying the message of the ValueError it raised, or HTTP
    500 for any other exception.  An unknown run gives 404 with nothing
    written; a run whose organisation has no active tax configuration gives
    404 as well, with the run stored as failed. *)
Theorem process_payroll_run_outcomes (exn_text : Exn -> string) (env : Env) (db : DB)
    (run_id : Z) (u : UserInfo) :
  (in_groups "admin" u = false ->
     process_payroll_run exn_text env db run_id u
     = (db, Raise (HTTPException 403 "Only admins can process payroll")))
  /\ (in_groups "admin" u = true ->
        fst (process_payroll_run exn_text env db run_id u)
        = fst (process_payroll env db run_id)
        /\ ((exists s,
               snd (process_payroll env db run_id) = Ok s
               /\ snd (process_payroll_run exn_text env db run_id u) = Ok s)
            \/ (exists msg,
                  snd (process_payroll env db run_id) = Raise (ValueError msg)
                  /\ snd (process_payroll_run exn_text env db run_id u)
                     = Raise (HTTPException 404 msg))
            \/ (exists e,
                  snd (process_payroll env db run_id) = Raise e
                  /\ (forall msg, e <> ValueError msg)
                  /\ snd (process_payroll_run exn_text env db run_id u)
                     = Raise (HTTPException 500
                                ("Error processing payroll: " ++ exn_text e)))))
  /\ (in_groups "admin" u = true ->
        filter (fun r => PayrollRun.id r =? run_id) (payroll_runs db) = [] ->
        process_payroll_run exn_text env db run_id u
        = (db, Raise (HTTPException 404 "Payroll run not found")))
  /\ (forall r,
        in_groups "admin" u = true ->
        run_is db run_id r ->
        active_tax_configs db (PayrollRun.org_id r) = [] ->
        process_payroll_run exn_text env db run_id u
        = (update_run (PayrollRun.set_status FAILED) run_id db,
           Raise (HTTPException 404 "Tax configuration not found for organization"))).
Proof.
  unfold process_payroll_run.
  split; [intros ->; reflexivity|].
  split; [|split].
  - intros ->. cbn [negb].
    destruct (process_payroll env db run_id) as [db' [s|e]]; cbn [fst snd].
    + split; [reflexivity|]. left. exists s. split; reflexivity.
    + split; [destruct e; reflexivity|].
      destruct e as [msg| | | | | | | |]; [right; left; exists msg; split; reflexivity|..];
        right; right; eexists; (split; [reflexivity|]); (split; [discriminate|reflexivity]).
  - intros -> Hnone. cbn [negb]. unfold process_payroll. rewrite Hnone. reflexivity.
  - intros r -> Hrun Htc. cbn [negb].
    rewrite (process_payroll_unfold env db run_id r Hrun).
    unfold process_payroll_try.
    change (active_tax_configs (processing db run_id) (PayrollRun.org_id r))
      with (active_tax_configs db (PayrollRun.org_id r)).
    rewrite Htc. cbn [scalar_one_or_none].
    unfold processing. rewrite update_run_payroll_runs_twice. reflexivity.
Qed.

Lemma process_payroll_run_outcomes_witness :
  process_payroll_run (fun _ => "") example_env
    no_tax_configuration_db 10
    (mkUserInfo "u-1" ["admin"] None)
  = (update_run (PayrollRun.set_status FAILED) 10
       no_tax_configuration_db,
     Raise (HTTPException 404 "Tax configuration not found for organization")).
Proof.
  apply (proj2 (proj2 (proj2
           (process_payroll_run_outcomes (fun _ => "") example_env
              no_tax_configuration_db 10
              (mkUserInfo "u-1" ["admin"] None))))
           (example_run PENDING));
    reflexivity.
Defined.


(** ** Timesheet endpoints *)

Lemma filter_key_fresh (A : Type) (key : A -> Z) (rows : list A) :
  filter (fun r => key r =? next_id (map key rows)) rows = [].
Proof.
  assert (H : forall n, (forall x, In x (map key rows) -> x < n) ->
                        filter (fun r => key r =? n) rows = []).
  { induction rows as [|a rows IH]; intros n Hn; cbn [filter]; [reflexivity|].
    destruct (Z.eqb_spec (key a) n) as [E|_].
    - specialize (Hn (key a) (or_introl eq_refl)). lia.
    - apply IH. intros x Hx. apply Hn. right. exact Hx. }
  apply H. intros x Hx. apply next_id_fresh. exact Hx.
Qed.

Lemma scalar_one_or_none_some (A : Type) (rows : list A) (a : A) :
  scalar_one_or_none rows = Ok (Some a) -> rows = [a].
Proof.
  destruct rows as [|x [|y l]]; cbn; intros H; try discriminate H.
  injection H as ->. reflexivity.
Qed.

Lemma scalar_one_or_none_none (A : Type) (rows : list A) :
  scalar_one_or_none rows = Ok None -> rows = [].
Proof. destruct rows as [|x [|y l]]; cbn; intros H; try discriminate H; reflexivity. Qed.

(** What a successful [create_timesheet] has checked and written. *)
Lemma create_timesheet_inv (db db1 : DB) (timesheet : TimesheetCreate)
    (u : UserInfo) (row : Timesheet.t) :
  create_timesheet db timesheet u = (db1, Ok row) ->
  db1 = with_timesheets (timesheets db ++ [row]) db
  /\ Timesheet.id row = next_id (map Timesheet.id (timesheets db))
  /\ Timesheet.employee_id row = tc_employee_id timesheet
  /\ Timesheet.week_start_date row = tc_week_start_date timesheet
  /\ Timesheet.week_end_date row = tc_week_end_date timesheet
  /\ Timesheet.status row = TS_PENDING
  /\ filter (fun t => (Timesheet.employee_id t =? tc_employee_id timesheet)
                      && (Timesheet.week_start_date t =? tc_week_start_date timesheet))
            (timesheets db) = []
  /\ submitter_checked db timesheet u.
Proof.
  unfold create_timesheet, submitter_checked. intros H.
  match type of H with
  | (match ?m with Ok _ => _ | Raise _ => _ end) = _ =>
      destruct m as [row'|x] eqn:Hrow; [|discriminate H]
  end.
  injection H as <- <-.
  bind_inv Hrow.
  destruct x0 as [?|] eqn:Hex; [discriminate Hrow|].
  bind_inv Hrow. injection Hrow as <-.
  cbn [Timesheet.id Timesheet.employee_id Timesheet.week_start_date
       Timesheet.week_end_date Timesheet.status].
  assert (Hwho : x = tc_employee_id timesheet
                 /\ if in_groups "admin" u || in_groups "manager" u then
                      exists e, filter (fun e => Employee.id e =? tc_employee_id timesheet)
                                       (employees db) = [e]
                    else
                      exists e, filter (fun e => String.eqb (Employee.cognito_sub e) (sub u))
                                       (employees db) = [e]
                                /\ Employee.id e = tc_employee_id timesheet).
  { destruct (in_groups "admin" u || in_groups "manager" u).
    - bind_inv E.
      match type of E with
      | match ?o with Some _ => _ | None => _ end = _ =>
          destruct o as [emp|]; [|discriminate E]
      end.
      injection E as <-. split; [reflexivity|].
      exists emp. apply scalar_one_or_none_some. assumption.
    - bind_inv E.
      match type of E with
      | match ?o with Some _ => _ | None => _ end = _ =>
          destruct o as [emp|]; [|discriminate E]
      end.
      destruct (Z.eqb_spec (tc_employee_id timesheet) (Employee.id emp)) as [Eq|];
        cbn [negb] in E; [|discriminate E].
      injection E as <-. split; [symmetry; exact Eq|].
      exists emp. split; [|symmetry; exact Eq].
      apply scalar_one_or_none_some. assumption. }
  destruct Hwho as [-> Hwho].
  repeat split; try reflexivity; [|exact Hwho].
  apply scalar_one_or_none_none. assumption.
Qed.

Lemma filter_new_row (db : DB) (row : Timesheet.t) :
  Timesheet.id row = next_id (map Timesheet.id (timesheets db)) ->
  filter (fun t => Timesheet.id t =? Timesheet.id row) (timesheets db ++ [row]) = [row].
Proof.
  intros Hid. rewrite filter_app. cbn [filter]. rewrite Z.eqb_refl.
  rewrite Hid. rewrite (filter_key_fresh _ Timesheet.id). reflexivity.
Qed.

(** X9. Reading back a created timesheet.  After a successful
    [create_timesheet], [get_timesheet] with the new key returns the stored
    row to the same caller, provided the caller is not a manager or is not
    restricted to their own records (a member of the employee group who is
    not an admin). *)
Theorem create_timesheet_then_get (db db1 : DB) (timesheet : TimesheetCreate)
    (u : UserInfo) (row : Timesheet.t) :
  create_timesheet db timesheet u = (db1, Ok row) ->
  in_groups "manager" u = false \/ employee_only u = false ->
  get_timesheet db1 (Timesheet.id row) u = Ok row.
Proof.
  intros H Hu.
  destruct (create_timesheet_inv _ _ _ _ _ H)
    as (-> & Hid & Hemp & _ & _ & _ & _ & Hwho).
  unfold get_timesheet. cbn [timesheets employees with_timesheets].
  rewrite (filter_new_row db row Hid). cbn [scalar_one_or_none bind].
  destruct (employee_only u) eqn:Heo; [|reflexivity].
  destruct Hu as [Hm|Hne]; [|discriminate Hne].
  unfold employee_only in Heo. apply andb_true_iff in Heo. destruct Heo as [_ Hadm].
  apply negb_true_iff in Hadm.
  unfold submitter_checked in Hwho. rewrite Hadm, Hm in Hwho. cbn [orb] in Hwho.
  destruct Hwho as (e & -> & He). cbn [scalar_one_or_none bind].
  rewrite Hemp, He, Z.eqb_refl. reflexivity.
Qed.

Lemma create_timesheet_then_get_witness :
  get_timesheet
    (fst (create_timesheet (one_employee_db PENDING) (week_of 1 8 8 8 8 8 0 0)
            (mkUserInfo "sub" ["employee"] None)))
    1 (mkUserInfo "sub" ["employee"] None)
  = Ok forty_hour_row.
Proof.
  apply (create_timesheet_then_get (one_employee_db PENDING)
           (fst (create_timesheet (one_employee_db PENDING) (week_of 1 8 8 8 8 8 0 0)
                   (mkUserInfo "sub" ["employee"] None)))
           (week_of 1 8 8 8 8 8 0 0)
           (mkUserInfo "sub" ["employee"] None)
           forty_hour_row).
  - reflexivity.
  - left. reflexivity.
Defined.

(** X10. One timesheet per employee and week.  After a successful
    [create_timesheet], which appends exactly one pending row, every further
    request for the same employee and week start, by the same caller or by
    any caller entitled to submit for that employee, is answered with HTTP
    400 and writes nothing, whatever hours it carries. *)
Theorem create_timesheet_twice (db db1 : DB) (first second : TimesheetCreate)
    (u u' : UserInfo) (row : Timesheet.t) :
  create_timesheet db first u = (db1, Ok row) ->
  tc_employee_id second = tc_employee_id first ->
  tc_week_start_date second = tc_week_start_date first ->
  u' = u \/ submitter_checked db second u' ->
  create_timesheet db1 second u'
  = (db1, Raise (HTTPException 400 "Timesheet already exists for this week"))
  /\ timesheets db1 = timesheets db ++ [row]
  /\ Timesheet.status row = TS_PENDING.
Proof.
  intros H Hemp Hweek Hu.
  destruct (create_timesheet_inv _ _ _ _ _ H)
    as (-> & Hid & Hre & Hrs & _ & Hst & Hnone & Hwho).
  split; [|split; [reflexivity|exact Hst]].
  assert (Hwho' : submitter_checked db second u').
  { destruct Hu as [->|Hu]; [|exact Hu].
    unfold submitter_checked in *. rewrite Hemp. exact Hwho. }
  clear H Hu Hwho.
  unfold create_timesheet, submitter_checked in *.
  cbn [timesheets employees with_timesheets].
  assert (Hdup : scalar_one_or_none
                   (filter (fun t => (Timesheet.employee_id t =? tc_employee_id second)
                                     && (Timesheet.week_start_date t
                                         =? tc_week_start_date second))
                           (timesheets db ++ [row])) = Ok (Some row)).
  { rewrite filter_app, Hemp, Hweek, Hnone. cbn [filter app].
    rewrite Hre, Hrs, !Z.eqb_refl. reflexivity. }
  destruct (in_groups "admin" u' || in_groups "manager" u').
  - destruct Hwho' as (e & ->). cbn [scalar_one_or_none bind].
    rewrite Hdup. reflexivity.
  - destruct Hwho' as (e & -> & He). cbn [scalar_one_or_none bind].
    rewrite He, Z.eqb_refl. cbn [negb bind]. rewrite Hdup. reflexivity.
Qed.

Lemma create_timesheet_twice_witness :
  create_timesheet
    (fst (create_timesheet (one_employee_db PENDING) (week_of 1 8 8 8 8 8 0 0)
            (mkUserInfo "sub" ["employee"] None)))
    (week_of 1 10 10 10 10 10 0 0) (mkUserInfo "boss" ["manager"] None)
  = (fst (create_timesheet (one_employee_db PENDING) (week_of 1 8 8 8 8 8 0 0)
            (mkUserInfo "sub" ["employee"] None)),
     Raise (HTTPException 400 "Timesheet already exists for this week")).
Proof.
  apply (create_timesheet_twice (one_employee_db PENDING)
           (fst (create_timesheet (one_employee_db PENDING) (week_of 1 8 8 8 8 8 0 0)
                   (mkUserInfo "sub" ["employee"] None)))
           (week_of 1 8 8 8 8 8 0 0) (week_of 1 10 10 10 10 10 0 0)
           (mkUserInfo "sub" ["employee"] None) (mkUserInfo "boss" ["manager"] None)
           forty_hour_row).
  - reflexivity.
  - reflexivity.
  - reflexivity.
  - right. exists banked_employee. reflexivity.
Defined.

Lemma status_eqb_eq (a b : TimesheetStatus) :
  TimesheetStatus_eqb a b = true <-> a = b.
Proof. destruct a, b; cbn; split; intros H; try reflexivity; discriminate H. Qed.

(** What a successful approval has checked and written; a refused one
    writes nothing. *)
Lemma approve_timesheet_inv (db : DB) (timesheet_id : Z) (u : UserInfo) :
  match approve_timesheet db timesheet_id u with
  | (db', Ok row') =>
      in_groups "admin" u = true
      /\ exists t,
           filter (fun t => Timesheet.id t =? timesheet_id) (timesheets db) = [t]
           /\ Timesheet.status t = TS_PENDING
           /\ row' = timesheet_with_status TS_APPROVED t
           /\ db' = commit_timesheet row' db
  | (db', Raise _) => db' = db
  end.
Proof.
  unfold approve_timesheet.
  destruct (in_groups "admin" u); cbn [negb]; [|reflexivity].
  destruct (scalar_one_or_none _) as [[t|]|x] eqn:Hq; try reflexivity.
  destruct (TimesheetStatus_eqb (Timesheet.status t) TS_PENDING) eqn:Hst;
    cbn [negb]; [|reflexivity].
  split; [reflexivity|]. exists t.
  split; [apply scalar_one_or_none_some; exact Hq|].
  split; [apply status_eqb_eq; exact Hst|]. split; reflexivity.
Qed.

Lemma delete_timesheet_inv (db : DB) (timesheet_id : Z) (u : UserInfo) :
  match delete_timesheet db timesheet_id u with
  | (db', Ok _) =>
      exists t,
        filter (fun t => Timesheet.id t =? timesheet_id) (timesheets db) = [t]
        /\ Timesheet.status t <> TS_APPROVED
        /\ db' = with_timesheets
                   (filter (fun x => negb (Timesheet.id x =? timesheet_id))
                           (timesheets db)) db
        /\ (employee_only u = true ->
            exists e,
              filter (fun e => Employee.id e =? Timesheet.employee_id t) (employees db)
              = [e]
              /\ Employee.cognito_sub e = sub u)
  | (db', Raise _) => db' = db
  end.
Proof.
  unfold delete_timesheet.
  destruct (scalar_one_or_none _) as [[t|]|x] eqn:Hq; try reflexivity.
  apply scalar_one_or_none_some in Hq.
  assert (Hid : Timesheet.id t = timesheet_id).
  { assert (Hin : In t (filter (fun t => Timesheet.id t =? timesheet_id) (timesheets db)))
      by (rewrite Hq; left; reflexivity).
    apply filter_In in Hin. apply Z.eqb_eq. apply Hin. }
  destruct (TimesheetStatus_eqb (Timesheet.status t) TS_APPROVED) eqn:Hst;
    [reflexivity|].
  destruct (employee_only u).
  - destruct (scalar_one_or_none
                (filter (fun e => Employee.id e =? Timesheet.employee_id t)
                        (employees db))) as [[e|]|x] eqn:He;
      cbn [bind]; try reflexivity.
    destruct (String.eqb_spec (Employee.cognito_sub e) (sub u)) as [Hs|Hs];
      cbn [negb]; [|reflexivity].
    exists t. rewrite Hid. split; [exact Hq|]. split.
    { intros Ha. apply status_eqb_eq in Ha. congruence. }
    split; [reflexivity|].
    intros _. exists e. split; [apply scalar_one_or_none_some; exact He|exact Hs].
  - exists t. rewrite Hid. split; [exact Hq|]. split.
    { intros Ha. apply status_eqb_eq in Ha. congruence. }
    split; [reflexivity|]. intros Hf. discriminate Hf.
Qed.

(** Payroll reads approved timesheets only. *)
Lemma eligible_approved (e : Employee.t) (r : PayrollRun.t) (t : Timesheet.t) :
  eligible e r t = true -> Timesheet.status t = TS_APPROVED.
Proof. intros H. apply eligible_iff in H. apply H. Qed.

Lemma build_payslip_eligible (db db' : DB) (e : Employee.t) (r : PayrollRun.t)
    (tc : TaxConfiguration.t) :
  filter (eligible e r) (timesheets db') = filter (eligible e r) (timesheets db) ->
  payslips db' = payslips db ->
  build_payslip db' e r tc = build_payslip db e r tc.
Proof. intros Hf Hp. unfold build_payslip. rewrite Hf, Hp. reflexivity. Qed.

Lemma filter_filter_unique (t : Timesheet.t) (f : Timesheet.t -> bool)
    (timesheet_id : Z) (rows : list Timesheet.t) :
  filter (fun x => Timesheet.id x =? timesheet_id) rows = [t] ->
  f t = false ->
  filter f (filter (fun x => negb (Timesheet.id x =? timesheet_id)) rows)
  = filter f rows.
Proof.
  intros Hq Hf.
  assert (Hall : forall x, In x rows -> Timesheet.id x = timesheet_id -> x = t).
  { intros x Hx Hid.
    assert (Hin : In x (filter (fun x => Timesheet.id x =? timesheet_id) rows)).
    { apply filter_In. split; [exact Hx|apply Z.eqb_eq; exact Hid]. }
    rewrite Hq in Hin. destruct Hin as [<-|[]]. reflexivity. }
  clear Hq. induction rows as [|a rows IH]; cbn [filter]; [reflexivity|].
  assert (IH' : filter f (filter (fun x => negb (Timesheet.id x =? timesheet_id)) rows)
                = filter f rows).
  { apply IH. intros x Hx. apply Hall. right. exact Hx. }
  destruct (Z.eqb_spec (Timesheet.id a) timesheet_id) as [Ea|Ea]; cbn [negb filter].
  - rewrite (Hall a (or_introl eq_refl) Ea), Hf. exact IH'.
  - rewrite IH'. reflexivity.
Qed.

(** X11. Creating and deleting timesheets never changes pay.  Whatever
    the request and the caller, the payslip computed for any employee and
    run is the same before and after a call of [create_timesheet] or
    [delete_timesheet], and [delete_timesheet] leaves every approved
    timesheet in place. *)
Theorem timesheet_edits_keep_pay (db : DB) (e : Employee.t) (r : PayrollRun.t)
    (tc : TaxConfiguration.t) :
  (forall timesheet u,
      build_payslip (fst (create_timesheet db timesheet u)) e r tc
      = build_payslip db e r tc)
  /\ (forall timesheet_id u,
        build_payslip (fst (delete_timesheet db timesheet_id u)) e r tc
        = build_payslip db e r tc)
  /\ (forall timesheet_id u,
        filter (fun t => TimesheetStatus_eqb (Timesheet.status t) TS_APPROVED)
               (timesheets (fst (delete_timesheet db timesheet_id u)))
        = filter (fun t => TimesheetStatus_eqb (Timesheet.status t) TS_APPROVED)
                 (timesheets db)).
Proof.
  split; [|split].
  - intros timesheet u.
    destruct (create_timesheet db timesheet u) as [db1 [row|x]] eqn:H.
    + destruct (create_timesheet_inv _ _ _ _ _ H) as (-> & _ & _ & _ & _ & Hst & _).
      cbn [fst]. apply build_payslip_eligible; [|reflexivity].
      cbn [timesheets with_timesheets]. rewrite filter_app. cbn [filter].
      destruct (eligible e r row) eqn:El; [|apply app_nil_r].
      apply eligible_approved in El. congruence.
    + unfold create_timesheet in H.
      match type of H with
      | (match ?m with Ok _ => _ | Raise _ => _ end) = _ =>
          destruct m; [discriminate H|]
      end.
      injection H as <- _. reflexivity.
  - intros timesheet_id u.
    pose proof (delete_timesheet_inv db timesheet_id u) as H.
    destruct (delete_timesheet db timesheet_id u) as [db1 [msg|x]]; cbn [fst].
    + destruct H as (t & Hq & Hst & -> & _).
      apply build_payslip_eligible; [|reflexivity].
      cbn [timesheets with_timesheets].
      apply (filter_filter_unique t); [exact Hq|].
      destruct (eligible e r t) eqn:El; [|reflexivity].
      apply eligible_approved in El. contradiction.
    + subst db1. reflexivity.
  - intros timesheet_id u.
    pose proof (delete_timesheet_inv db timesheet_id u) as H.
    destruct (delete_timesheet db timesheet_id u) as [db1 [msg|x]]; cbn [fst].
    + destruct H as (t & Hq & Hst & -> & _).
      cbn [timesheets with_timesheets].
      apply (filter_filter_unique t); [exact Hq|].
      destruct (TimesheetStatus_eqb (Timesheet.status t) TS_APPROVED) eqn:El;
        [|reflexivity].
      apply status_eqb_eq in El. contradiction.
    + subst db1. reflexivity.
Qed.

Lemma map_replace_new_row (db : DB) (row row' : Timesheet.t) :
  Timesheet.id row = next_id (map Timesheet.id (timesheets db)) ->
  Timesheet.id row' = Timesheet.id row ->
  map (fun q => if Timesheet.id q =? Timesheet.id row' then row' else q)
      (timesheets db ++ [row])
  = timesheets db ++ [row'].
Proof.
  intros Hid Hid'. rewrite map_app. cbn [map]. rewrite Hid', Z.eqb_refl. f_equal.
  rewrite <- (map_id (timesheets db)) at 2. apply map_ext_in.
  intros a Ha.
  pose proof (next_id_fresh (map Timesheet.id (timesheets db)) (Timesheet.id a)
                (in_map Timesheet.id _ a Ha)) as Hlt.
  destruct (Z.eqb_spec (Timesheet.id a) (Timesheet.id row)); [lia|reflexivity].
Qed.

(** X12. From submission to payroll.  A timesheet just created is counted
    by no pay computation; once an admin approves it, it is the stored row
    with status approved, and it is counted for exactly the employees and
    runs whose key and pay period contain it.  An approved timesheet can be
    neither approved again nor deleted (HTTP 400 in both cases, nothing
    written). *)
Theorem create_then_approve (db db1 : DB) (timesheet : TimesheetCreate)
    (u a : UserInfo) (row : Timesheet.t) :
  create_timesheet db timesheet u = (db1, Ok row) ->
  in_groups "admin" a = true ->
  exists db2 row',
    approve_timesheet db1 (Timesheet.id row) a = (db2, Ok row')
    /\ row' = timesheet_with_status TS_APPROVED row
    /\ timesheets db2 = timesheets db ++ [row']
    /\ (forall e r,
          filter (eligible e r) (timesheets db1) = filter (eligible e r) (timesheets db))
    /\ (forall e r,
          filter (eligible e r) (timesheets db2)
          = filter (eligible e r) (timesheets db)
            ++ (if eligible e r row' then [row'] else []))
    /\ (forall e r,
          eligible e r row'
          = (tc_employee_id timesheet =? Employee.id e)
            && (tc_week_start_date timesheet >=? PayrollRun.pay_period_start r)
            && (tc_week_end_date timesheet <=? PayrollRun.pay_period_end r))
    /\ approve_timesheet db2 (Timesheet.id row) a
       = (db2, Raise (HTTPException 400 "Can only approve pending timesheets"))
    /\ forall u',
         delete_timesheet db2 (Timesheet.id row) u'
         = (db2, Raise (HTTPException 400 "Cannot delete approved timesheet")).
Proof.
  intros H Ha.
  destruct (create_timesheet_inv _ _ _ _ _ H)
    as (-> & Hid & Hemp & Hws & Hwe & Hst & _ & _).
  set (row' := timesheet_with_status TS_APPROVED row).
  assert (Hts2 : timesheets (commit_timesheet row'
                               (with_timesheets (timesheets db ++ [row]) db))
                 = timesheets db ++ [row']).
  { cbn [commit_timesheet timesheets with_timesheets].
    apply map_replace_new_row; [exact Hid|reflexivity]. }
  assert (Hq2 : filter (fun t => Timesheet.id t =? Timesheet.id row)
                       (timesheets db ++ [row']) = [row']).
  { rewrite filter_app. cbn [filter].
    change (Timesheet.id row') with (Timesheet.id row). rewrite Z.eqb_refl.
    rewrite Hid, (filter_key_fresh _ Timesheet.id). reflexivity. }
  exists (commit_timesheet row' (with_timesheets (timesheets db ++ [row]) db)), row'.
  split.
  { unfold approve_timesheet. rewrite Ha. cbn [negb timesheets with_timesheets].
    rewrite (filter_new_row db row Hid). cbn [scalar_one_or_none].
    rewrite Hst. reflexivity. }
  split; [reflexivity|]. split; [exact Hts2|]. split.
  { intros e r. cbn [timesheets with_timesheets]. rewrite filter_app. cbn [filter].
    destruct (eligible e r row) eqn:El; [|apply app_nil_r].
    apply eligible_approved in El. congruence. }
  split.
  { intros e r. rewrite Hts2, filter_app. cbn [filter].
    destruct (eligible e r row'); reflexivity. }
  split.
  { intros e r. unfold eligible. cbn [row' timesheet_with_status Timesheet.status
      Timesheet.employee_id Timesheet.week_start_date Timesheet.week_end_date
      TimesheetStatus_eqb].
    rewrite Hemp, Hws, Hwe, andb_true_r. reflexivity. }
  split.
  { unfold approve_timesheet. rewrite Ha. cbn [negb]. rewrite Hts2, Hq2.
    reflexivity. }
  intros u'. unfold delete_timesheet. rewrite Hts2, Hq2. reflexivity.
Qed.

Lemma create_then_approve_witness :
  exists db2 row',
    approve_timesheet
      (fst (create_timesheet (one_employee_db PENDING) (week_of 1 10 10 10 10 10 0 0)
              (mkUserInfo "sub" ["employee"] None)))
      1 (mkUserInfo "boss" ["admin"] None) = (db2, Ok row')
    /\ Timesheet.status row' = TS_APPROVED
    /\ filter (eligible banked_employee (example_run PENDING)) (timesheets db2) = [row'].
Proof.
  destruct (create_then_approve (one_employee_db PENDING)
              (fst (create_timesheet (one_employee_db PENDING)
                      (week_of 1 10 10 10 10 10 0 0)
                      (mkUserInfo "sub" ["employee"] None)))
              (week_of 1 10 10 10 10 10 0 0)
              (mkUserInfo "sub" ["employee"] None) (mkUserInfo "boss" ["admin"] None)
              fifty_hour_row)
    as (db2 & row' & Happ & Hrow & _ & _ & Hel & _).
  - reflexivity.
  - reflexivity.
  - exists db2, row'. split; [exact Happ|]. split; [rewrite Hrow; reflexivity|].
    rewrite (Hel banked_employee (example_run PENDING)), Hrow. reflexivity.
Defined.

(** X13. What a deletion removes.  When [delete_timesheet] succeeds, the
    key denoted exactly one timesheet, which was not approved; exactly the
    rows of that key are gone and nothing else changed; a caller restricted
    to their own records is the employee the timesheet belonged to; and
    reading or deleting the key again gives HTTP 404.  When it fails,
    nothing is written. *)
Theorem delete_timesheet_outcome (db : DB) (timesheet_id : Z) (u : UserInfo) :
  match delete_timesheet db timesheet_id u with
  | (db', Ok _) =>
      exists t,
        filter (fun t => Timesheet.id t =? timesheet_id) (timesheets db) = [t]
        /\ Timesheet.status t <> TS_APPROVED
        /\ timesheets db'
           = filter (fun x => negb (Timesheet.id x =? timesheet_id)) (timesheets db)
        /\ same_but_timesheets db db'
        /\ (employee_only u = true ->
            exists e,
              filter (fun e => Employee.id e =? Timesheet.employee_id t) (employees db)
              = [e]
              /\ Employee.cognito_sub e = sub u)
        /\ (forall u', get_timesheet db' timesheet_id u'
                       = Raise (HTTPException 404 "Timesheet not found"))
        /\ (forall u', delete_timesheet db' timesheet_id u'
                       = (db', Raise (HTTPException 404 "Timesheet not found")))
  | (db', Raise _) => db' = db
  end.
Proof.
  pose proof (delete_timesheet_inv db timesheet_id u) as H.
  destruct (delete_timesheet db timesheet_id u) as [db' [msg|x]]; [|exact H].
  destruct H as (t & Hq & Hst & -> & Hown).
  assert (Hgone : filter (fun t => Timesheet.id t =? timesheet_id)
                    (filter (fun x => negb (Timesheet.id x =? timesheet_id))
                            (timesheets db)) = []).
  { clear Hq. induction (timesheets db) as [|a l IH]; cbn [filter]; [reflexivity|].
    destruct (Timesheet.id a =? timesheet_id) eqn:Ea; cbn [negb filter];
      [exact IH|rewrite Ea; exact IH]. }
  exists t. split; [exact Hq|]. split; [exact Hst|]. split; [reflexivity|].
  split; [repeat split|]. split; [exact Hown|]. split.
  - intros u'. unfold get_timesheet. cbn [timesheets with_timesheets].
    rewrite Hgone. reflexivity.
  - intros u'. unfold delete_timesheet. cbn [timesheets with_timesheets].
    rewrite Hgone. reflexivity.
Qed.

(** X14. The per-timesheet pay has no overtime premium.  For an hourly
    employee with rate [rt] cents and a timesheet of [h] hundredths of an
    hour of which [o] are overtime, the timesheet endpoints take
    [h * rt] as gross pay, while the payroll run computes for the same
    single timesheet regular pay on [h - o], overtime pay at 1.5 times the
    rate on [o], and a gross pay that is larger by exactly half the rate
    times the overtime hours. *)
Theorem timesheet_pay_without_overtime_premium (e : Employee.t) (r : PayrollRun.t)
    (t : Timesheet.t) (h o rt : Z) :
  Employee.salary_type e = HOURLY ->
  Employee.hourly_rate e = Some (D rt (-2)) -> 0 < rt < 10 ^ 6 ->
  Timesheet.total_hours t = D h (-2) ->
  Timesheet.overtime_hours t = D o (-2) ->
  0 <= o <= h -> h < 100000 ->
  timesheet_gross_pay e t = Ok (D (h * rt) (-4))
  /\ exists gross,
       (rh <- aggregate_hours [t] (Dec.zero, Dec.zero) ;;
        gross_pay_of e r (fst rh) (snd rh))
       = Ok (D ((h - o) * rt) (-4), D (o * rt * 15) (-5), D gross (-5))
       /\ gross - 10 * (h * rt) = 5 * (o * rt).
Proof.
  intros Hty Hrate Hrt Hh Ho Hoh Hhb.
  change (10 ^ 6) with 1000000 in Hrt.
  split.
  - unfold timesheet_gross_pay, Dec_truthy. rewrite Hrate, Hh.
    cbn [D Dec.coef]. destruct (Z.eqb_spec rt 0) as [|_]; [lia|]. cbn [negb].
    unfold D. rewrite mul_exact_mk by dec_side. reflexivity.
  - exists ((h - o) * rt * 10 + o * rt * 15).
    rewrite aggregate_hours_columns_from_zero.
    + cbn [bind fst snd sum_regular_hundredths sum_overtime_hundredths fold_right].
      rewrite Hh, Ho. cbn [D Dec.coef]. rewrite !Z.add_0_r.
      rewrite (gross_pay_of_hourly_exact e r (h - o) o rt Hty Hrate)
        by (change (10 ^ 6) with 1000000; change (10 ^ 10) with 10000000000; lia).
      split; [reflexivity|ring].
    + discriminate.
    + constructor; [|constructor]. unfold column_timesheet, hours_column.
      rewrite Hh, Ho. cbn [D Dec.coef Dec.exp]. repeat split; lia.
    + change (10 ^ 20) with 100000000000000000000. cbn [List.length]. lia.
Qed.

Lemma timesheet_pay_without_overtime_premium_witness :
  timesheet_gross_pay (paid_hourly 1) (week_timesheet 1 1 0 TS_APPROVED 10)
  = Ok (D 10000000 (-4))
  /\ exists gross,
       (rh <- aggregate_hours [week_timesheet 1 1 0 TS_APPROVED 10]
                (Dec.zero, Dec.zero) ;;
        gross_pay_of (paid_hourly 1) (example_run PENDING) (fst rh) (snd rh))
       = Ok (D 8000000 (-4), D 30000000 (-5), D gross (-5))
       /\ gross - 10 * 10000000 = 5 * 2000000.
Proof.
  apply (timesheet_pay_without_overtime_premium (paid_hourly 1) (example_run PENDING)
           (week_timesheet 1 1 0 TS_APPROVED 10) 5000 1000 2000);
    try reflexivity; lia.
Defined.

Lemma filter_id_up_to_status (timesheet_id : Z) (l : list Timesheet.t) :
  forall l',
    map (timesheet_with_status TS_PENDING) l' = map (timesheet_with_status TS_PENDING) l ->
    map (timesheet_with_status TS_PENDING)
        (filter (fun t => Timesheet.id t =? timesheet_id) l')
    = map (timesheet_with_status TS_PENDING)
          (filter (fun t => Timesheet.id t =? timesheet_id) l).
Proof.
  induction l as [|a l IH]; intros [|a' l'] H; cbn [map] in H; try discriminate H.
  - reflexivity.
  - apply cons_eq in H. destruct H as [Ha Hl].
    cbn [filter].
    assert (Hid : Timesheet.id a' = Timesheet.id a)
      by exact (f_equal Timesheet.id Ha).
    rewrite Hid. destruct (Timesheet.id a =? timesheet_id); cbn [map];
      rewrite (IH l' Hl); [rewrite Ha|]; reflexivity.
Qed.

Lemma timesheet_taxes_up_to_status (db db' : DB) (timesheet_id : Z) :
  same_up_to_status db db' ->
  timesheet_taxes db' timesheet_id = timesheet_taxes db timesheet_id.
Proof.
  intros ((_ & He & Htc & _) & Hts).
  pose proof (filter_id_up_to_status timesheet_id _ _ Hts) as Hf.
  unfold timesheet_taxes, active_tax_configs. rewrite He, Htc.
  destruct (filter (fun t => Timesheet.id t =? timesheet_id) (timesheets db))
    as [|t [|t2 l]];
    destruct (filter (fun t => Timesheet.id t =? timesheet_id) (timesheets db'))
    as [|t' [|t2' l']]; cbn [map] in Hf; try discriminate Hf; try reflexivity.
  apply cons_eq in Hf. destruct Hf as [Ht _].
  cbn [scalar_one_or_none bind].
  assert (Hemp : Timesheet.employee_id t' = Timesheet.employee_id t)
    by exact (f_equal Timesheet.employee_id Ht).
  assert (Hh : Timesheet.total_hours t' = Timesheet.total_hours t)
    by exact (f_equal Timesheet.total_hours Ht).
  rewrite Hemp. unfold timesheet_gross_pay. rewrite Hh. reflexivity.
Qed.

(** X15. Paying a timesheet does not look at its status and records
    nothing.  For two states that differ only in timesheet statuses,
    [pay_timesheet] gives the same answer and [calculate_taxes_for_timesheet]
    the same taxes; and [pay_timesheet] leaves every table as it was. *)
Theorem pay_timesheet_ignores_status (env : Env) (db db' : DB) (timesheet_id : Z)
    (u : UserInfo) :
  same_up_to_status db db' ->
  snd (pay_timesheet env db' timesheet_id u) = snd (pay_timesheet env db timesheet_id u)
  /\ calculate_taxes_for_timesheet db' timesheet_id u
     = calculate_taxes_for_timesheet db timesheet_id u
  /\ same_other_tables db (fst (pay_timesheet env db timesheet_id u))
  /\ payslips (fst (pay_timesheet env db timesheet_id u)) = payslips db.
Proof.
  intros Hs. pose proof (timesheet_taxes_up_to_status db db' timesheet_id Hs) as Ht.
  destruct Hs as ((_ & He & _ & _ & Hb & _) & _).
  unfold pay_timesheet, calculate_taxes_for_timesheet. rewrite Ht.
  split; [|split; [reflexivity|]].
  - destruct (negb (in_groups "admin" u) && negb (in_groups "manager" u));
      [reflexivity|].
    destruct (timesheet_taxes db timesheet_id) as [[e taxes]|x]; [|reflexivity].
    apply send_payment_via_plaid_inputs; assumption.
  - destruct (negb (in_groups "admin" u) && negb (in_groups "manager" u));
      [split; [apply same_other_tables_refl|reflexivity]|].
    destruct (timesheet_taxes db timesheet_id) as [[e taxes]|x];
      [|split; [apply same_other_tables_refl|reflexivity]].
    match goal with |- context [send_payment_via_plaid ?a ?b ?c ?d ?f] =>
      destruct (send_payment_via_plaid_returns a b c d f) as (pr & _ & Hlog & _) end.
    exact Hlog.
Qed.

Lemma pay_timesheet_ignores_status_witness :
  snd (pay_timesheet example_env (one_week_db TS_REJECTED) 1
         (mkUserInfo "boss" ["manager"] None))
  = snd (pay_timesheet example_env (one_week_db TS_APPROVED) 1
           (mkUserInfo "boss" ["manager"] None)).
Proof.
  apply (pay_timesheet_ignores_status example_env (one_week_db TS_APPROVED)
           (one_week_db TS_REJECTED) 1 (mkUserInfo "boss" ["manager"] None)).
  repeat split.
Defined.


(** ** Edge cases of the pay computation and of timesheet hours *)

(** X16. No approved timesheet in the period.  An hourly employee with an
    hourly rate and no eligible timesheet is not skipped: [build_payslip]
    returns a payslip for them with zero hours, zero regular, overtime and
    gross pay, and every deduction and the net pay equal to 0.00, whatever
    the tax rates. *)
Theorem build_payslip_without_timesheets (db : DB) (e : Employee.t)
    (r : PayrollRun.t) (tc : TaxConfiguration.t) (rt rf rs rss rm : Z) :
  Employee.salary_type e = HOURLY ->
  Employee.hourly_rate e = Some (D rt (-2)) ->
  filter (eligible e r) (timesheets db) = [] ->
  TaxConfiguration.federal_tax_rate tc = D rf (-4) ->
  TaxConfiguration.state_tax_rate tc = D rs (-4) ->
  TaxConfiguration.social_security_rate tc = D rss (-4) ->
  TaxConfiguration.medicare_rate tc = D rm (-4) ->
  exists p,
    build_payslip db e r tc = Ok p
    /\ Payslip.regular_hours p = Dec.zero /\ Payslip.overtime_hours p = Dec.zero
    /\ Payslip.regular_pay p = D 0 (-2) /\ Payslip.overtime_pay p = D 0 (-3)
    /\ Payslip.gross_pay p = D 0 (-3)
    /\ Payslip.federal_tax p = D 0 (-2) /\ Payslip.state_tax p = D 0 (-2)
    /\ Payslip.social_security p = D 0 (-2) /\ Payslip.medicare p = D 0 (-2)
    /\ Payslip.total_deductions p = D 0 (-2) /\ Payslip.net_pay p = D 0 (-2)
    /\ Payslip.employee_id p = Employee.id e
    /\ Payslip.payment_status p = "pending".
Proof.
  intros Hty Hrate Hnone Hf Hs Hss Hm.
  unfold build_payslip. rewrite Hnone. cbn [aggregate_hours bind fst snd].
  unfold gross_pay_of. rewrite Hty, Hrate.
  change (Dec.mul Dec.zero (D rt (-2))) with (Ok (D 0 (-2)) : result Decimal).
  cbn [bind].
  change (Dec.mul (D 0 (-2)) (D 15 (-1))) with (Ok (D 0 (-3)) : result Decimal).
  cbn [bind fst snd].
  change (Dec.add (D 0 (-2)) (D 0 (-3))) with (Ok (D 0 (-3)) : result Decimal).
  cbn [bind].
  assert (Ht : calculate_taxes (D 0 (-3)) tc e
               = Ok (mkTaxCalculation (D 0 (-2)) (D 0 (-2)) (D 0 (-2)) (D 0 (-2))
                       (D 0 (-2)) (D 0 (-2)))).
  { unfold calculate_taxes, unrounded_taxes. rewrite Hf, Hs, Hss, Hm.
    reflexivity. }
  rewrite Ht. cbn [bind]. eexists. split; [reflexivity|].
  cbn. repeat split.
Qed.

Lemma build_payslip_without_timesheets_witness :
  exists p,
    build_payslip pending_week_db
      (paid_hourly 1) (example_run PENDING) column_tax_config = Ok p
    /\ Payslip.gross_pay p = D 0 (-3) /\ Payslip.net_pay p = D 0 (-2).
Proof.
  destruct (build_payslip_without_timesheets
              pending_week_db
              (paid_hourly 1) (example_run PENDING) column_tax_config
              2000 2200 500 620 145)
    as (p & H & _ & _ & _ & _ & Hg & _ & _ & _ & _ & _ & Hn & _);
    try reflexivity.
  exists p. split; [exact H|]. split; assumption.
Defined.

(** X17. Hours of a created timesheet.  For daily hours given in hundredths
    between 0 and 24.00, the stored total is their exact sum, the stored
    overtime is the excess over 40.00 (0.00 when there is none), and the
    regular hours payroll derives from the row, total minus overtime, are
    the total capped at 40.00. *)
Theorem create_timesheet_weekly_hours (db db1 : DB) (timesheet : TimesheetCreate)
    (u : UserInfo) (row : Timesheet.t) (mon tue wed thu fri sat sun : Z) :
  create_timesheet db timesheet u = (db1, Ok row) ->
  tc_monday_hours timesheet = D mon (-2) -> tc_tuesday_hours timesheet = D tue (-2) ->
  tc_wednesday_hours timesheet = D wed (-2) ->
  tc_thursday_hours timesheet = D thu (-2) ->
  tc_friday_hours timesheet = D fri (-2) -> tc_saturday_hours timesheet = D sat (-2) ->
  tc_sunday_hours timesheet = D sun (-2) ->
  0 <= mon <= 2400 -> 0 <= tue <= 2400 -> 0 <= wed <= 2400 -> 0 <= thu <= 2400 ->
  0 <= fri <= 2400 -> 0 <= sat <= 2400 -> 0 <= sun <= 2400 ->
  let total := mon + tue + wed + thu + fri + sat + sun in
  Timesheet.total_hours row = D total (-2)
  /\ Timesheet.overtime_hours row
     = (if 4000 <? total then D (total - 4000) (-2) else D 0 (-2))
  /\ Dec.sub (Timesheet.total_hours row) (Timesheet.overtime_hours row)
     = Ok (D (Z.min total 4000) (-2))
  /\ total <= 16800.
Proof.
  intros H Hmon Htue Hwed Hthu Hfri Hsat Hsun Bmon Btue Bwed Bthu Bfri Bsat Bsun total.
  destruct (create_timesheet_hours _ _ _ _ _ H)
    as (total' & over & Hsum & Hover & Htot & Hov & _).
  assert (Hdays : submitted_days timesheet
                  = map (fun h => D h (-2)) [mon; tue; wed; thu; fri; sat; sun]).
  { unfold submitted_days. rewrite Hmon, Htue, Hwed, Hthu, Hfri, Hsat, Hsun.
    reflexivity. }
  rewrite (sum_daily_hours_scaled timesheet (-2) mon tue wed thu fri sat sun
             ltac:(lia) Hdays) in Hsum
    by (repeat constructor; lia).
  injection Hsum as <-. fold total in Hover, Htot.
  rewrite overtime_of_hundredths in Hover by (unfold total; pow_norm; lia).
  injection Hover as <-.
  rewrite to_column_same_scale in Htot.
  assert (Hov' : Timesheet.overtime_hours row
                 = (if 4000 <? total then D (total - 4000) (-2) else D 0 (-2))).
  { rewrite Hov. destruct (4000 <? total);
      [apply to_column_same_scale|reflexivity]. }
  rewrite Htot, Hov'.
  split; [reflexivity|]. split; [reflexivity|]. split; [|unfold total; lia].
  destruct (Z.ltb_spec 4000 total) as [Hgt|Hle];
    unfold Dec.sub, Dec.neg, D; cbn [Dec.coef Dec.exp];
    rewrite add_exact_mk by (unfold total in *; dec_side);
    apply (f_equal (fun c => Ok (Dec.mk c (-2)))); lia.
Qed.

Lemma create_timesheet_weekly_hours_witness :
  Dec.sub (Timesheet.total_hours fifty_hour_row) (Timesheet.overtime_hours fifty_hour_row)
  = Ok (D 4000 (-2)).
Proof.
  apply (proj1 (proj2 (proj2
           (create_timesheet_weekly_hours (one_employee_db PENDING)
              (with_timesheets [fifty_hour_row] (one_employee_db PENDING))
              (week_in_hundredths 1 1000 1000 1000 1000 1000 0 0)
              (mkUserInfo "sub" ["employee"] None) fifty_hour_row
              1000 1000 1000 1000 1000 0 0
              eq_refl eq_refl eq_refl eq_refl eq_refl eq_refl eq_refl eq_refl
              ltac:(lia) ltac:(lia) ltac:(lia) ltac:(lia) ltac:(lia) ltac:(lia)
              ltac:(lia))))).
Defined.

(** ** Approval *)

Lemma map_status_commit (t row' : Timesheet.t) (timesheet_id : Z)
    (rows : list Timesheet.t) :
  filter (fun x => Timesheet.id x =? timesheet_id) rows = [t] ->
  row' = timesheet_with_status TS_APPROVED t ->
  map (timesheet_with_status TS_PENDING)
      (map (fun q => if Timesheet.id q =? Timesheet.id row' then row' else q) rows)
  = map (timesheet_with_status TS_PENDING) rows.
Proof.
  intros Hq ->.
  assert (Hid : Timesheet.id t = timesheet_id).
  { assert (Hin : In t (filter (fun x => Timesheet.id x =? timesheet_id) rows))
      by (rewrite Hq; left; reflexivity).
    apply filter_In in Hin. apply Z.eqb_eq. apply Hin. }
  assert (Hall : forall x, In x rows -> Timesheet.id x = timesheet_id -> x = t).
  { intros x Hx Hx'.
    assert (Hin : In x (filter (fun x => Timesheet.id x =? timesheet_id) rows)).
    { apply filter_In. split; [exact Hx|apply Z.eqb_eq; exact Hx']. }
    rewrite Hq in Hin. destruct Hin as [<-|[]]. reflexivity. }
  rewrite map_map. apply map_ext_in. intros a Ha.
  change (Timesheet.id (timesheet_with_status TS_APPROVED t)) with (Timesheet.id t).
  rewrite Hid.
  destruct (Z.eqb_spec (Timesheet.id a) timesheet_id) as [E|_]; [|reflexivity].
  rewrite (Hall a Ha E). reflexivity.
Qed.

(** X18. What an approval changes.  [approve_timesheet] never adds or
    removes a row and never changes anything but timesheet statuses.  When
    it succeeds the caller is an admin, the key denoted exactly one
    timesheet, that timesheet was pending, and it is now stored, and
    returned, unchanged except for the status approved.  When it fails,
    nothing is written. *)
Theorem approve_timesheet_outcome (db : DB) (timesheet_id : Z) (u : UserInfo) :
  same_up_to_status db (fst (approve_timesheet db timesheet_id u))
  /\ match snd (approve_timesheet db timesheet_id u) with
     | Ok row' =>
         in_groups "admin" u = true
         /\ exists t,
              filter (fun t => Timesheet.id t =? timesheet_id) (timesheets db) = [t]
              /\ Timesheet.status t = TS_PENDING
              /\ row' = timesheet_with_status TS_APPROVED t
              /\ filter (fun t => Timesheet.id t =? timesheet_id)
                        (timesheets (fst (approve_timesheet db timesheet_id u)))
                 = [row']
     | Raise _ => fst (approve_timesheet db timesheet_id u) = db
     end.
Proof.
  pose proof (approve_timesheet_inv db timesheet_id u) as H.
  destruct (approve_timesheet db timesheet_id u) as [db' [row'|x]]; cbn [fst snd].
  - destruct H as (Hadm & t & Hq & Hst & Hrow & ->).
    assert (Hid : Timesheet.id row' = timesheet_id).
    { assert (Hin : In t (filter (fun x => Timesheet.id x =? timesheet_id)
                                 (timesheets db)))
        by (rewrite Hq; left; reflexivity).
      apply filter_In in Hin. rewrite Hrow. apply Z.eqb_eq. apply Hin. }
    split.
    + split; [repeat split|].
      cbn [commit_timesheet timesheets with_timesheets].
      exact (map_status_commit t row' timesheet_id _ Hq Hrow).
    + split; [exact Hadm|]. exists t.
      split; [exact Hq|]. split; [exact Hst|]. split; [exact Hrow|].
      cbn [commit_timesheet timesheets with_timesheets]. rewrite Hid.
      clear Hrow Hst.
      assert (Hgen : forall rows,
                 filter (fun x => Timesheet.id x =? timesheet_id)
                   (map (fun q => if Timesheet.id q =? timesheet_id then row' else q)
                        rows)
                 = map (fun _ => row')
                       (filter (fun x => Timesheet.id x =? timesheet_id) rows)).
      { induction rows as [|a rows IH]; cbn [map filter]; [reflexivity|].
        destruct (Timesheet.id a =? timesheet_id) eqn:Ea.
        - rewrite Hid, Z.eqb_refl. cbn [map]. rewrite IH. reflexivity.
        - rewrite Ea. exact IH. }
      rewrite Hgen, Hq. reflexivity.
  - subst db'. split; [|reflexivity].
    split; [repeat split|reflexivity].
Qed.

(** ** Updates *)

(** What a successful update has checked and written; a refused one writes
    nothing. *)
Lemma update_timesheet_inv (db : DB) (timesheet_id : Z)
    (timesheet_update : TimesheetUpdate) (u : UserInfo) :
  match update_timesheet db timesheet_id timesheet_update u with
  | (db', Ok row) =>
      employee_only u = false
      /\ exists t,
           filter (fun t => Timesheet.id t =? timesheet_id) (timesheets db) = [t]
           /\ row = timesheet_with_update db timesheet_update t
           /\ db' = commit_timesheet row db
  | (db', Raise _) => db' = db
  end.
Proof.
  unfold update_timesheet.
  destruct (scalar_one_or_none _) as [[t|]|x] eqn:Hq; try reflexivity.
  apply scalar_one_or_none_some in Hq.
  destruct (employee_only u).
  - destruct (scalar_one_or_none
                (filter (fun e => String.eqb (Employee.cognito_sub e) (sub u))
                        (employees db))) as [[e|]|x];
      cbn [bind]; try reflexivity.
    destruct (negb (Timesheet.employee_id t =? Employee.id e)); reflexivity.
  - split; [reflexivity|]. exists t. repeat split. exact Hq.
Qed.

(** The columns of a timesheet that the pay computation reads. *)
Lemma aggregate_hours_totals (l : list Timesheet.t) :
  forall l' acc,
    map (fun t => (Timesheet.total_hours t, Timesheet.overtime_hours t)) l'
    = map (fun t => (Timesheet.total_hours t, Timesheet.overtime_hours t)) l ->
    aggregate_hours l' acc = aggregate_hours l acc.
Proof.
  induction l as [|a l IH]; intros [|a' l'] acc H; cbn [map] in H;
    try discriminate H; [reflexivity|].
  apply cons_eq in H. destruct H as [Ha Hl].
  injection Ha as Ht Ho. cbn [aggregate_hours]. rewrite Ht, Ho.
  destruct (Dec.sub (Timesheet.total_hours a) (Timesheet.overtime_hours a));
    cbn [bind]; [|reflexivity].
  destruct (Dec.add (fst acc) _); cbn [bind]; [|reflexivity].
  destruct (Dec.add (snd acc) _); cbn [bind]; [|reflexivity].
  apply IH. exact Hl.
Qed.

Lemma filter_map_same (A : Type) (f : A -> bool) (g : A -> A) (l : list A) :
  (forall a, In a l -> f (g a) = f a) ->
  filter f (map g l) = map g (filter f l).
Proof.
  induction l as [|a l IH]; intros H; cbn [map filter]; [reflexivity|].
  rewrite (H a (or_introl eq_refl)), IH by (intros b Hb; apply H; right; exact Hb).
  destruct (f a); reflexivity.
Qed.

(** Committing an updated row changes no pay computation. *)
Lemma build_payslip_update (db : DB) (timesheet_update : TimesheetUpdate)
    (t : Timesheet.t) (timesheet_id : Z) (e : Employee.t) (r : PayrollRun.t)
    (tc : TaxConfiguration.t) :
  filter (fun t => Timesheet.id t =? timesheet_id) (timesheets db) = [t] ->
  build_payslip (commit_timesheet (timesheet_with_update db timesheet_update t) db) e r tc
  = build_payslip db e r tc.
Proof.
  intros Hq.
  assert (Hall : forall x, In x (timesheets db) -> Timesheet.id x = Timesheet.id t -> x = t).
  { intros x Hx Hid.
    assert (Ht : In t (filter (fun t => Timesheet.id t =? timesheet_id) (timesheets db)))
      by (rewrite Hq; left; reflexivity).
    apply filter_In in Ht. destruct Ht as [_ Ht]. apply Z.eqb_eq in Ht.
    assert (Hin : In x (filter (fun x => Timesheet.id x =? timesheet_id) (timesheets db))).
    { apply filter_In. split; [exact Hx|]. apply Z.eqb_eq. congruence. }
    rewrite Hq in Hin. destruct Hin as [<-|[]]. reflexivity. }
  unfold build_payslip, commit_timesheet. cbn [timesheets payslips with_timesheets].
  change (Timesheet.id (timesheet_with_update db timesheet_update t))
    with (Timesheet.id t).
  set (g := fun q => if Timesheet.id q =? Timesheet.id t
                     then timesheet_with_update db timesheet_update t else q).
  assert (Hg : forall a, In a (timesheets db) ->
                         eligible e r (g a) = eligible e r a
                         /\ Timesheet.total_hours (g a) = Timesheet.total_hours a
                         /\ Timesheet.overtime_hours (g a) = Timesheet.overtime_hours a).
  { intros a Ha. unfold g.
    destruct (Z.eqb_spec (Timesheet.id a) (Timesheet.id t)) as [E|_];
      [|repeat split].
    rewrite (Hall a Ha E). repeat split. }
  rewrite (filter_map_same _ (eligible e r) g) by (intros a Ha; apply Hg; exact Ha).
  rewrite (aggregate_hours_totals (filter (eligible e r) (timesheets db))
             (map g (filter (eligible e r) (timesheets db)))); [reflexivity|].
  rewrite map_map. apply map_ext_in. intros a Ha.
  apply filter_In in Ha. destruct (Hg a (proj1 Ha)) as (_ & -> & ->). reflexivity.
Qed.

Lemma commit_timesheet_same_ids (db : DB) (row : Timesheet.t) :
  map Timesheet.id (timesheets (commit_timesheet row db))
  = map Timesheet.id (timesheets db).
Proof.
  unfold commit_timesheet. cbn [timesheets with_timesheets].
  rewrite map_map. apply map_ext. intros a.
  destruct (Z.eqb_spec (Timesheet.id a) (Timesheet.id row)) as [E|_];
    [symmetry; exact E|reflexivity].
Qed.

(** X21. What an update changes.  [update_timesheet] never adds or removes
    a row, changes no other table, and never changes the payslip computed
    for any employee and run: it assigns the daily values and the notes
    that the request sets and leaves [total_hours], [overtime_hours] and the
    status of the record as they are, whatever the status is.  It succeeds
    for every caller who is not restricted to their own records (a member
    of the employee group who is not an admin) whenever the key denotes
    exactly one timesheet.  For a restricted caller it never succeeds: once
    the caller is found to own the timesheet, the comparison with the
    missing enumeration member DRAFT raises AttributeError.  When it fails,
    nothing is written.  After a manager has set Monday to 12.00 on the
    approved forty-hour week, the record still shows 40.00 hours in total
    and no overtime, while its daily values add up to 44.00. *)
Theorem update_timesheet_outcome (db : DB) (timesheet_id : Z)
    (timesheet_update : TimesheetUpdate) (u : UserInfo) :
  (forall e r tc,
      build_payslip (fst (update_timesheet db timesheet_id timesheet_update u)) e r tc
      = build_payslip db e r tc)
  /\ same_but_timesheets db (fst (update_timesheet db timesheet_id timesheet_update u))
  /\ map Timesheet.id
         (timesheets (fst (update_timesheet db timesheet_id timesheet_update u)))
     = map Timesheet.id (timesheets db)
  /\ match snd (update_timesheet db timesheet_id timesheet_update u) with
     | Ok row =>
         employee_only u = false
         /\ exists t,
              filter (fun t => Timesheet.id t =? timesheet_id) (timesheets db) = [t]
              /\ In row (timesheets
                           (fst (update_timesheet db timesheet_id timesheet_update u)))
              /\ Timesheet.id row = timesheet_id
              /\ Timesheet.total_hours row = Timesheet.total_hours t
              /\ Timesheet.overtime_hours row = Timesheet.overtime_hours t
              /\ Timesheet.status row = Timesheet.status t
              /\ stored_days row
                 = [set_hours db (tu_monday_hours timesheet_update)
                      (Timesheet.monday_hours t);
                    set_hours db (tu_tuesday_hours timesheet_update)
                      (Timesheet.tuesday_hours t);
                    set_hours db (tu_wednesday_hours timesheet_update)
                      (Timesheet.wednesday_hours t);
                    set_hours db (tu_thursday_hours timesheet_update)
                      (Timesheet.thursday_hours t);
                    set_hours db (tu_friday_hours timesheet_update)
                      (Timesheet.friday_hours t);
                    set_hours db (tu_saturday_hours timesheet_update)
                      (Timesheet.saturday_hours t);
                    set_hours db (tu_sunday_hours timesheet_update)
                      (Timesheet.sunday_hours t)]
     | Raise _ => fst (update_timesheet db timesheet_id timesheet_update u) = db
     end
  /\ (employee_only u = false ->
      forall t,
        filter (fun t => Timesheet.id t =? timesheet_id) (timesheets db) = [t] ->
        is_ok (snd (update_timesheet db timesheet_id timesheet_update u)) = true)
  /\ (employee_only u = true ->
      is_ok (snd (update_timesheet db timesheet_id timesheet_update u)) = false
      /\ forall t e,
           filter (fun t => Timesheet.id t =? timesheet_id) (timesheets db) = [t] ->
           filter (fun e => String.eqb (Employee.cognito_sub e) (sub u)) (employees db)
           = [e] ->
           Timesheet.employee_id t = Employee.id e ->
           update_timesheet db timesheet_id timesheet_update u
           = (db, Raise (AttributeError "DRAFT")))
  /\ exists db' row,
       update_timesheet approved_week_db 1 monday_twelve
         (mkUserInfo "boss" ["manager"] None) = (db', Ok row)
       /\ Timesheet.status row = TS_APPROVED
       /\ stored_days row
          = [D 1200 (-2); D 800 (-2); D 800 (-2); D 800 (-2); D 800 (-2); D 0 (-2);
             D 0 (-2)]
       /\ Timesheet.total_hours row = D 4000 (-2)
       /\ Timesheet.overtime_hours row = D 0 (-2)
       /\ ~ hours_add_up row.
Proof.
  pose proof (update_timesheet_inv db timesheet_id timesheet_update u) as H.
  split; [|split; [|split; [|split; [|split; [|split]]]]].
  - intros e r tc.
    destruct (update_timesheet db timesheet_id timesheet_update u) as [db' [row|x]];
      cbn [fst].
    + destruct H as (_ & t & Hq & -> & ->). apply (build_payslip_update _ _ _ _ _ _ _ Hq).
    + subst db'. reflexivity.
  - destruct (update_timesheet db timesheet_id timesheet_update u) as [db' [row|x]];
      cbn [fst].
    + destruct H as (_ & t & _ & _ & ->). repeat split.
    + subst db'. repeat split.
  - destruct (update_timesheet db timesheet_id timesheet_update u) as [db' [row|x]];
      cbn [fst].
    + destruct H as (_ & t & _ & _ & ->). apply commit_timesheet_same_ids.
    + subst db'. reflexivity.
  - destruct (update_timesheet db timesheet_id timesheet_update u) as [db' [row|x]];
      cbn [fst snd]; [|exact H].
    destruct H as (Hu & t & Hq & -> & ->).
    assert (Ht : In t (timesheets db) /\ Timesheet.id t = timesheet_id).
    { assert (Hin : In t (filter (fun t => Timesheet.id t =? timesheet_id) (timesheets db)))
        by (rewrite Hq; left; reflexivity).
      apply filter_In in Hin. split; [apply Hin|apply Z.eqb_eq; apply Hin]. }
    split; [exact Hu|]. exists t. split; [exact Hq|]. split.
    { unfold commit_timesheet. cbn [timesheets with_timesheets].
      apply in_map_iff. exists t. split; [|apply Ht].
      change (Timesheet.id (timesheet_with_update db timesheet_update t))
        with (Timesheet.id t).
      rewrite Z.eqb_refl. reflexivity. }
    split; [apply Ht|]. repeat split.
  - intros Hu t Hq. unfold update_timesheet. rewrite Hq, Hu. reflexivity.
  - intros Hu. split.
    + destruct (update_timesheet db timesheet_id timesheet_update u) as [db' [row|x]];
        cbn [snd is_ok]; [|reflexivity].
      destruct H as (Hu' & _). congruence.
    + intros t e Hq He Hown. unfold update_timesheet.
      rewrite Hq, Hu, He. cbn [scalar_one_or_none bind].
      rewrite Hown, Z.eqb_refl. reflexivity.
  - eexists. eexists. split; [vm_compute; reflexivity|].
    repeat split.
    intros (total & over & Hsum & Hcmp & _).
    vm_compute in Hsum. injection Hsum as <-.
    vm_compute in Hcmp. discriminate Hcmp.
Qed.

Lemma update_timesheet_outcome_witness :
  is_ok (snd (update_timesheet approved_week_db 1 monday_twelve
                (mkUserInfo "boss" ["manager"] None))) = true
  /\ update_timesheet approved_week_db 1 monday_twelve
       (mkUserInfo "sub" ["employee"] None)
     = (approved_week_db, Raise (AttributeError "DRAFT")).
Proof.
  destruct (update_timesheet_outcome approved_week_db 1 monday_twelve
              (mkUserInfo "boss" ["manager"] None)) as (_ & _ & _ & _ & H5 & _).
  destruct (update_timesheet_outcome approved_week_db 1 monday_twelve
              (mkUserInfo "sub" ["employee"] None)) as (_ & _ & _ & _ & _ & H6 & _).
  split.
  - apply (H5 eq_refl (timesheet_with_status TS_APPROVED forty_hour_row) eq_refl).
  - apply (proj2 (H6 eq_refl) (timesheet_with_status TS_APPROVED forty_hour_row)
             banked_employee eq_refl eq_refl eq_refl).
Defined.

(** ** Payment service *)

Lemma filter_first (A : Type) (f : A -> bool) (l : list A) :
  match filter f l with
  | [] => Forall (fun a => f a = false) l
  | x :: _ =>
      exists pre post,
        l = pre ++ x :: post /\ Forall (fun a => f a = false) pre /\ f x = true
  end.
Proof.
  induction l as [|a l IH]; cbn [filter]; [constructor|].
  destruct (f a) eqn:Ea.
  - exists [], l. repeat split; [constructor|exact Ea].
  - destruct (filter f l) as [|x rest].
    + constructor; assumption.
    + destruct IH as (pre & post & -> & Hpre & Hx).
      exists (a :: pre), post. repeat split; [constructor; assumption|exact Hx].
Qed.

(** X19. Bank account verification.  When Plaid returns a list of
    accounts, [verify_bank_account] writes nothing; it answers with the
    first account of type depository in Plaid's order, and it reports
    failure exactly when no account of the list has that type (with the
    message for an empty list when the list is empty). *)
Theorem verify_bank_account_first_depository
    (get_accounts : string -> result (list PlaidAccount)) (db : DB)
    (plaid_access_token : string) (accounts : list PlaidAccount) :
  get_accounts plaid_access_token = Ok accounts ->
  fst (verify_bank_account get_accounts db plaid_access_token) = db
  /\ match snd (verify_bank_account get_accounts db plaid_access_token) with
     | Verified account_id account_name account_type account_subtype mask =>
         exists pre acc post,
           accounts = pre ++ acc :: post
           /\ Forall (fun a => pa_type a <> "depository") pre
           /\ pa_type acc = "depository"
           /\ account_id = pa_account_id acc /\ account_name = pa_name acc
           /\ account_type = "depository" /\ account_subtype = pa_subtype acc
           /\ mask = pa_mask acc
     | NotVerified error =>
         Forall (fun a => pa_type a <> "depository") accounts
         /\ error = (if Nat.eqb (List.length accounts) 0 then "No accounts found"
                     else "No depository accounts found")
     | NotVerifiedError _ => False
     end.
Proof.
  intros Hget. unfold verify_bank_account, plaid_service_get_accounts.
  rewrite Hget. cbn [plaid_service.logged].
  destruct accounts as [|a0 rest]; [split; [reflexivity|split; [constructor|reflexivity]]|].
  pose proof (filter_first _ (fun acc => String.eqb (pa_type acc) "depository")
                (a0 :: rest)) as H.
  destruct (filter (fun acc => String.eqb (pa_type acc) "depository") (a0 :: rest))
    as [|acc l]; cbn [fst snd]; (split; [reflexivity|]).
  - split; [|reflexivity].
    eapply Forall_impl; [|exact H]. cbn beta. intros a Ha Heq.
    apply String.eqb_neq in Ha. contradiction.
  - destruct H as (pre & post & Heq & Hpre & Hacc).
    apply String.eqb_eq in Hacc.
    exists pre, acc, post. repeat split; try assumption.
    eapply Forall_impl; [|exact Hpre]. cbn beta. intros a Ha Heq'.
    apply String.eqb_neq in Ha. contradiction.
Qed.

Lemma verify_bank_account_first_depository_witness :
  exists pre acc post,
    example_accounts = pre ++ acc :: post
    /\ Forall (fun a => pa_type a <> "depository") pre
    /\ pa_type acc = "depository"
    /\ "a-2" = pa_account_id acc /\ "Checking" = pa_name acc
    /\ "depository" = "depository" /\ "checking" = pa_subtype acc
    /\ Some "0000" = pa_mask acc.
Proof.
  exact (proj2 (verify_bank_account_first_depository
                  (fun _ => Ok example_accounts) empty_db
                  "access-token" example_accounts eq_refl)).
Defined.

(** X20. What a Plaid payment result means.  [send_payment_via_plaid]
    always returns a result and changes no table.  A result carrying a
    payment id is returned only if the employee exists, has exactly one
    verified bank account, and the Plaid client created a recipient for the
    employee's name, created that payment for exactly the requested amount
    and description, and reported the returned status; nothing is logged
    then.  Otherwise the result is the failure record holding the exception
    raised.  An exception of the service's own lookups (the employee or the
    verified bank account is missing or ambiguous) is logged once, by the
    payment service; an exception raised by a Plaid call is logged twice:
    by the Plaid service under the message of the failing method, then by
    the payment service. *)
Theorem send_payment_via_plaid_sound (env : Env) (db : DB) (amount : Decimal)
    (employee_id : Z) (description : string) :
  exists pr,
    snd (send_payment_via_plaid env db amount employee_id description) = Ok pr
    /\ pr_method pr = "plaid"
    /\ same_other_tables db
         (fst (send_payment_via_plaid env db amount employee_id description))
    /\ payslips (fst (send_payment_via_plaid env db amount employee_id description))
       = payslips db
    /\ match pr_payment_id pr with
       | Some payment_id =>
           exists employee bank_account recipient_id,
             filter (fun e => Employee.id e =? employee_id) (employees db) = [employee]
             /\ filter (fun b => (BankAccount.employee_id b =? employee_id)
                                 && BankAccount.is_verified b) (bank_accounts db)
                = [bank_account]
             /\ create_payment_recipient env
                  (Employee.first_name employee ++ " " ++ Employee.last_name employee)
                = Ok recipient_id
             /\ create_payment env recipient_id description amount = Ok payment_id
             /\ get_payment_status env payment_id = Ok (pr_status pr, pr_reference pr)
             /\ pr_recipient_id pr = Some recipient_id
             /\ pr_error pr = None
             /\ fst (send_payment_via_plaid env db amount employee_id description) = db
       | None =>
           exists x,
             snd (send_payment_via_plaid_try env db amount employee_id description)
             = Raise x
             /\ pr = mkPaymentResult "plaid" None None "failed" None (Some x)
             /\ (((forall e, filter (fun e => Employee.id e =? employee_id)
                                    (employees db) <> [e])
                  \/ (forall b, filter (fun b => (BankAccount.employee_id b =? employee_id)
                                                 && BankAccount.is_verified b)
                                       (bank_accounts db) <> [b]))
                 /\ log (fst (send_payment_via_plaid env db amount employee_id
                                description))
                    = log db ++ [LogError "backend.services.payment_service"
                                   "Plaid payment error" x]
                 \/ exists employee message,
                      filter (fun e => Employee.id e =? employee_id) (employees db)
                      = [employee]
                      /\ (create_payment_recipient env
                            (Employee.first_name employee ++ " "
                             ++ Employee.last_name employee) = Raise x
                          /\ message = "Error creating payment recipient"
                          \/ exists recipient_id,
                               create_payment_recipient env
                                 (Employee.first_name employee ++ " "
                                  ++ Employee.last_name employee) = Ok recipient_id
                               /\ (create_payment env recipient_id description amount
                                   = Raise x
                                   /\ message = "Error creating payment"
                                   \/ exists payment_id,
                                        create_payment env recipient_id description
                                          amount = Ok payment_id
                                        /\ get_payment_status env payment_id = Raise x
                                        /\ message = "Error getting payment status"))
                      /\ log (fst (send_payment_via_plaid env db amount employee_id
                                     description))
                         = log db ++ [LogError "backend.services.plaid_service" message x;
                                      LogError "backend.services.payment_service"
                                        "Plaid payment error" x])
       end.
Proof.
  unfold send_payment_via_plaid, send_payment_via_plaid_try.
  destruct (scalar_one_or_none
              (filter (fun e => Employee.id e =? employee_id) (employees db)))
    as [[employee|]|x] eqn:He.
  2:{ pose proof (scalar_one_or_none_none _ _ He) as Hnone.
      eexists. cbn [fst snd pr_method pr_payment_id]. split; [reflexivity|].
      split; [reflexivity|]. split; [repeat split|]. split; [reflexivity|].
      eexists. split; [reflexivity|]. split; [reflexivity|]. left.
      split; [|reflexivity]. left. intros e. rewrite Hnone. discriminate. }
  2:{ eexists. cbn [fst snd pr_method pr_payment_id]. split; [reflexivity|].
      split; [reflexivity|]. split; [repeat split|]. split; [reflexivity|].
      eexists. split; [reflexivity|]. split; [reflexivity|]. left.
      split; [|reflexivity]. left. intros e Hf. rewrite Hf in He. discriminate He. }
  apply scalar_one_or_none_some in He.
  destruct (scalar_one_or_none
              (filter (fun b => (BankAccount.employee_id b =? employee_id)
                                && BankAccount.is_verified b) (bank_accounts db)))
    as [[bank_account|]|x] eqn:Hb.
  2:{ pose proof (scalar_one_or_none_none _ _ Hb) as Hnone.
      eexists. cbn [fst snd pr_method pr_payment_id]. split; [reflexivity|].
      split; [reflexivity|]. split; [repeat split|]. split; [reflexivity|].
      eexists. split; [reflexivity|]. split; [reflexivity|]. left.
      split; [|reflexivity]. right. intros b. rewrite Hnone. discriminate. }
  2:{ eexists. cbn [fst snd pr_method pr_payment_id]. split; [reflexivity|].
      split; [reflexivity|]. split; [repeat split|]. split; [reflexivity|].
      eexists. split; [reflexivity|]. split; [reflexivity|]. left.
      split; [|reflexivity]. right. intros b Hf. rewrite Hf in Hb. discriminate Hb. }
  apply scalar_one_or_none_some in Hb.
  unfold plaid_service.create_payment_recipient, plaid_service.create_payment,
    plaid_service.get_payment_status.
  destruct (create_payment_recipient env _) as [rid|x] eqn:Hr;
    cbn [plaid_service.logged].
  2:{ eexists. cbn [fst snd pr_method pr_payment_id]. split; [reflexivity|].
      split; [reflexivity|]. split; [repeat split|]. split; [reflexivity|].
      eexists. split; [reflexivity|]. split; [reflexivity|]. right.
      exists employee, "Error creating payment recipient". split; [exact He|].
      split; [left; split; [exact Hr|reflexivity]|].
      cbn [log add_log]. rewrite <- app_assoc. reflexivity. }
  destruct (create_payment env rid description amount) as [pid|x] eqn:Hp;
    cbn [plaid_service.logged].
  2:{ eexists. cbn [fst snd pr_method pr_payment_id]. split; [reflexivity|].
      split; [reflexivity|]. split; [repeat split|]. split; [reflexivity|].
      eexists. split; [reflexivity|]. split; [reflexivity|]. right.
      exists employee, "Error creating payment". split; [exact He|].
      split; [right; exists rid; split; [exact Hr|left; split; [exact Hp|reflexivity]]|].
      cbn [log add_log]. rewrite <- app_assoc. reflexivity. }
  destruct (get_payment_status env pid) as [[st ref]|x] eqn:Hs;
    cbn [plaid_service.logged].
  2:{ eexists. cbn [fst snd pr_method pr_payment_id]. split; [reflexivity|].
      split; [reflexivity|]. split; [repeat split|]. split; [reflexivity|].
      eexists. split; [reflexivity|]. split; [reflexivity|]. right.
      exists employee, "Error getting payment status". split; [exact He|].
      split.
      { right. exists rid. split; [exact Hr|]. right. exists pid.
        split; [exact Hp|]. split; [exact Hs|reflexivity]. }
      cbn [log add_log]. rewrite <- app_assoc. reflexivity. }
  eexists. cbn [fst snd pr_method pr_payment_id pr_status pr_reference
                pr_recipient_id pr_error].
  split; [reflexivity|]. split; [reflexivity|].
  split; [apply same_other_tables_refl|]. split; [reflexivity|].
  exists employee, bank_account, rid.
  repeat split; assumption.
Qed.
